(** * flashtask-api: document reconciliation and visibility-scoped search

    A shallow embedding of the Express handlers of the flashtasks backend
    (the two-index revision with [/api/index/task], [/api/index/organization]
    and [/api/search], and the payload classifier [detectDocType] of the
    four-index revision), followed by the properties the design document
    states about them.

    Conventions of the embedding:
    - a JavaScript string is the list of its UTF-16 code units, so that
      [length] is the [.length] of the source;
    - a JSON value read from a request or from the store is a [JVal]; the
      value [JUndef] is what a property read yields when the property is
      absent, and is dropped again when an object is serialised;
    - a number is an integer (requests carrying fractions are outside the
      model);
    - an object is the list of its properties in insertion order;
    - the index store is a pair of finite maps from document identifier to
      stored document, and every call made to it is recorded in a log. *)

From Stdlib Require Import ZArith NArith List Bool String Ascii Lia DecimalString.
From stdpp Require Import base option list gmap.
Import ListNotations.

Open Scope string_scope.
Open Scope list_scope.
Open Scope Z_scope.

(** ** Strings *)

Abbreviation jstr := (list N).

(** The code units of an ASCII literal of the source. *)
Definition js (s : string) : jstr := map N_of_ascii (list_ascii_of_string s).

(** White space and line terminators, as [String.prototype.trim] removes
    them. *)
Definition is_white_space (c : N) : bool :=
  match c with
  | 9 | 10 | 11 | 12 | 13 | 32 | 160 | 5760
  | 8232 | 8233 | 8239 | 8287 | 12288 | 65279 => true
  | _ => (8192 <=? c)%N && (c <=? 8202)%N
  end%N.

Fixpoint trimStart (s : jstr) : jstr :=
  match s with
  | c :: s' => if is_white_space c then trimStart s' else s
  | [] => []
  end.

Definition trimEnd (s : jstr) : jstr := rev (trimStart (rev s)).

Definition trim (s : jstr) : jstr := trimEnd (trimStart s).

Fixpoint startsWith (s needle : jstr) : bool :=
  match needle, s with
  | [], _ => true
  | _ :: _, [] => false
  | a :: needle', b :: s' => (a =? b)%N && startsWith s' needle'
  end.

(** [s.includes(needle)]. *)
Fixpoint includes (s needle : jstr) : bool :=
  startsWith s needle
  || match s with
     | [] => false
     | _ :: s' => includes s' needle
     end.

(** [toLowerCase], on the code units whose lower-case form reaches the ASCII
    range: the capital letters, the Kelvin sign (to [k]) and the dotted
    capital I (to [i] and a combining dot). Other units are kept: no other
    unit lower-cases into ASCII, so a search for an ASCII needle in the
    result answers as in the source. *)
Definition lower_unit (c : N) : jstr :=
  if (65 <=? c)%N && (c <=? 90)%N then [(c + 32)%N]
  else if (c =? 8490)%N then [107%N]
  else if (c =? 304)%N then [105%N; 775%N]
  else [c].

Definition toLowerCase (s : jstr) : jstr := flat_map lower_unit s.

(** ** Values *)

Unset Elimination Schemes.
Inductive JVal : Type :=
| JUndef
| JNull
| JBool (b : bool)
| JNum (n : Z)
| JStr (s : jstr)
| JArr (l : list JVal)
| JObj (o : list (jstr * JVal)).
Set Elimination Schemes.

Abbreviation Obj := (list (jstr * JVal)).

(** The test of [if (v)], [!v], [a || b] and [a && b]. *)
Definition truthy (v : JVal) : bool :=
  match v with
  | JUndef | JNull => false
  | JBool b => b
  | JNum n => negb (n =? 0)
  | JStr s => match s with [] => false | _ => true end
  | JArr _ | JObj _ => true
  end.

(** [a || b] and [a && b] return one of their operands. *)
Definition jor (a b : JVal) : JVal := if truthy a then a else b.
Definition jand (a b : JVal) : JVal := if truthy a then b else a.

(** [a === b] between a value of the payload and a value of a stored
    document: two arrays or two objects are never the same reference there. *)
Definition strict_eq (a b : JVal) : bool :=
  match a, b with
  | JUndef, JUndef | JNull, JNull => true
  | JBool x, JBool y => Bool.eqb x y
  | JNum x, JNum y => x =? y
  | JStr x, JStr y => bool_decide (x = y)
  | _, _ => false
  end.

Definition isArray (v : JVal) : bool :=
  match v with JArr _ => true | _ => false end.

(** [typeof v === 'object'] holds of objects, arrays and [null]. *)
Definition typeof_object (v : JVal) : bool :=
  match v with JNull | JArr _ | JObj _ => true | _ => false end.

Definition typeof_string (v : JVal) : bool :=
  match v with JStr _ => true | _ => false end.

(** The decimal digits of an integer, as [String(n)] prints it below 10^21. *)
Definition digits (n : Z) : jstr := js (NilZero.string_of_int (Z.to_int n)).

Fixpoint join (sep : jstr) (parts : list jstr) : jstr :=
  match parts with
  | [] => []
  | [p] => p
  | p :: rest => p ++ sep ++ join sep rest
  end.

(** [String(v)]. *)
Fixpoint ToString (v : JVal) : jstr :=
  match v with
  | JUndef => js "undefined"
  | JNull => js "null"
  | JBool true => js "true"
  | JBool false => js "false"
  | JNum n => digits n
  | JStr s => s
  | JArr l =>
      join (js ",")
        (map (fun x => match x with
                       | JUndef | JNull => []
                       | _ => ToString x
                       end) l)
  | JObj _ => js "[object Object]"
  end.

(** ** Objects *)

Fixpoint lookup_prop (k : jstr) (o : Obj) : JVal :=
  match o with
  | [] => JUndef
  | (k', v) :: o' => if decide (k = k') then v else lookup_prop k o'
  end.

(** [v.k] (and [v?.k]): the properties read by the handlers exist on objects
    only. *)
Definition get_key (v : JVal) (k : jstr) : JVal :=
  match v with
  | JObj o => lookup_prop k o
  | _ => JUndef
  end.

Definition get (v : JVal) (k : string) : JVal := get_key v (js k).

(** [o.k = v]: an existing property keeps its place, a new one is added
    last. *)
Fixpoint set_prop (k : jstr) (v : JVal) (o : Obj) : Obj :=
  match o with
  | [] => [(k, v)]
  | (k', v') :: o' =>
      if decide (k = k') then (k, v) :: o' else (k', v') :: set_prop k v o'
  end.

(** [{ ...a, ...b }]. *)
Definition spread (a b : Obj) : Obj :=
  fold_left (fun acc kv => set_prop (fst kv) (snd kv) acc) b a.

(** An object literal [{ k1: v1, ... }] of the source. *)
Definition obj (props : list (string * JVal)) : JVal :=
  JObj (map (fun kv => (js (fst kv), snd kv)) props).

Definition str (s : string) : JVal := JStr (js s).

(** What the recipient of [JSON.stringify v] reads back: properties holding
    [undefined] are gone, [undefined] array elements are [null]. *)
Fixpoint toJSON (v : JVal) : JVal :=
  match v with
  | JArr l =>
      JArr (map (fun x => match x with JUndef => JNull | _ => toJSON x end) l)
  | JObj o =>
      JObj ((fix props (o : Obj) : Obj :=
               match o with
               | [] => []
               | (k, x) :: o' =>
                   match x with
                   | JUndef => props o'
                   | _ => (k, toJSON x) :: props o'
                   end
               end) o)
  | _ => v
  end.

Definition toJSON_props (o : Obj) : Obj :=
  match toJSON (JObj o) with JObj o' => o' | _ => [] end.

(** ** Requests, responses and the index store *)

Record Request := {
  headers : JVal;   (* req.headers *)
  body : JVal;      (* req.body, as [express.json()] parsed it *)
  query_of : JVal   (* req.query *)
}.

Record Response := { status : Z; json : JVal }.

(** [res.json(v)] and [res.status(code).json(v)]. *)
Definition res_json (v : JVal) : Response := {| status := 200; json := toJSON v |}.
Definition res_status_json (code : Z) (v : JVal) : Response :=
  {| status := code; json := toJSON v |}.

(** The two indices of the store, each a map from document identifier to the
    stored [_source]. *)
Record Store := {
  tasks : gmap jstr Obj;
  organizations : gmap jstr Obj
}.

Definition empty_store : Store := {| tasks := ∅; organizations := ∅ |}.

(** The client addresses a document by the text of its identifier. *)
Definition doc_key (id : JVal) : jstr := ToString id.

(** ** The query language of the store *)

Unset Elimination Schemes.
Inductive Clause :=
| Term (field : jstr) (value : JVal)
| Match (field : jstr) (value : JVal)
| MultiMatch (text : jstr) (type : jstr) (fields : list jstr) (operator : jstr)
| BoolQ (must filter should : list Clause) (minimum_should_match : option nat).
Set Elimination Schemes.

Record SearchRequest := {
  sr_index : list jstr;
  sr_size : Z;
  sr_query : Clause;
  sr_source : list jstr
}.

(** The calls a handler makes to the store client, in order. *)
Inductive Call :=
| EsGetMapping (indices : list jstr)
| EsSearch (request : SearchRequest)
| EsGet (index id : jstr)
| EsIndex (index id : jstr) (document : Obj)
| EsDelete (index id : jstr)
| EsRefresh (index : jstr).

(** ** What both indexing handlers read from a request *)

(** [event]: the first body event if the body lists several, else the header
    event, else the empty string. *)
Definition event_of (req : Request) : JVal :=
  let headerEvent :=
    jor (get (headers req) "x-appwrite-event")
        (get (headers req) "x-appwrite-webhook-event") in
  let bodyEvent :=
    jor (jor (get (body req) "event") (get (body req) "events"))
        (get (body req) "type") in
  jor (jor (match bodyEvent with
            | JArr l => nth 0 l JUndef
            | _ => bodyEvent
            end) headerEvent) (JStr []).

(** [event && String(event).includes('delete')]. *)
Definition is_delete_event (event : JVal) : bool :=
  truthy event && includes (ToString event) (js "delete").

(** [document]: the first of [body.document], [body.payload.document],
    [body.payload], or the body itself when it has an [$id]. *)
Definition document_of (req : Request) : JVal :=
  jor (jor (jor (get (body req) "document")
                (get (get (body req) "payload") "document"))
           (get (body req) "payload"))
      (if truthy (get (body req) "$id") then body req else JUndef).

(** ** POST /api/index/task *)

Definition task_body (document : JVal) : JVal :=
  obj [ ("docType", str "tasks");
        ("title", get document "title");
        ("description", get document "description");
        ("category", get document "category");
        ("status", get document "status");
        ("priority", get document "priority");
        ("dueDate", get document "dueDate");
        ("userEmail", get document "userEmail");
        ("$createdAt", get document "$createdAt");
        ("$updatedAt", get document "$updatedAt");
        ("assignee", get document "assignee");
        ("invites", get document "invites") ].

Definition stored (v : JVal) : Obj :=
  match toJSON v with JObj o => o | _ => [] end.

Definition index_task (es : Store) (req : Request) : Response * Store * list Call :=
  let event := event_of req in
  let document := document_of req in
  if negb (truthy (get document "$id")) then
    (res_status_json 400 (obj [("ok", JBool false); ("error", str "missing_document")]),
     es, [])
  else
    let id := get document "$id" in
    if is_delete_event event then
      (res_json (obj [("ok", JBool true); ("action", str "deleted"); ("id", id)]),
       {| tasks := delete (doc_key id) (tasks es); organizations := organizations es |},
       [EsDelete (js "tasks") (doc_key id)])
    else
      let body := task_body document in
      (res_json (obj [("ok", JBool true); ("action", str "upserted"); ("id", id);
                      ("index", str "tasks")]),
       {| tasks := <[doc_key id := stored body]> (tasks es);
          organizations := organizations es |},
       [EsIndex (js "tasks") (doc_key id) (stored body); EsRefresh (js "tasks")]).

(** ** POST /api/index/organization *)

(** The two readings of the clock, one in the member branch and one in the
    team branch, each made only when the payload has no [$id]. *)
Record Clock := { now_member : Z; now_team : Z }.

(** [l.findIndex(p)]; [None] stands for -1. *)
Fixpoint findIndex (p : JVal -> bool) (l : list JVal) : option nat :=
  match l with
  | [] => None
  | x :: l' => if p x then Some 0%nat else S <$> findIndex p l'
  end.

(** The own properties an object spread copies. What the handlers spread
    (an entry found by its [$id], the [_source] of a hit) is an object. *)
Definition own_props (v : JVal) : Obj :=
  match v with JObj o => o | _ => [] end.

(** The find-or-append step shared by the member and the team branch:
    [i = coll.findIndex((m) => m && m.$id === entry.$id)], then
    [coll[i] = { ...coll[i], ...entry }] when found and [coll.push(entry)]
    when not. *)
Definition upsert_entry (entry : Obj) (coll : list JVal) : list JVal :=
  match findIndex
          (fun m => truthy m && strict_eq (get m "$id") (lookup_prop (js "$id") entry))
          coll with
  | Some i => <[i := JObj (spread (own_props (nth i coll JUndef)) entry)]> coll
  | None => coll ++ [JObj entry]
  end.

Definition member_test (document : JVal) : bool :=
  truthy (jor (get document "email") (get document "role")).

Definition team_test (document : JVal) : bool :=
  truthy (get document "name") && isArray (get document "members").

Definition member_of (clock : Clock) (document : JVal) : Obj :=
  [ (js "$id", jor (get document "$id") (JStr (js "mem_" ++ digits (now_member clock))));
    (js "name", get document "name");
    (js "email", get document "email");
    (js "role", get document "role") ].

Definition team_of (clock : Clock) (document : JVal) : Obj :=
  [ (js "$id", jor (get document "$id") (JStr (js "team_" ++ digits (now_team clock))));
    (js "name", get document "name");
    (js "members", jor (get document "members") (JArr [])) ].

(** One merge branch on the collection [field] of [orgDoc]:
    [orgDoc[field] = orgDoc[field] || []], then the find-or-append step.
    [None] is the [TypeError] of calling [findIndex] on a value that is not
    an array. *)
Definition merge_into (field : string) (entry : Obj) (orgDoc : Obj) : option Obj :=
  let orgDoc1 := set_prop (js field) (jor (lookup_prop (js field) orgDoc) (JArr [])) orgDoc in
  match lookup_prop (js field) orgDoc1 with
  | JArr coll => Some (set_prop (js field) (JArr (upsert_entry entry coll)) orgDoc1)
  | _ => None
  end.

Definition merge_member (clock : Clock) (document : JVal) (orgDoc : Obj) : option Obj :=
  if member_test document then merge_into "members" (member_of clock document) orgDoc
  else Some orgDoc.

Definition merge_team (clock : Clock) (document : JVal) (orgDoc : Obj) : option Obj :=
  if team_test document then merge_into "teams" (team_of clock document) orgDoc
  else Some orgDoc.

(** The aggregate a merge starts from when the parent is not stored yet. *)
Definition empty_organization : Obj :=
  [ (js "docType", str "organizations");
    (js "members", JArr []);
    (js "teams", JArr []);
    (js "name", JStr []);
    (js "slug", JStr []);
    (js "description", JStr []) ].

Definition organization_body (document : JVal) : JVal :=
  obj [ ("docType", str "organizations");
        ("name", get document "name");
        ("slug", get document "slug");
        ("description", get document "description");
        ("members", jor (get document "members") (JArr []));
        ("teams", jor (get document "teams") (JArr []));
        ("createdAt", jor (get document "createdAt") (get document "$createdAt")) ].

(** [document.$id && (document.members || document.teams || document.name)]. *)
Definition is_full_organization (document : JVal) : bool :=
  truthy (get document "$id")
  && truthy (jor (jor (get document "members") (get document "teams"))
                 (get document "name")).

(** [document.organizationId || document.orgId
     || (document.org && document.org.$id) || document.parentOrgId]. *)
Definition parentOrgId_of (document : JVal) : JVal :=
  jor (jor (jor (get document "organizationId") (get document "orgId"))
           (jand (get document "org") (get (get document "org") "$id")))
      (get document "parentOrgId").

(** [document.$id || document.organizationId || document.orgId]. *)
Definition organization_id_of (document : JVal) : JVal :=
  jor (jor (get document "$id") (get document "organizationId")) (get document "orgId").

Definition with_organizations (es : Store) (m : gmap jstr Obj) : Store :=
  {| tasks := tasks es; organizations := m |}.

Definition index_failed : Response :=
  res_status_json 500 (obj [("ok", JBool false); ("error", str "index_failed")]).

Definition index_organization (clock : Clock) (es : Store) (req : Request)
  : Response * Store * list Call :=
  let event := event_of req in
  let document := document_of req in
  if negb (truthy document) then
    (res_status_json 400 (obj [("ok", JBool false); ("error", str "missing_document")]),
     es, [])
  else
    let id := organization_id_of document in
    if is_delete_event event && truthy id then
      (res_json (obj [("ok", JBool true); ("action", str "deleted"); ("id", id)]),
       with_organizations es (delete (doc_key id) (organizations es)),
       [EsDelete (js "organizations") (doc_key id)])
    else if is_full_organization document then
      let body := organization_body document in
      let key := doc_key (get document "$id") in
      (res_json (obj [("ok", JBool true); ("action", str "upserted");
                      ("id", get document "$id"); ("index", str "organizations")]),
       with_organizations es (<[key := stored body]> (organizations es)),
       [EsIndex (js "organizations") key (stored body); EsRefresh (js "organizations")])
    else
      let parentOrgId := parentOrgId_of document in
      if negb (truthy parentOrgId) then
        (res_status_json 400
           (obj [("ok", JBool false); ("error", str "missing_parent_org_id")]),
         es, [])
      else
        let key := doc_key parentOrgId in
        let orgDoc := default empty_organization (organizations es !! key) in
        match merge_member clock document orgDoc ≫= merge_team clock document with
        | None => (index_failed, es, [EsGet (js "organizations") key])
        | Some orgDoc' =>
            let written := toJSON_props (set_prop (js "docType") (str "organizations") orgDoc') in
            (res_json (obj [("ok", JBool true); ("action", str "merged_into_organization");
                            ("id", parentOrgId)]),
             with_organizations es (<[key := written]> (organizations es)),
             [EsGet (js "organizations") key;
              EsIndex (js "organizations") key written;
              EsRefresh (js "organizations")])
        end.

(** ** The mapping summary *)

Definition INDICES : list string := ["tasks"; "organizations"].

Definition fieldsToCheck : list string :=
  ["userEmail"; "email"; "members.email"; "name"; "title"; "description"].

(** [s.split(sep)] for a one-unit separator. *)
Fixpoint split_on (sep : N) (s : jstr) : list jstr :=
  match s with
  | [] => [[]]
  | c :: s' =>
      if (c =? sep)%N then [] :: split_on sep s'
      else match split_on sep s' with
           | p :: ps => (c :: p) :: ps
           | [] => [[c]]
           end
  end.

(** The loop of [hasKeywordSubfield] over the path segments; [None] is a
    [return false] from inside the loop. *)
Fixpoint walk_mapping (parts : list jstr) (cur : JVal) : option JVal :=
  match parts with
  | [] => Some cur
  | part :: rest =>
      if negb (truthy cur) then None
      else
        let next := get_key cur part in
        if negb (truthy next) then None
        else if truthy (get next "properties")
             then walk_mapping rest (get next "properties")
             else walk_mapping rest next
  end.

Definition hasKeywordSubfield (mapping : JVal) (path : string) : bool :=
  if negb (truthy mapping) then false
  else
    let cur :=
      if truthy (jand (get mapping "mappings")
                      (get (get mapping "mappings") "properties"))
      then get (get mapping "mappings") "properties"
      else mapping in
    match walk_mapping (split_on 46 (js path)) cur with
    | None => false
    | Some cur =>
        if negb (truthy cur) then false
        else if strict_eq (get cur "type") (str "keyword") then true
        else if truthy (jand (get cur "fields") (get (get cur "fields") "keyword"))
             then true
             else false
    end.

(** [loadMappingSummary], given the reply of [getMapping] ([None] when the
    call is rejected, which the source turns into an empty object): the new
    content of [mappingSummaryCache]. A reply that is [null] makes the body
    throw, and the cache stays as it was. *)
Definition loadMappingSummary (cache : Obj) (reply : option JVal) : Obj :=
  let raw := default (JObj []) reply in
  match raw with
  | JUndef | JNull => cache
  | _ =>
      map (fun idx =>
             let mapping := jor (jor (get raw idx) (get raw idx)) raw in
             (js idx,
              JObj (map (fun f => (js f, JBool (hasKeywordSubfield mapping f)))
                        fieldsToCheck)))
          INDICES
  end.

(** ** POST /api/search *)

Record Hit := {
  hit_id : JVal;       (* h._id *)
  hit_index : JVal;    (* h._index *)
  hit_score : JVal;    (* h._score *)
  hit_source : JVal    (* h._source *)
}.

Record SearchResult := {
  took : JVal;         (* result.took *)
  total : JVal;        (* result.hits?.total *)
  hits : list Hit      (* result.hits?.hits || [] *)
}.

(** The store as the search handler meets it: what [getMapping] and [search]
    answer, [None] standing for a rejected call. *)
Record Backend := {
  mapping_reply : option JVal;
  search_reply : SearchRequest -> option SearchResult
}.

Definition fieldsToSearch : list string :=
  [ "title^3"; "description^2"; "category"; "assignee"; "invites"; "name^3";
    "slug"; "members.name"; "members.email"; "teams.name"; "email" ].

Definition sourceFields : list string :=
  [ "docType"; "title"; "description"; "category"; "status"; "priority";
    "dueDate"; "userEmail"; "$createdAt"; "$updatedAt"; "name"; "slug";
    "members"; "teams"; "email" ].

(** [fallbackField || fieldBase] on two literals of the source. *)
Definition or_literal (a b : string) : string :=
  match a with EmptyString => b | _ => a end.

(** [termOrMatch(fieldBase, idx, fallbackField)], with the summary [m] and
    the caller's [userEmail] it closes over. *)
Definition termOrMatch (m userEmail : JVal) (fieldBase idx fallbackField : string) : Clause :=
  let hasKeyword := jand (get m idx) (get (get m idx) fieldBase) in
  if truthy hasKeyword
  then Term (js (or_literal fallbackField fieldBase) ++ js ".keyword") userEmail
  else Match (js (or_literal fallbackField fieldBase)) userEmail.

Definition userFilters (m userEmail : JVal) : Clause :=
  BoolQ [] []
    [ BoolQ [ Term (js "_index") (str "tasks");
              termOrMatch m userEmail "userEmail" "tasks" "userEmail" ] [] [] None;
      BoolQ [ Term (js "_index") (str "organizations");
              termOrMatch m userEmail "members.email" "organizations" "members.email" ]
            [] [] None ]
    (Some 1%nat).

Definition textClause (query : JVal) : Clause :=
  MultiMatch (ToString query) (js "bool_prefix") (map js fieldsToSearch) (js "or").

Definition shape_hit (h : Hit) : JVal :=
  JObj (spread [ (js "$id", hit_id h); (js "_index", hit_index h);
                 (js "_score", hit_score h) ]
               (own_props (jor (hit_source h) (JObj [])))).

Definition search_failed : Response :=
  res_status_json 500 (obj [("results", JArr []); ("error", str "search_failed")]).

(** [req.body?.debug === true || req.query?.debug === 'true']: the request
    asks for the diagnostic second search. *)
Definition debug_of (req : Request) : bool :=
  strict_eq (get (body req) "debug") (JBool true)
  || strict_eq (get (query_of req) "debug") (str "true").

Section Search.

(** [Number(v)], [None] standing for [NaN]: only the result-size bound reads
    it. *)
Variable Number : JVal -> option Z.

(** [Math.min(Number(limit) || 10, 50)]. *)
Definition size_of (limit : JVal) : Z :=
  Z.min (match Number limit with
         | Some n => if n =? 0 then 10 else n
         | None => 10
         end) 50.

Definition esQuery (m : JVal) (query userEmail limit : JVal) : SearchRequest :=
  {| sr_index := map js INDICES;
     sr_size := size_of limit;
     sr_query := BoolQ [textClause query] [userFilters m userEmail] [] None;
     sr_source := map js sourceFields |}.

(** The diagnostic copy of the request: [bool.filter = []]. *)
Definition unfilteredQuery (q : SearchRequest) : SearchRequest :=
  {| sr_index := sr_index q;
     sr_size := sr_size q;
     sr_query := match sr_query q with
                 | BoolQ must _ should msm => BoolQ must [] should msm
                 | c => c
                 end;
     sr_source := sr_source q |}.

(** The handler: the response, the mapping summary cache it leaves, and
    the calls it made to the store. *)
Definition search (backend : Backend) (cache : Obj) (req : Request)
  : Response * Obj * list Call :=
  match body req with
  | JUndef | JNull => (search_failed, cache, [])
  | _ =>
      let query := get (body req) "query" in
      let userEmail := get (body req) "userEmail" in
      let limit := match get (body req) "limit" with
                   | JUndef => JNum 10
                   | v => v
                   end in
      if negb (truthy userEmail) then
        (res_status_json 400
           (obj [("results", JArr []); ("error", str "userEmail required")]),
         cache, [])
      else if negb (truthy query) || (length (trim (ToString query)) <? 2)%nat then
        (res_json (obj [("results", JArr [])]), cache, [])
      else
        let '(cache, loaded) :=
          match cache with
          | [] => (loadMappingSummary cache (mapping_reply backend),
                   [EsGetMapping (map js INDICES)])
          | _ => (cache, [])
          end in
        let m := JObj cache in
        let q := esQuery m query userEmail limit in
        match search_reply backend q with
        | None => (search_failed, cache, loaded ++ [EsSearch q])
        | Some result =>
            let debug := debug_of req in
            let items := map shape_hit (hits result) in
            let filtered :=
              obj [ ("took", took result);
                    ("total", jor (total result) JNull);
                    ("count", JNum (Z.of_nat (length items))) ] in
            if debug then
              let q2 := unfilteredQuery q in
              match search_reply backend q2 with
              | None => (search_failed, cache, loaded ++ [EsSearch q; EsSearch q2])
              | Some r2 =>
                  let unfiltered :=
                    obj [ ("took", took r2);
                          ("total", jor (total r2) JNull);
                          ("count", JNum (Z.of_nat (length (hits r2))));
                          ("sample", JArr (map shape_hit (take 5 (hits r2)))) ] in
                  (res_json (obj [ ("results", JArr items);
                                   ("debug", obj [ ("filtered", filtered);
                                                   ("unfiltered", unfiltered) ]) ]),
                   cache, loaded ++ [EsSearch q; EsSearch q2])
              end
            else
              (res_json (obj [("results", JArr items)]), cache, loaded ++ [EsSearch q])
        end
  end.

End Search.

(** ** Which documents a query selects

    The store is opaque: how it decides a [term], [match] or [multi_match]
    clause on a document is a parameter. A [bool] clause selects a document
    when every [must] and every [filter] clause does and at least
    [minimum_should_match] of its [should] clauses do; when that number is
    not given it is 1 for a clause made of [should] alone and 0 otherwise. *)
Section Matching.

Variable Doc : Type.
Variable leaf : Clause -> Doc -> bool.

Fixpoint selects (c : Clause) (d : Doc) : bool :=
  match c with
  | BoolQ must filter should msm =>
      forallb (fun c' => selects c' d) must
      && forallb (fun c' => selects c' d) filter
      && (match msm with
          | Some n => n
          | None => match must, filter, should with
                    | [], [], _ :: _ => 1
                    | _, _, _ => 0
                    end
          end <=? length (List.filter (fun c' => selects c' d) should))%nat
  | _ => leaf c d
  end.

End Matching.

(** ** The payload classifier (four-index revision) *)

Inductive DocType := Tasks | Organizations | Teams | OrgMembers.

(** The index name each kind is returned as. *)
Definition docType_name (t : DocType) : string :=
  match t with
  | Tasks => "tasks"
  | Organizations => "organizations"
  | Teams => "teams"
  | OrgMembers => "orgmembers"
  end.

(** [explicit]: the first hint found in the body or the headers. *)
Definition explicit_hint (req : Request) : JVal :=
  jor (jor (jor (jor (jor (jor (get (body req) "docType") (get (body req) "type"))
                          (get (body req) "collection"))
                     (get (get (body req) "payload") "collection"))
                (get (body req) "table"))
           (get (headers req) "x-doc-type"))
      (get (headers req) "x-collection").

(** [Array.isArray(v) && v.length]. *)
Definition nonempty_array (v : JVal) : bool :=
  match v with JArr (_ :: _) => true | _ => false end.

(** The four structural tests, as the source writes them. *)
Definition looks_orgmember (doc : JVal) : bool :=
  truthy (jor (get doc "email") (get doc "role")).

Definition looks_organization (doc : JVal) : bool :=
  truthy (get doc "slug")
  || nonempty_array (get doc "teams")
  || match get doc "members" with
     | JArr (m0 :: _) => typeof_object m0
     | _ => false
     end.

Definition looks_team (doc : JVal) : bool :=
  truthy (get doc "name")
  && match get doc "members" with
     | JArr (m0 :: ms) => forallb typeof_string (m0 :: ms)
     | _ => false
     end.

Definition looks_task (doc : JVal) : bool :=
  truthy (jor (jor (jor (get doc "title") (get doc "userEmail"))
                   (get doc "description"))
              (get doc "status")).

Definition detectDocType (req : Request) (doc : JVal) : DocType :=
  let heuristics :=
    if looks_orgmember doc then OrgMembers
    else if looks_organization doc then Organizations
    else if looks_team doc then Teams
    else if looks_task doc then Tasks
    else Tasks in
  match explicit_hint req with
  | JStr explicit =>
      let low := toLowerCase explicit in
      if includes low (js "task") then Tasks
      else if includes low (js "org") && includes low (js "member") then OrgMembers
      else if includes low (js "org") || includes low (js "organization") then Organizations
      else if includes low (js "team") then Teams
      else heuristics
  | _ => heuristics
  end.

(** The visibility filter of the four-index revision, kept for comparison
    with [userFilters]: it scopes by the [docType] field and lets every team
    document through. *)
Definition userFilters_four_index (m userEmail : JVal) : Clause :=
  BoolQ [] []
    [ BoolQ [ Term (js "docType") (str "tasks");
              termOrMatch m userEmail "userEmail" "tasks" "userEmail" ] [] [] None;
      BoolQ [ Term (js "docType") (str "organizations");
              termOrMatch m userEmail "members.email" "organizations" "members.email" ]
            [] [] None;
      BoolQ [ Term (js "docType") (str "orgmembers");
              termOrMatch m userEmail "email" "orgmembers" "email" ] [] [] None;
      Term (js "docType") (str "teams") ]
    (Some 1%nat).

(** ** GET /api/mappings *)

Definition mapping_failed : Response :=
  res_status_json 500 (obj [("ok", JBool false); ("error", str "mapping_failed")]).

(** The handler, given what [getMapping] answers for the indices it is asked
    about ([raw_reply], [None] when rejected): the response, the mapping
    summary cache it leaves, and the calls it made. *)
Definition mappings (backend : Backend) (raw_reply : list jstr -> option JVal)
    (cache : Obj) (req : Request) : Response * Obj * list Call :=
  match query_of req with
  | JUndef | JNull => (mapping_failed, cache, [])
  | _ =>
      let index := get (query_of req) "index" in
      let refresh := get (query_of req) "refresh" in
      let indices :=
        if truthy index then map trim (split_on 44 (ToString index))
        else map js INDICES in
      let '(cache, loaded) :=
        if strict_eq refresh (str "true")
        then (loadMappingSummary cache (mapping_reply backend),
              [EsGetMapping (map js INDICES)])
        else (cache, []) in
      let raw := default (JObj []) (raw_reply indices) in
      (res_json (obj [ ("ok", JBool true);
                       ("indices", JArr (map JStr indices));
                       ("mappings", raw);
                       ("summary", JObj cache) ]),
       cache, loaded ++ [EsGetMapping indices])
  end.

(** ** The four-index revision: POST /api/index and POST /api/search *)

Definition INDICES4 : list string := ["tasks"; "organizations"; "teams"; "orgmembers"].

(** One map of stored documents per index. *)
Record Store4 := {
  idx_tasks : gmap jstr Obj;
  idx_organizations : gmap jstr Obj;
  idx_teams : gmap jstr Obj;
  idx_orgmembers : gmap jstr Obj
}.

Definition empty_store4 : Store4 :=
  {| idx_tasks := ∅; idx_organizations := ∅; idx_teams := ∅; idx_orgmembers := ∅ |}.

Definition index_of (t : DocType) (es : Store4) : gmap jstr Obj :=
  match t with
  | Tasks => idx_tasks es
  | Organizations => idx_organizations es
  | Teams => idx_teams es
  | OrgMembers => idx_orgmembers es
  end.

Definition put_index (t : DocType) (m : gmap jstr Obj) (es : Store4) : Store4 :=
  match t with
  | Tasks =>
      {| idx_tasks := m; idx_organizations := idx_organizations es;
         idx_teams := idx_teams es; idx_orgmembers := idx_orgmembers es |}
  | Organizations =>
      {| idx_tasks := idx_tasks es; idx_organizations := m;
         idx_teams := idx_teams es; idx_orgmembers := idx_orgmembers es |}
  | Teams =>
      {| idx_tasks := idx_tasks es; idx_organizations := idx_organizations es;
         idx_teams := m; idx_orgmembers := idx_orgmembers es |}
  | OrgMembers =>
      {| idx_tasks := idx_tasks es; idx_organizations := idx_organizations es;
         idx_teams := idx_teams es; idx_orgmembers := m |}
  end.

(** The document body the handler builds for each kind. *)
Definition document_body (docType : DocType) (document : JVal) : JVal :=
  match docType with
  | Tasks =>
      obj [ ("docType", str "tasks");
            ("title", get document "title");
            ("description", get document "description");
            ("category", get document "category");
            ("status", get document "status");
            ("priority", get document "priority");
            ("dueDate", get document "dueDate");
            ("userEmail", get document "userEmail");
            ("$createdAt", get document "$createdAt");
            ("$updatedAt", get document "$updatedAt");
            ("assignee", get document "assignee");
            ("invites", get document "invites") ]
  | Organizations =>
      obj [ ("docType", str "organizations");
            ("name", get document "name");
            ("slug", get document "slug");
            ("description", get document "description");
            ("members", get document "members");
            ("teams", get document "teams");
            ("createdAt", jor (get document "createdAt") (get document "$createdAt")) ]
  | Teams =>
      obj [ ("docType", str "teams");
            ("name", get document "name");
            ("members", get document "members") ]
  | OrgMembers =>
      obj [ ("docType", str "orgmembers");
            ("name", get document "name");
            ("email", get document "email");
            ("role", get document "role") ]
  end.

Definition index_document (es : Store4) (req : Request)
  : Response * Store4 * list Call :=
  let event := event_of req in
  let document := document_of req in
  if negb (truthy (get document "$id")) then
    (res_status_json 400 (obj [("ok", JBool false); ("error", str "missing_document")]),
     es, [])
  else
    let id := get document "$id" in
    if is_delete_event event then
      (res_json (obj [("ok", JBool true); ("action", str "deleted"); ("id", id)]),
       {| idx_tasks := delete (doc_key id) (idx_tasks es);
          idx_organizations := delete (doc_key id) (idx_organizations es);
          idx_teams := delete (doc_key id) (idx_teams es);
          idx_orgmembers := delete (doc_key id) (idx_orgmembers es) |},
       map (fun idx => EsDelete (js idx) (doc_key id)) INDICES4)
    else
      let docType := detectDocType req document in
      let body := document_body docType document in
      let indexName := docType_name docType in
      (res_json (obj [("ok", JBool true); ("action", str "upserted"); ("id", id);
                      ("index", str indexName)]),
       put_index docType (<[doc_key id := stored body]> (index_of docType es)) es,
       [EsIndex (js indexName) (doc_key id) (stored body); EsRefresh (js indexName)]).

(** [loadMappingSummary] of this revision: the same walk over four indices. *)
Definition loadMappingSummary4 (cache : Obj) (reply : option JVal) : Obj :=
  let raw := default (JObj []) reply in
  match raw with
  | JUndef | JNull => cache
  | _ =>
      map (fun idx =>
             let mapping := jor (jor (get raw idx) (get raw idx)) raw in
             (js idx,
              JObj (map (fun f => (js f, JBool (hasKeywordSubfield mapping f)))
                        fieldsToCheck)))
          INDICES4
  end.

Section Search4.

Variable Number : JVal -> option Z.

Definition esQuery4 (m : JVal) (query userEmail limit : JVal) : SearchRequest :=
  {| sr_index := map js INDICES4;
     sr_size := size_of Number limit;
     sr_query :=
       BoolQ [ MultiMatch (ToString query) (js "bool_prefix") (map js fieldsToSearch)
                 (js "and") ]
             [userFilters_four_index m userEmail] [] None;
     sr_source := map js sourceFields |}.

Definition search_four_index (backend : Backend) (cache : Obj) (req : Request)
  : Response * Obj * list Call :=
  match body req with
  | JUndef | JNull => (search_failed, cache, [])
  | _ =>
      let query := get (body req) "query" in
      let userEmail := get (body req) "userEmail" in
      let limit := match get (body req) "limit" with
                   | JUndef => JNum 10
                   | v => v
                   end in
      if negb (truthy userEmail) then
        (res_status_json 400
           (obj [("results", JArr []); ("error", str "userEmail required")]),
         cache, [])
      else if negb (truthy query) || (length (trim (ToString query)) <? 2)%nat then
        (res_json (obj [("results", JArr [])]), cache, [])
      else
        let '(cache, loaded) :=
          match cache with
          | [] => (loadMappingSummary4 cache (mapping_reply backend),
                   [EsGetMapping (map js INDICES4)])
          | _ => (cache, [])
          end in
        let q := esQuery4 (JObj cache) query userEmail limit in
        match search_reply backend q with
        | None => (search_failed, cache, loaded ++ [EsSearch q])
        | Some result =>
            (res_json (obj [("results", JArr (map shape_hit (hits result)))]),
             cache, loaded ++ [EsSearch q])
        end
  end.

End Search4.

(** ** The single-index revision: POST /api/index behind a webhook secret *)

(** The process environment the handler reads: the index name
    ([ELASTICSEARCH_INDEX], or ['tasks']) and the secret, when one is set. *)
Record Env1 := {
  ELASTIC_INDEX : jstr;
  WEBHOOK_SECRET : option jstr
}.

(** The secret check: passed when no secret is configured (unset or empty),
    else when [x-webhook-secret] or [x-webhook-token] is the secret. *)
Definition authorized (env : Env1) (req : Request) : bool :=
  match WEBHOOK_SECRET env with
  | Some (c :: s) =>
      strict_eq (jor (get (headers req) "x-webhook-secret")
                     (get (headers req) "x-webhook-token"))
                (JStr (c :: s))
  | _ => true
  end.

Definition task_body1 (document : JVal) : JVal :=
  obj [ ("title", get document "title");
        ("description", get document "description");
        ("category", get document "category");
        ("status", get document "status");
        ("priority", get document "priority");
        ("dueDate", get document "dueDate");
        ("userEmail", get document "userEmail");
        ("$createdAt", get document "$createdAt");
        ("$updatedAt", get document "$updatedAt");
        ("assignee", get document "assignee");
        ("invites", get document "invites") ].

Definition index_single (env : Env1) (es : gmap jstr Obj) (req : Request)
  : Response * gmap jstr Obj * list Call :=
  if negb (authorized env req) then
    (res_status_json 401 (obj [("ok", JBool false); ("error", str "unauthorized")]),
     es, [])
  else
    let event := event_of req in
    let document := document_of req in
    if negb (truthy (get document "$id")) then
      (res_status_json 400 (obj [("ok", JBool false); ("error", str "missing_document")]),
       es, [])
    else
      let id := get document "$id" in
      if is_delete_event event then
        (res_json (obj [("ok", JBool true); ("action", str "deleted"); ("id", id)]),
         delete (doc_key id) es,
         [EsDelete (ELASTIC_INDEX env) (doc_key id)])
      else
        let body := task_body1 document in
        (res_json (obj [("ok", JBool true); ("action", str "upserted"); ("id", id)]),
         <[doc_key id := stored body]> es,
         [EsIndex (ELASTIC_INDEX env) (doc_key id) (stored body);
          EsRefresh (ELASTIC_INDEX env)]).

(** ** The organization handler against a store that rejects calls

    [index_organization] above is the handler against a store that carries
    out every call. The source also says what happens when a call is
    rejected: a rejected [get] is caught and read as no stored aggregate, a
    rejected [delete] and a rejected [refresh] are caught and ignored, and a
    rejected [index] is not caught at the call: it reaches the handler's
    [catch], which answers 500 [index_failed]. [Faults] says which calls the
    store rejects; a rejected call is in the log, and changes nothing in the
    store. A [refresh] changes nothing either way. *)
Record Faults := {
  get_rejected : jstr -> jstr -> bool;            (* esClient.get({index, id}) *)
  index_rejected : jstr -> jstr -> Obj -> bool;   (* esClient.index({index, id, document}) *)
  delete_rejected : jstr -> jstr -> bool          (* esClient.delete({index, id}) *)
}.

Definition no_faults : Faults :=
  {| get_rejected := fun _ _ => false;
     index_rejected := fun _ _ _ => false;
     delete_rejected := fun _ _ => false |}.

Definition index_organization_on (faults : Faults) (clock : Clock) (es : Store)
    (req : Request) : Response * Store * list Call :=
  let event := event_of req in
  let document := document_of req in
  if negb (truthy document) then
    (res_status_json 400 (obj [("ok", JBool false); ("error", str "missing_document")]),
     es, [])
  else
    let id := organization_id_of document in
    if is_delete_event event && truthy id then
      (res_json (obj [("ok", JBool true); ("action", str "deleted"); ("id", id)]),
       (if delete_rejected faults (js "organizations") (doc_key id) then es
        else with_organizations es (delete (doc_key id) (organizations es))),
       [EsDelete (js "organizations") (doc_key id)])
    else if is_full_organization document then
      let body := organization_body document in
      let key := doc_key (get document "$id") in
      if index_rejected faults (js "organizations") key (stored body) then
        (index_failed, es, [EsIndex (js "organizations") key (stored body)])
      else
        (res_json (obj [("ok", JBool true); ("action", str "upserted");
                        ("id", get document "$id"); ("index", str "organizations")]),
         with_organizations es (<[key := stored body]> (organizations es)),
         [EsIndex (js "organizations") key (stored body);
          EsRefresh (js "organizations")])
    else
      let parentOrgId := parentOrgId_of document in
      if negb (truthy parentOrgId) then
        (res_status_json 400
           (obj [("ok", JBool false); ("error", str "missing_parent_org_id")]),
         es, [])
      else
        let key := doc_key parentOrgId in
        let orgDoc :=
          if get_rejected faults (js "organizations") key then empty_organization
          else default empty_organization (organizations es !! key) in
        match merge_member clock document orgDoc ≫= merge_team clock document with
        | None => (index_failed, es, [EsGet (js "organizations") key])
        | Some orgDoc' =>
            let written :=
              toJSON_props (set_prop (js "docType") (str "organizations") orgDoc') in
            if index_rejected faults (js "organizations") key written then
              (index_failed, es,
               [EsGet (js "organizations") key;
                EsIndex (js "organizations") key written])
            else
              (res_json (obj [("ok", JBool true);
                              ("action", str "merged_into_organization");
                              ("id", parentOrgId)]),
               with_organizations es (<[key := written]> (organizations es)),
               [EsGet (js "organizations") key;
                EsIndex (js "organizations") key written;
                EsRefresh (js "organizations")])
        end.

(** ** Vocabulary of the properties *)

(** A value as the store returns it: nothing in it is [undefined]. *)
Fixpoint is_json (v : JVal) : bool :=
  match v with
  | JUndef => false
  | JArr l => forallb is_json l
  | JObj o => forallb (fun kv => is_json (snd kv)) o
  | _ => true
  end.

Definition is_json_obj (o : Obj) : bool := is_json (JObj o).

(** The record [x] carries the identifier [id]: the test of the
    [findIndex] callbacks. *)
Definition has_id (id : JVal) (x : JVal) : bool :=
  truthy x && strict_eq (get x "$id") id.

(** The stored collection [coll'] is the stored collection [coll] with the
    record [entry] put in by identifier: laid over the first record that
    carries [id], every other position as it was, or added at the end when
    no record carries [id]. *)
Inductive Upserted (id : JVal) (entry : Obj) (coll coll' : list JVal) : Prop :=
| Replaced (n : nat) (old : Obj) :
    coll !! n = Some (JObj old) ->
    has_id id (JObj old) = true ->
    (forall j x, (j < n)%nat -> coll !! j = Some x -> has_id id x = false) ->
    coll' = <[n := toJSON (JObj (spread old entry))]> coll ->
    Upserted id entry coll coll'
| Appended :
    Forall (fun x => has_id id x = false) coll ->
    coll' = coll ++ [toJSON (JObj entry)] ->
    Upserted id entry coll coll'.

(** The request reaches the child-merge part of the organization handler:
    it has a payload, is not taken as a deletion nor as a full aggregate,
    and names a parent. *)
Definition reaches_merge (req : Request) : bool :=
  let document := document_of req in
  truthy document
  && negb (is_delete_event (event_of req) && truthy (organization_id_of document))
  && negb (is_full_organization document)
  && truthy (parentOrgId_of document).

(** The states of the store that indexing requests satisfying [P] can
    produce from the empty store. *)
Inductive reachable_by (P : Request -> Prop) : Store -> Prop :=
| reach_empty : reachable_by P empty_store
| reach_task es req :
    P req -> reachable_by P es -> reachable_by P (index_task es req).1.2
| reach_organization clock es req :
    P req -> reachable_by P es ->
    reachable_by P (index_organization clock es req).1.2.

(** The payload of the request types its collections: [members] and
    [teams], when they are there, are arrays. *)
Definition collections_typed (req : Request) : Prop :=
  (truthy (get (document_of req) "members") = true ->
   isArray (get (document_of req) "members") = true)
  /\ (truthy (get (document_of req) "teams") = true ->
      isArray (get (document_of req) "teams") = true).

(** The first [search] call of a log. *)
Fixpoint first_search (calls : list Call) : option SearchRequest :=
  match calls with
  | [] => None
  | EsSearch q :: _ => Some q
  | _ :: rest => first_search rest
  end.

Definition is_search (c : Call) : bool :=
  match c with EsSearch _ => true | _ => false end.

Definition is_delete_call (c : Call) : bool :=
  match c with EsDelete _ _ => true | _ => false end.

(** The summary reports an exact-match sub-field for [(idx, field)]. *)
Definition reports_exact (summary : Obj) (idx field : string) : bool :=
  truthy (get (get (JObj summary) idx) field).

(** The clause that scopes the [n]-th kind inside a built query: the second
    [must] of the [n]-th [should] branch of the first [filter]. *)
Definition scoping_clause (n : nat) (q : Clause) : option Clause :=
  match q with
  | BoolQ _ (BoolQ _ _ branches _ :: _) _ _ =>
      match branches !! n with
      | Some (BoolQ (_ :: c :: _) _ _ _) => Some c
      | _ => None
      end
  | _ => None
  end.

(** The structural rules of the classifier in the order the design states
    them, and the first kind whose rule holds. *)
Definition heuristic_rules : list ((JVal -> bool) * DocType) :=
  [ (looks_orgmember, OrgMembers);
    (looks_organization, Organizations);
    (looks_team, Teams);
    (looks_task, Tasks) ].

Fixpoint first_match (rules : list ((JVal -> bool) * DocType)) (doc : JVal)
  : option DocType :=
  match rules with
  | [] => None
  | (rule, kind) :: rest => if rule doc then Some kind else first_match rest doc
  end.

(** A stored organization aggregate in shape: tagged, and holding under
    [members] and under [teams] values that satisfy [Q]. *)
Definition aggregate_shape (Q : JVal -> bool) (d : Obj) : Prop :=
  lookup_prop (js "docType") d = str "organizations"
  /\ Q (lookup_prop (js "members") d) = true
  /\ Q (lookup_prop (js "teams") d) = true.

Definition missing_parent_org_id : Response :=
  res_status_json 400
    (obj [("ok", JBool false); ("error", str "missing_parent_org_id")]).

(** The mapping summary the search handler works with: the cache, loaded
    first when it is empty. *)
Definition summary_in_effect (backend : Backend) (cache : Obj) : Obj :=
  match cache with
  | [] => loadMappingSummary cache (mapping_reply backend)
  | _ => cache
  end.

(** The payload fields a stored task keeps. *)
Definition task_fields : list string :=
  [ "title"; "description"; "category"; "status"; "priority"; "dueDate";
    "userEmail"; "$createdAt"; "$updatedAt"; "assignee"; "invites" ].


(** The aggregate a merge for the request starts from. *)
Definition merge_start (es : Store) (req : Request) : Obj :=
  default empty_organization
    (organizations es !! doc_key (parentOrgId_of (document_of req))).

(** The fields of a stored full aggregate besides its tag. *)
Definition organization_fields : list string :=
  ["name"; "slug"; "description"; "members"; "teams"; "createdAt"].

(** Every [index] call of the log is followed at once by a [refresh] of the
    same index. *)
Fixpoint refreshed (calls : list Call) : bool :=
  match calls with
  | [] => true
  | EsIndex i _ _ :: rest =>
      match rest with
      | EsRefresh i' :: _ => bool_decide (i = i') && refreshed rest
      | _ => false
      end
  | _ :: rest => refreshed rest
  end.

Definition is_refresh (c : Call) : bool :=
  match c with EsRefresh _ => true | _ => false end.

Definition is_get_mapping (c : Call) : bool :=
  match c with EsGetMapping _ => true | _ => false end.

(** A field definition of a mapping allows exact matching: it is of type
    [keyword], or has a [keyword] sub-field. *)
Definition is_exact (fd : JVal) : bool :=
  strict_eq (get fd "type") (str "keyword")
  || truthy (jand (get fd "fields") (get (get fd "fields") "keyword")).

(** A reply of [getMapping] that describes the index [idx] by the field
    definitions [props]. *)
Definition mapping_of (idx : string) (props : Obj) : JVal :=
  obj [(idx, obj [("mappings", obj [("properties", JObj props)])])].

(** [limit], with the default of the destructuring. *)
Definition limit_of (req : Request) : JVal :=
  match get (body req) "limit" with
  | JUndef => JNum 10
  | v => v
  end.

(** The request a search sends for [req] when the summary cache is [cache]. *)
Definition sent_query (Number : JVal -> option Z) (backend : Backend)
    (cache : Obj) (req : Request) : SearchRequest :=
  esQuery Number (JObj (summary_in_effect backend cache))
    (get (body req) "query") (get (body req) "userEmail") (limit_of req).

(** The summary cache after a sequence of searches, each against the store
    as it is at that time. *)
Definition searches (Number : JVal -> option Z) (cache : Obj)
    (rs : list (Backend * Request)) : Obj :=
  fold_left (fun c r => (search Number (fst r) c (snd r)).1.2) rs cache.

(** What a search call asks for apart from the query. *)
Definition bounded_search (c : Call) : Prop :=
  match c with
  | EsSearch q =>
      sr_size q <= 50 /\ sr_index q = map js INDICES
      /\ sr_source q = map js sourceFields
  | _ => True
  end.

(** The four indices after a sequence of requests to the four-index
    [/api/index]. *)
Definition index_documents (es : Store4) (reqs : list Request) : Store4 :=
  fold_left (fun es r => (index_document es r).1.2) reqs es.

(** A stored document carries the name of the kind [t] as its [docType]. *)
Definition tagged (t : DocType) (d : Obj) : Prop :=
  lookup_prop (js "docType") d = str (docType_name t).

(** What a caller presents as the webhook secret. *)
Definition presented_secret (req : Request) : JVal :=
  jor (get (headers req) "x-webhook-secret") (get (headers req) "x-webhook-token").



(** The branches of the visibility filter of a query. *)
Definition visibility_branches (q : Clause) : list Clause :=
  match q with
  | BoolQ _ (BoolQ _ _ branches _ :: _) _ _ => branches
  | _ => []
  end.

(** The summary in effect for a search of the four-index revision. *)
Definition summary_in_effect4 (backend : Backend) (cache : Obj) : Obj :=
  match cache with
  | [] => loadMappingSummary4 cache (mapping_reply backend)
  | _ => cache
  end.

(** ** Sample requests and stores *)

Definition request (event : string) (document : JVal) : Request :=
  {| headers := JObj [];
     body := obj [("event", str event); ("document", document)];
     query_of := JObj [] |}.

Definition sample_clock : Clock := {| now_member := 17; now_team := 18 |}.

Definition member_a : JVal :=
  obj [("$id", str "a"); ("name", str "Ann"); ("email", str "a@x.com")].

Definition member_b : JVal :=
  obj [("$id", str "b"); ("name", str "Bee"); ("email", str "b@x.com")].

Definition team_t : JVal :=
  obj [("$id", str "t"); ("name", str "Tee"); ("members", JArr [str "a"])].

(** An aggregate with members A and B and team T. *)
Definition acme : Obj :=
  [ (js "docType", str "organizations");
    (js "name", str "Acme");
    (js "slug", str "acme");
    (js "description", str "Tools");
    (js "members", JArr [member_a; member_b]);
    (js "teams", JArr [team_t]);
    (js "createdAt", str "2025-01-01") ].

Definition acme_store : Store :=
  {| tasks := ∅; organizations := <[js "o1" := acme]> ∅ |}.

(** A member payload that also has a name and a members array. *)
Definition member_and_team_request : Request :=
  request "databases.members.create"
    (obj [ ("email", str "c@x.com"); ("name", str "Core");
           ("members", JArr []); ("organizationId", str "o1") ]).

(** An update of member B. *)
Definition update_b_request : Request :=
  request "databases.members.update"
    (obj [ ("$id", str "b"); ("email", str "b@y.com"); ("role", str "admin");
           ("organizationId", str "o1") ]).

(** A member payload for an organization that is not stored yet. *)
Definition first_member_request : Request :=
  request "databases.members.create"
    (obj [ ("$id", str "a"); ("email", str "a@x.com"); ("role", str "owner");
           ("organizationId", str "o2") ]).

(** A deletion of the organization o1, carrying only its identifier. *)
Definition delete_o1_request : Request :=
  request "databases.organizations.delete" (obj [("$id", str "o1")]).

(** A member payload that names no parent. *)
Definition orphan_member_request : Request :=
  request "databases.members.create"
    (obj [("email", str "c@x.com"); ("role", str "member")]).

(** A deletion event for a member that names its parent by [parentOrgId]. *)
Definition delete_child_request : Request :=
  request "databases.members.delete"
    (obj [("email", str "z@x.com"); ("parentOrgId", str "o1")]).

(** A deletion event for a member that names nothing. *)
Definition delete_orphan_request : Request :=
  request "databases.members.delete" (obj [("email", str "z@x.com")]).

(** The task of the design document's scenario. *)
Definition design_review_request : Request :=
  request "databases.tasks.create"
    (obj [ ("$id", str "t1"); ("title", str "Design review");
           ("userEmail", str "a@x.com") ]).

(** A payload with both an email and a title, and no type hint around it. *)
Definition email_and_title : JVal :=
  obj [("$id", str "x1"); ("email", str "a@x.com"); ("title", str "Design review")].

(** Search requests, and a store that knows one mapping and finds nothing. *)
Definition search_request (q : JVal) : Request :=
  {| headers := JObj [];
     body := obj [("query", q); ("userEmail", str "a@x.com")];
     query_of := JObj [] |}.

Definition keyword_mapping : JVal :=
  obj [ ("tasks",
         obj [("mappings",
               obj [("properties",
                     obj [("userEmail", obj [("type", str "keyword")]);
                          ("title", obj [("type", str "text")])])])]) ].

Definition quiet_backend : Backend :=
  {| mapping_reply := Some keyword_mapping;
     search_reply := fun _ => Some {| took := JNum 1; total := JNum 0; hits := [] |} |}.

(** [Number] on the values the samples pass as a limit. *)
Definition number_of (v : JVal) : option Z :=
  match v with
  | JNum n => Some n
  | _ => None
  end.

(** A partial update of member A: only the role is sent. *)
Definition role_only_request : Request :=
  request "databases.members.update"
    (obj [("$id", str "a"); ("role", str "admin"); ("organizationId", str "o1")]).

(** A payload whose email is there but empty. *)
Definition empty_email_and_title : JVal :=
  obj [("$id", str "x2"); ("email", JStr []); ("title", str "Design review")].

(** The deletion of the task of [design_review_request]. *)
Definition design_review_delete : Request :=
  request "databases.tasks.delete" (obj [("$id", str "t1")]).

(** A task payload with a field the projection does not know. *)
Definition task_with_secret : JVal :=
  obj [ ("$id", str "t2"); ("title", str "Plan"); ("docType", str "organizations");
        ("apiKey", str "s3cr3t") ].

(** A full aggregate for o1 that names no members. *)
Definition rename_o1_request : Request :=
  request "databases.organizations.update"
    (obj [("$id", str "o1"); ("name", str "Acme Ltd"); ("secret", str "x")]).

(** A deletion event for member A that names its parent. *)
Definition delete_member_a_request : Request :=
  request "databases.members.delete"
    (obj [("$id", str "a"); ("email", str "a@x.com"); ("organizationId", str "o1")]).


(** A member payload without an [$id]. *)
Definition anonymous_member_request : Request :=
  request "databases.members.create"
    (obj [("email", str "c@x.com"); ("role", str "member");
          ("organizationId", str "o1")]).

(** A schema of both indices in which [userEmail] is itself of type
    [keyword], and a store that answers with it. *)
Definition keyword_typed_mapping : JVal :=
  obj [ ("tasks",
         obj [("mappings",
               obj [("properties",
                     obj [("userEmail", obj [("type", str "keyword")])])])]);
        ("organizations",
         obj [("mappings", obj [("properties", JObj [])])]) ].

Definition keyword_typed_backend : Backend :=
  {| mapping_reply := Some keyword_typed_mapping;
     search_reply := search_reply quiet_backend |}.

(** A payload first sent as a task and then, under the same identifier, with
    an e-mail address. *)
Definition note_as_task : Request :=
  request "documents.create" (obj [("$id", str "n1"); ("title", str "note")]).

Definition note_as_member : Request :=
  request "documents.update" (obj [("$id", str "n1"); ("email", str "a@x.com")]).

Definition note_delete : Request :=
  request "documents.n1.delete" (obj [("$id", str "n1")]).

Definition hinted_team : Request :=
  {| headers := JObj [];
     body := obj [("docType", str "Teams");
                  ("document", obj [("$id", str "t9"); ("email", str "a@x.com")])];
     query_of := JObj [] |}.

Definition secret_env : Env1 :=
  {| ELASTIC_INDEX := js "tasks"; WEBHOOK_SECRET := Some (js "s3cret") |}.

(** A request to [/api/mappings] that asks for a refresh. *)
Definition refresh_request : Request :=
  {| headers := JObj []; body := JUndef;
     query_of := obj [("refresh", str "true")] |}.


(** A search that asks for the diagnostic mode. *)
Definition debug_request : Request :=
  {| headers := JObj [];
     body := obj [("query", str "desi"); ("userEmail", str "a@x.com");
                  ("debug", JBool true)];
     query_of := JObj [] |}.

(** A task of another user, as a hit, and a store that returns it to every
    query that carries no filter, and nothing to the others. *)
Definition foreign_hit : Hit :=
  {| hit_id := str "t7"; hit_index := str "tasks"; hit_score := JNum 3;
     hit_source := obj [ ("docType", str "tasks"); ("title", str "Design handbook");
                         ("userEmail", str "b@x.com") ] |}.

Definition unscoped_backend : Backend :=
  {| mapping_reply := Some keyword_mapping;
     search_reply := fun q =>
       match sr_query q with
       | BoolQ _ [] _ _ =>
           Some {| took := JNum 1; total := JNum 1; hits := [foreign_hit] |}
       | _ => Some {| took := JNum 1; total := JNum 0; hits := [] |}
       end |}.

(** A store whose schema query is rejected. *)
Definition schemaless_backend : Backend :=
  {| mapping_reply := None; search_reply := search_reply quiet_backend |}.

(** A task of the caller, as a hit whose stored fields hold a [_score] of
    their own, and a store that returns it to every query. *)
Definition own_hit : Hit :=
  {| hit_id := str "t1"; hit_index := str "tasks"; hit_score := JNum 2;
     hit_source := obj [ ("title", str "Design review");
                         ("userEmail", str "a@x.com");
                         ("_score", JNum 9) ] |}.

Definition one_hit_backend : Backend :=
  {| mapping_reply := Some keyword_mapping;
     search_reply := fun _ =>
       Some {| took := JNum 1; total := JNum 1; hits := [own_hit] |} |}.

(** * Properties *)

(** ** Values and objects *)

(** Induction over values that reaches inside arrays and objects. *)
Lemma JVal_ind (P : JVal -> Prop)
    (Hu : P JUndef) (Hn : P JNull) (Hb : forall b, P (JBool b))
    (Hz : forall n, P (JNum n)) (Hs : forall s, P (JStr s))
    (Ha : forall l, Forall P l -> P (JArr l))
    (Ho : forall o, Forall (fun kv => P (snd kv)) o -> P (JObj o)) :
  forall v, P v.
Proof.
  fix IH 1. intros [| | b | n | s | l | o].
  - exact Hu.
  - exact Hn.
  - apply Hb.
  - apply Hz.
  - apply Hs.
  - apply Ha. induction l as [|x l IHl]; constructor; [apply IH | exact IHl].
  - apply Ho. induction o as [|[k x] o IHo]; constructor; [apply IH | exact IHo].
Qed.

Lemma truthy_defined v : truthy v = true -> v <> JUndef.
Proof. by destruct v. Qed.

Lemma jor_truthy a b : truthy (jor a b) = truthy a || truthy b.
Proof. unfold jor. by destruct (truthy a) eqn:E; rewrite ?E. Qed.

Lemma jor_l a b : truthy a = true -> jor a b = a.
Proof. unfold jor. by intros ->. Qed.

Lemma jor_r a b : truthy a = false -> jor a b = b.
Proof. unfold jor. by intros ->. Qed.

Lemma lookup_set_eq k v o : lookup_prop k (set_prop k v o) = v.
Proof.
  induction o as [|[k' v'] o IH]; simpl.
  - by rewrite decide_True.
  - destruct (decide (k = k')) as [->|Hne]; simpl.
    + by rewrite decide_True.
    + by rewrite decide_False.
Qed.

Lemma lookup_set_ne k k' v o :
  k <> k' -> lookup_prop k' (set_prop k v o) = lookup_prop k' o.
Proof.
  intros Hne. induction o as [|[k0 v0] o IH]; simpl.
  - by rewrite decide_False.
  - destruct (decide (k = k0)) as [->|Hk]; simpl.
    + by rewrite !decide_False.
    + destruct (decide (k' = k0)); [done | exact IH].
Qed.

Lemma set_prop_same k v o :
  lookup_prop k o = v -> v <> JUndef -> set_prop k v o = o.
Proof.
  induction o as [|[k' v'] o IH]; simpl; intros Hl Hv.
  - congruence.
  - destruct (decide (k = k')) as [->|Hne].
    + by rewrite Hl.
    + by rewrite IH.
Qed.

Lemma set_prop_twice k v w o : set_prop k w (set_prop k v o) = set_prop k w o.
Proof.
  induction o as [|[k' v'] o IH]; simpl.
  - by rewrite decide_True.
  - destruct (decide (k = k')) as [->|Hne]; simpl.
    + by rewrite decide_True.
    + by rewrite decide_False, IH.
Qed.

(** Serialisation, one property at a time. *)
Lemma toJSON_props_nil : toJSON_props [] = [].
Proof. reflexivity. Qed.

Lemma toJSON_props_cons k x o :
  toJSON_props ((k, x) :: o) =
  match x with
  | JUndef => toJSON_props o
  | _ => (k, toJSON x) :: toJSON_props o
  end.
Proof. by destruct x. Qed.

Lemma toJSON_obj o : toJSON (JObj o) = JObj (toJSON_props o).
Proof. reflexivity. Qed.

Lemma stored_obj o : stored (JObj o) = toJSON_props o.
Proof. reflexivity. Qed.

Lemma toJSON_truthy v : truthy (toJSON v) = truthy v.
Proof. by destruct v. Qed.

Lemma toJSON_undef v : toJSON v = JUndef -> v = JUndef.
Proof. by destruct v. Qed.

(** A property that holds a value is still there after serialisation. *)
Lemma lookup_toJSON_props k o :
  lookup_prop k o <> JUndef ->
  lookup_prop k (toJSON_props o) = toJSON (lookup_prop k o).
Proof.
  induction o as [|[k' x] o IH]; simpl; intros Hl; [done|].
  rewrite toJSON_props_cons.
  destruct (decide (k = k')) as [->|Hne].
  - destruct x; simpl; try (by rewrite decide_True); done.
  - destruct x; simpl; rewrite ?decide_False by done; by apply IH.
Qed.

(** When no property holds [undefined], serialisation keeps every key. *)
Lemma lookup_toJSON_props_all k o :
  Forall (fun kv => snd kv <> JUndef) o ->
  lookup_prop k (toJSON_props o) = toJSON (lookup_prop k o).
Proof.
  induction 1 as [|[k' x] o Hx _ IH]; simpl; [done|].
  rewrite toJSON_props_cons. simpl in Hx.
  destruct (decide (k = k')) as [->|Hne].
  - destruct x; simpl; try (by rewrite decide_True); done.
  - destruct x; simpl; rewrite ?decide_False by done; done.
Qed.

Lemma set_prop_defined k v o :
  v <> JUndef ->
  Forall (fun kv => snd kv <> JUndef) o ->
  Forall (fun kv => snd kv <> JUndef) (set_prop k v o).
Proof.
  intros Hv. induction 1 as [|[k' x] o Hx Ho IH]; simpl.
  - by constructor.
  - destruct (decide (k = k')); constructor; done.
Qed.

(** A value of the store is its own serialisation. *)
Lemma toJSON_is_json v : is_json v = true -> toJSON v = v.
Proof.
  induction v as [| | b | n | s | l IH | o IH] using JVal_ind; simpl; try done.
  - intros Hl. f_equal. induction IH as [|x l Hx _ IHl]; simpl in *; [done|].
    apply andb_prop in Hl as [H1 H2]. rewrite IHl by done.
    rewrite Hx by done. by destruct x.
  - intros Ho. f_equal. induction IH as [|[k x] o Hx _ IHo]; simpl in *; [done|].
    apply andb_prop in Ho as [H1 H2]. rewrite IHo by done.
    rewrite Hx by done. by destruct x.
Qed.

Lemma is_json_lookup k o :
  is_json_obj o = true ->
  lookup_prop k o = JUndef \/ is_json (lookup_prop k o) = true.
Proof.
  unfold is_json_obj. simpl. induction o as [|[k' x] o IH]; simpl; [by left|].
  intros [H1 H2]%andb_prop. destruct (decide (k = k')); [by right | by apply IH].
Qed.

Lemma is_json_top_defined o :
  is_json_obj o = true -> Forall (fun kv => snd kv <> JUndef) o.
Proof.
  unfold is_json_obj. simpl. induction o as [|[k x] o IH]; simpl; [constructor|].
  intros [H1 H2]%andb_prop. constructor; [|by apply IH].
  simpl. by destruct x.
Qed.

Lemma toJSON_lookup_json k o :
  is_json_obj o = true -> toJSON (lookup_prop k o) = lookup_prop k o.
Proof.
  intros H. destruct (is_json_lookup k o H) as [-> | Hj]; [done|].
  by apply toJSON_is_json.
Qed.

(** Serialisation yields values of the store. *)
Lemma is_json_toJSON v : v <> JUndef -> is_json (toJSON v) = true.
Proof.
  induction v as [| | b | n | s | l IH | o IH] using JVal_ind; simpl; try done.
  - intros _. induction IH as [|x l Hx _ IHl]; simpl; [done|].
    rewrite IHl, andb_true_r. destruct x; try done; by apply Hx.
  - intros _. induction IH as [|[k x] o Hx _ IHo]; simpl in *; [done|].
    destruct x; try done; simpl; rewrite ?IHo, ?andb_true_r; by apply Hx.
Qed.

Lemma is_json_toJSON_props o : is_json_obj (toJSON_props o) = true.
Proof.
  unfold is_json_obj. rewrite <- toJSON_obj. by apply is_json_toJSON.
Qed.

(** ** The find-or-append step *)

Lemma findIndex_Some p l n :
  findIndex p l = Some n ->
  exists x, l !! n = Some x /\ p x = true
            /\ forall j y, (j < n)%nat -> l !! j = Some y -> p y = false.
Proof.
  revert n. induction l as [|a l IH]; simpl; intros n Hf; [done|].
  destruct (p a) eqn:Hp.
  - inversion Hf; subst. exists a. split; [done|]. split; [done|]. intros; lia.
  - destruct (findIndex p l) as [m|] eqn:Hm; simpl in Hf; [|done].
    inversion Hf; subst. destruct (IH m eq_refl) as (x & Hx & Hpx & Hlt).
    exists x. split; [done|]. split; [done|].
    intros [|j] y Hj Hy; simpl in Hy.
    + by inversion Hy; subst.
    + apply (Hlt j); [lia | done].
Qed.

Lemma findIndex_None p l :
  findIndex p l = None -> Forall (fun x => p x = false) l.
Proof.
  induction l as [|a l IH]; simpl; intros Hf; [constructor|].
  destruct (p a) eqn:Hp; [done|].
  destruct (findIndex p l); simpl in Hf; [done|]. constructor; auto.
Qed.

Lemma has_id_object id x :
  truthy id = true -> has_id id x = true -> exists old, x = JObj old.
Proof.
  unfold has_id. intros Hid [_ Heq]%andb_prop.
  destruct x; try (by destruct id); eauto.
Qed.

Lemma map_list_insert {A B} (f : A -> B) (l : list A) n x :
  map f (<[n := x]> l) = <[n := f x]> (map f l).
Proof.
  revert n. induction l as [|a l IH]; intros [|n]; simpl; try done.
  by rewrite IH.
Qed.

Lemma toJSON_elems_json l :
  forallb is_json l = true ->
  map (fun x => match x with JUndef => JNull | _ => toJSON x end) l = l.
Proof.
  induction l as [|x l IH]; simpl; [done|].
  intros [H1 H2]%andb_prop. rewrite IH by done.
  rewrite (toJSON_is_json x H1). by destruct x.
Qed.

(** What the find-or-append step leaves in the store. *)
Lemma upsert_entry_stored entry coll id :
  forallb is_json coll = true ->
  lookup_prop (js "$id") entry = id ->
  truthy id = true ->
  exists coll',
    toJSON (JArr (upsert_entry entry coll)) = JArr coll'
    /\ Upserted id entry coll coll'.
Proof.
  intros Hjson Hid Htr. unfold upsert_entry. rewrite Hid.
  change (fun m : JVal => truthy m && strict_eq (get m "$id") id) with (has_id id).
  destruct (findIndex (has_id id) coll) as [n|] eqn:Hf.
  - destruct (findIndex_Some _ _ _ Hf) as (x & Hx & Hpx & Hlt).
    destruct (has_id_object id x Htr Hpx) as [old ->].
    rewrite (nth_lookup_Some _ _ _ _ Hx). simpl own_props.
    eexists. split.
    + simpl toJSON at 1. rewrite map_list_insert, toJSON_elems_json by done.
      reflexivity.
    + by eapply Replaced.
  - eexists. split.
    + simpl toJSON at 1. rewrite map_app, toJSON_elems_json by done.
      reflexivity.
    + apply Appended; [by apply findIndex_None | done].
Qed.

(** Every record that does not carry the identifier keeps its place and its
    content. *)
Lemma Upserted_others id entry coll coll' j x :
  Upserted id entry coll coll' ->
  coll !! j = Some x -> has_id id x = false -> coll' !! j = Some x.
Proof.
  intros [n old Hn Hold _ ->| _ ->] Hj Hx.
  - destruct (decide (n = j)) as [->|Hne].
    + rewrite Hn in Hj. inversion Hj; subst. congruence.
    + by rewrite list_lookup_insert_ne.
  - by apply lookup_app_l_Some.
Qed.

Lemma Upserted_length id entry coll coll' :
  Upserted id entry coll coll' ->
  length coll' = length coll \/ length coll' = S (length coll).
Proof.
  intros [n old _ _ _ ->| _ ->].
  - left. apply length_insert.
  - right. rewrite length_app. simpl. lia.
Qed.

(** ** Child merge *)

Lemma merge_into_array field entry o coll :
  lookup_prop (js field) o = JArr coll ->
  merge_into field entry o
  = Some (set_prop (js field) (JArr (upsert_entry entry coll)) o).
Proof.
  intros Hl. unfold merge_into. rewrite Hl.
  change (jor (JArr coll) (JArr [])) with (JArr coll).
  rewrite (set_prop_same _ _ _ Hl) by done. by rewrite Hl.
Qed.

Lemma member_id_truthy clock document :
  truthy (lookup_prop (js "$id") (member_of clock document)) = true.
Proof.
  change (lookup_prop (js "$id") (member_of clock document))
    with (jor (get document "$id") (JStr (js "mem_" ++ digits (now_member clock)))).
  rewrite jor_truthy. apply orb_true_r.
Qed.

Lemma team_id_truthy clock document :
  truthy (lookup_prop (js "$id") (team_of clock document)) = true.
Proof.
  change (lookup_prop (js "$id") (team_of clock document))
    with (jor (get document "$id") (JStr (js "team_" ++ digits (now_team clock)))).
  rewrite jor_truthy. apply orb_true_r.
Qed.

Lemma json_array_of_field k o l :
  is_json_obj o = true -> lookup_prop k o = JArr l -> forallb is_json l = true.
Proof.
  intros Hj Hl. destruct (is_json_lookup k o Hj) as [H|H]; rewrite Hl in H; done.
Qed.

(** The two merge branches on an aggregate whose collections are arrays,
    and what is then written. *)
Lemma merge_written clock document start ms ts :
  is_json_obj start = true ->
  lookup_prop (js "members") start = JArr ms ->
  lookup_prop (js "teams") start = JArr ts ->
  exists orgDoc' ms' ts',
    merge_member clock document start ≫= merge_team clock document = Some orgDoc'
    /\ lookup_prop (js "members")
         (toJSON_props (set_prop (js "docType") (str "organizations") orgDoc'))
       = JArr ms'
    /\ lookup_prop (js "teams")
         (toJSON_props (set_prop (js "docType") (str "organizations") orgDoc'))
       = JArr ts'
    /\ (if member_test document
        then Upserted (lookup_prop (js "$id") (member_of clock document))
               (member_of clock document) ms ms'
        else ms' = ms)
    /\ (if team_test document
        then Upserted (lookup_prop (js "$id") (team_of clock document))
               (team_of clock document) ts ts'
        else ts' = ts)
    /\ lookup_prop (js "docType")
         (toJSON_props (set_prop (js "docType") (str "organizations") orgDoc'))
       = str "organizations"
    /\ forall k, k <> js "members" -> k <> js "teams" -> k <> js "docType" ->
         lookup_prop k
           (toJSON_props (set_prop (js "docType") (str "organizations") orgDoc'))
         = lookup_prop k start.
Proof.
  intros Hjson Hms Hts.
  pose proof (json_array_of_field _ _ _ Hjson Hms) as Hjms.
  pose proof (json_array_of_field _ _ _ Hjson Hts) as Hjts.
  pose proof (is_json_top_defined _ Hjson) as Hdef.
  assert (Hmt : js "members" <> js "teams") by done.
  assert (Hmd : js "docType" <> js "members") by done.
  assert (Htd : js "docType" <> js "teams") by done.
  (* the member branch *)
  assert (exists o1 rm ms',
            merge_member clock document start = Some o1
            /\ lookup_prop (js "members") o1 = rm /\ toJSON rm = JArr ms'
            /\ lookup_prop (js "teams") o1 = JArr ts
            /\ Forall (fun kv => snd kv <> JUndef) o1
            /\ (if member_test document
                then Upserted (lookup_prop (js "$id") (member_of clock document))
                       (member_of clock document) ms ms'
                else ms' = ms)
            /\ forall k, k <> js "members" -> lookup_prop k o1 = lookup_prop k start)
    as (o1 & rm & ms' & Hm1 & Hrm & Hjm & Hts1 & Hdef1 & Hum & Hk1).
  { unfold merge_member. destruct (member_test document).
    - destruct (upsert_entry_stored (member_of clock document) ms _ Hjms eq_refl
                  (member_id_truthy clock document)) as (ms' & Hj & Hu).
      rewrite (merge_into_array _ _ _ _ Hms).
      eexists _, _, ms'. split; [done|]. split; [apply lookup_set_eq|].
      split; [done|]. split; [by rewrite lookup_set_ne|].
      split; [by apply set_prop_defined|]. split; [done|].
      intros k Hk. by rewrite lookup_set_ne.
    - exists start, (JArr ms), ms. split; [done|]. split; [done|].
      split; [by apply toJSON_is_json|]. done. }
  (* the team branch *)
  assert (exists o2 rt ts',
            merge_team clock document o1 = Some o2
            /\ lookup_prop (js "teams") o2 = rt /\ toJSON rt = JArr ts'
            /\ lookup_prop (js "members") o2 = rm
            /\ Forall (fun kv => snd kv <> JUndef) o2
            /\ (if team_test document
                then Upserted (lookup_prop (js "$id") (team_of clock document))
                       (team_of clock document) ts ts'
                else ts' = ts)
            /\ forall k, k <> js "teams" -> lookup_prop k o2 = lookup_prop k o1)
    as (o2 & rt & ts' & Hm2 & Hrt & Hjt & Hms2 & Hdef2 & Hut & Hk2).
  { unfold merge_team. destruct (team_test document).
    - destruct (upsert_entry_stored (team_of clock document) ts _ Hjts eq_refl
                  (team_id_truthy clock document)) as (ts' & Hj & Hu).
      rewrite (merge_into_array _ _ _ _ Hts1).
      eexists _, _, ts'. split; [done|]. split; [apply lookup_set_eq|].
      split; [done|]. split; [by rewrite lookup_set_ne|].
      split; [by apply set_prop_defined|]. split; [done|].
      intros k Hk. by rewrite lookup_set_ne.
    - exists o1, (JArr ts), ts. split; [done|]. split; [done|].
      split; [by apply toJSON_is_json|]. done. }
  exists o2, ms', ts'. rewrite Hm1. simpl. split; [done|].
  assert (Hdef3 : Forall (fun kv => snd kv <> JUndef)
                    (set_prop (js "docType") (str "organizations") o2))
    by (by apply set_prop_defined).
  rewrite !(lookup_toJSON_props_all _ _ Hdef3).
  rewrite lookup_set_eq, !lookup_set_ne by done.
  rewrite Hms2, Hrt, Hjm, Hjt.
  repeat split; try done.
  intros k Hkm Hkt Hkd. rewrite (lookup_toJSON_props_all _ _ Hdef3).
  rewrite lookup_set_ne by done. rewrite Hk2, Hk1 by done.
  by apply toJSON_lookup_json.
Qed.

(** The handler on a request that reaches the merge. *)
Lemma index_organization_merge clock es req :
  reaches_merge req = true ->
  index_organization clock es req =
  let document := document_of req in
  let parentOrgId := parentOrgId_of document in
  let key := doc_key parentOrgId in
  let orgDoc := default empty_organization (organizations es !! key) in
  match merge_member clock document orgDoc ≫= merge_team clock document with
  | None => (index_failed, es, [EsGet (js "organizations") key])
  | Some orgDoc' =>
      let written :=
        toJSON_props (set_prop (js "docType") (str "organizations") orgDoc') in
      (res_json (obj [("ok", JBool true); ("action", str "merged_into_organization");
                      ("id", parentOrgId)]),
       with_organizations es (<[key := written]> (organizations es)),
       [EsGet (js "organizations") key;
        EsIndex (js "organizations") key written;
        EsRefresh (js "organizations")])
  end.
Proof.
  unfold reaches_merge, index_organization.
  intros [[[H1 H2]%andb_prop H3]%andb_prop H4]%andb_prop.
  rewrite H1. simpl negb.
  apply negb_true_iff in H2. rewrite H2.
  apply negb_true_iff in H3. rewrite H3.
  rewrite H4. reflexivity.
Qed.

(** C2 (amended). A child merge into a stored aggregate whose members and
    teams are arrays writes that aggregate back with: the member record put
    into the members by identifier when the payload passes the member test,
    the members as they were otherwise; the team record put into the teams by
    identifier when the payload passes the team test, the teams as they were
    otherwise; the [docType] tag; and every other field (name, slug,
    description, createdAt among them) as fetched. Putting in by identifier
    lays the record over the first entry that carries the identifier and
    leaves every other position alone, or appends it when no entry carries
    it: every member and every team that does not carry the identifier is
    where and what it was. No other document of the store changes. *)
Theorem child_merge_frame clock es req fetched ms ts :
  reaches_merge req = true ->
  organizations es !! doc_key (parentOrgId_of (document_of req)) = Some fetched ->
  is_json_obj fetched = true ->
  lookup_prop (js "members") fetched = JArr ms ->
  lookup_prop (js "teams") fetched = JArr ts ->
  exists written ms' ts',
    index_organization clock es req
    = (res_json (obj [("ok", JBool true); ("action", str "merged_into_organization");
                      ("id", parentOrgId_of (document_of req))]),
       with_organizations es
         (<[doc_key (parentOrgId_of (document_of req)) := written]> (organizations es)),
       [EsGet (js "organizations") (doc_key (parentOrgId_of (document_of req)));
        EsIndex (js "organizations") (doc_key (parentOrgId_of (document_of req))) written;
        EsRefresh (js "organizations")])
    /\ lookup_prop (js "members") written = JArr ms'
    /\ lookup_prop (js "teams") written = JArr ts'
    /\ (if member_test (document_of req)
        then Upserted (lookup_prop (js "$id") (member_of clock (document_of req)))
               (member_of clock (document_of req)) ms ms'
        else ms' = ms)
    /\ (if team_test (document_of req)
        then Upserted (lookup_prop (js "$id") (team_of clock (document_of req)))
               (team_of clock (document_of req)) ts ts'
        else ts' = ts)
    /\ (forall j x, ms !! j = Some x ->
           has_id (lookup_prop (js "$id") (member_of clock (document_of req))) x = false ->
           ms' !! j = Some x)
    /\ (forall j x, ts !! j = Some x ->
           has_id (lookup_prop (js "$id") (team_of clock (document_of req))) x = false ->
           ts' !! j = Some x)
    /\ lookup_prop (js "docType") written = str "organizations"
    /\ forall k, k <> js "members" -> k <> js "teams" -> k <> js "docType" ->
         lookup_prop k written = lookup_prop k fetched.
Proof.
  intros Hreach Hfetch Hjson Hms Hts.
  rewrite (index_organization_merge _ _ _ Hreach). cbv zeta.
  rewrite Hfetch. simpl default.
  destruct (merge_written clock (document_of req) fetched ms ts Hjson Hms Hts)
    as (orgDoc' & ms' & ts' & Hm & H1 & H2 & H3 & H4 & H5 & H6).
  rewrite Hm. eexists _, ms', ts'. split; [reflexivity|].
  split; [done|]. split; [done|]. split; [done|]. split; [done|].
  split.
  { intros j x Hj Hx. destruct (member_test (document_of req)).
    - by eapply Upserted_others.
    - by subst. }
  split; [|done].
  intros j x Hj Hx. destruct (team_test (document_of req)).
  - by eapply Upserted_others.
  - by subst.
Qed.

Lemma child_merge_frame_witness :
  reaches_merge update_b_request = true
  /\ exists written ms' ts',
       organizations (index_organization sample_clock acme_store update_b_request).1.2
         !! js "o1" = Some written
       /\ lookup_prop (js "members") written = JArr ms'
       /\ lookup_prop (js "teams") written = JArr ts'
       /\ Upserted (str "b") (member_of sample_clock (document_of update_b_request))
            [member_a; member_b] ms'
       /\ ts' = [team_t]
       /\ lookup_prop (js "name") written = str "Acme".
Proof.
  split; [reflexivity|].
  destruct (child_merge_frame sample_clock acme_store update_b_request acme
              [member_a; member_b] [team_t])
    as (written & ms' & ts' & Hrun & Hm & Ht & Hum & Hut & _ & _ & _ & Hk);
    try reflexivity.
  exists written, ms', ts'. rewrite Hrun. simpl.
  split; [apply lookup_insert_eq|].
  split; [exact Hm|]. split; [exact Ht|].
  split; [exact Hum|]. split; [exact Hut|].
  rewrite Hk by done. reflexivity.
Defined.

(** C2, as stated, fails on a member payload that also has a name and a
    members array: merged into the aggregate with members A, B and team T,
    it leaves the teams with a second entry. *)
Lemma member_payload_changes_teams :
  reaches_merge member_and_team_request = true
  /\ member_test (document_of member_and_team_request) = true
  /\ organizations acme_store !! js "o1" = Some acme
  /\ lookup_prop (js "teams") acme = JArr [team_t]
  /\ exists written,
       organizations
         (index_organization sample_clock acme_store member_and_team_request).1.2
         !! js "o1" = Some written
       /\ lookup_prop (js "teams") written
          = JArr [ team_t;
                   obj [("$id", str "team_18"); ("name", str "Core");
                        ("members", JArr [])] ].
Proof.
  split; [reflexivity|]. split; [reflexivity|]. split; [reflexivity|].
  split; [reflexivity|]. eexists. split; vm_compute; reflexivity.
Qed.

(** C10. A payload that passes both the member test and the team test is,
    in the one merge it triggers, put into the members and into the teams of
    the parent aggregate; it never has an [$id] of its own, so both records
    get generated identifiers. *)
Theorem merge_member_and_team clock es req start ms ts :
  reaches_merge req = true ->
  member_test (document_of req) = true ->
  team_test (document_of req) = true ->
  start = default empty_organization
            (organizations es !! doc_key (parentOrgId_of (document_of req))) ->
  is_json_obj start = true ->
  lookup_prop (js "members") start = JArr ms ->
  lookup_prop (js "teams") start = JArr ts ->
  exists written ms' ts',
    index_organization clock es req
    = (res_json (obj [("ok", JBool true); ("action", str "merged_into_organization");
                      ("id", parentOrgId_of (document_of req))]),
       with_organizations es
         (<[doc_key (parentOrgId_of (document_of req)) := written]> (organizations es)),
       [EsGet (js "organizations") (doc_key (parentOrgId_of (document_of req)));
        EsIndex (js "organizations") (doc_key (parentOrgId_of (document_of req))) written;
        EsRefresh (js "organizations")])
    /\ lookup_prop (js "members") written = JArr ms'
    /\ Upserted (JStr (js "mem_" ++ digits (now_member clock)))
         (member_of clock (document_of req)) ms ms'
    /\ lookup_prop (js "teams") written = JArr ts'
    /\ Upserted (JStr (js "team_" ++ digits (now_team clock)))
         (team_of clock (document_of req)) ts ts'.
Proof.
  intros Hreach Hmem Hteam -> Hjson Hms Hts.
  rewrite (index_organization_merge _ _ _ Hreach). cbv zeta.
  destruct (merge_written clock (document_of req) _ ms ts Hjson Hms Hts)
    as (orgDoc' & ms' & ts' & Hm & H1 & H2 & H3 & H4 & _).
  rewrite Hm, Hmem in *. rewrite Hteam in H4.
  assert (Hid : truthy (get (document_of req) "$id") = false).
  { unfold reaches_merge in Hreach.
    apply andb_prop in Hreach as [[_ Hfull]%andb_prop _].
    apply negb_true_iff in Hfull. unfold is_full_organization in Hfull.
    unfold team_test in Hteam. apply andb_prop in Hteam as [Hname _].
    rewrite !jor_truthy, Hname, orb_true_r, andb_true_r in Hfull. exact Hfull. }
  assert (Hmid : lookup_prop (js "$id") (member_of clock (document_of req))
                 = JStr (js "mem_" ++ digits (now_member clock))).
  { change (lookup_prop (js "$id") (member_of clock (document_of req)))
      with (jor (get (document_of req) "$id")
                (JStr (js "mem_" ++ digits (now_member clock)))).
    by apply jor_r. }
  assert (Htid : lookup_prop (js "$id") (team_of clock (document_of req))
                 = JStr (js "team_" ++ digits (now_team clock))).
  { change (lookup_prop (js "$id") (team_of clock (document_of req)))
      with (jor (get (document_of req) "$id")
                (JStr (js "team_" ++ digits (now_team clock)))).
    by apply jor_r. }
  rewrite Hmid in H3. rewrite Htid in H4.
  eexists _, ms', ts'. split; [reflexivity|]. done.
Qed.

Lemma merge_member_and_team_witness :
  member_test (document_of member_and_team_request) = true
  /\ team_test (document_of member_and_team_request) = true
  /\ exists written ms' ts',
       organizations
         (index_organization sample_clock acme_store member_and_team_request).1.2
         !! js "o1" = Some written
       /\ lookup_prop (js "members") written = JArr ms'
       /\ Upserted (str "mem_17")
            (member_of sample_clock (document_of member_and_team_request))
            [member_a; member_b] ms'
       /\ lookup_prop (js "teams") written = JArr ts'
       /\ Upserted (str "team_18")
            (team_of sample_clock (document_of member_and_team_request))
            [team_t] ts'.
Proof.
  split; [reflexivity|]. split; [reflexivity|].
  destruct (merge_member_and_team sample_clock acme_store member_and_team_request
              acme [member_a; member_b] [team_t])
    as (written & ms' & ts' & Hrun & Hm & Hum & Ht & Hut); try reflexivity.
  exists written, ms', ts'. rewrite Hrun. simpl.
  split; [apply lookup_insert_eq|]. done.
Defined.

(** ** The shape of stored aggregates *)

Lemma index_task_organizations es req :
  organizations (index_task es req).1.2 = organizations es.
Proof.
  unfold index_task.
  destruct (negb (truthy (get (document_of req) "$id"))); [done|].
  by destruct (is_delete_event (event_of req)).
Qed.

Section Shape.

(** A property of collection values that arrays have, that serialisation
    keeps, and that an absent value lacks; and a class of requests whose
    payload collections, defaulted to the empty array, have it. *)
Variable Q : JVal -> bool.
Hypothesis Q_array : forall l, Q (JArr l) = true.
Hypothesis Q_json : forall v, Q (toJSON v) = Q v.
Hypothesis Q_defined : forall v, Q v = true -> v <> JUndef.
Variable P : Request -> Prop.
Hypothesis P_payload :
  forall req, P req ->
    Q (jor (get (document_of req) "members") (JArr [])) = true
    /\ Q (jor (get (document_of req) "teams") (JArr [])) = true.

Lemma merge_into_shape field entry o o' :
  merge_into field entry o = Some o' ->
  Q (lookup_prop (js field) o') = true
  /\ forall k, k <> js field -> lookup_prop k o' = lookup_prop k o.
Proof.
  unfold merge_into.
  destruct (lookup_prop (js field) (set_prop (js field) _ o)); try done.
  intros [= <-]. split.
  - by rewrite lookup_set_eq.
  - intros k Hk. by rewrite !lookup_set_ne.
Qed.

Lemma merge_shape clock document o o' :
  Q (lookup_prop (js "members") o) = true ->
  Q (lookup_prop (js "teams") o) = true ->
  merge_member clock document o ≫= merge_team clock document = Some o' ->
  Q (lookup_prop (js "members") o') = true
  /\ Q (lookup_prop (js "teams") o') = true.
Proof.
  intros Hm Ht Hrun.
  destruct (merge_member clock document o) as [o1|] eqn:H1; [|done].
  simpl in Hrun.
  assert (Q (lookup_prop (js "members") o1) = true
          /\ Q (lookup_prop (js "teams") o1) = true) as [Hm1 Ht1].
  { unfold merge_member in H1. destruct (member_test document).
    - destruct (merge_into_shape _ _ _ _ H1) as [Ha Hb].
      split; [done|]. by rewrite Hb.
    - by inversion H1; subst. }
  unfold merge_team in Hrun. destruct (team_test document).
  - destruct (merge_into_shape _ _ _ _ Hrun) as [Ha Hb].
    split; [|done]. by rewrite Hb.
  - by inversion Hrun; subst.
Qed.

Lemma written_shape o :
  Q (lookup_prop (js "members") o) = true ->
  Q (lookup_prop (js "teams") o) = true ->
  aggregate_shape Q
    (toJSON_props (set_prop (js "docType") (str "organizations") o)).
Proof.
  intros Hm Ht. unfold aggregate_shape.
  rewrite !lookup_toJSON_props.
  - rewrite lookup_set_eq, !lookup_set_ne by done.
    by rewrite !Q_json.
  - rewrite lookup_set_ne by done. by apply Q_defined.
  - rewrite lookup_set_ne by done. by apply Q_defined.
  - by rewrite lookup_set_eq.
Qed.

Lemma organization_body_shape req :
  P req -> aggregate_shape Q (stored (organization_body (document_of req))).
Proof.
  intros [Hm Ht]%P_payload.
  unfold organization_body, obj. rewrite stored_obj. unfold aggregate_shape.
  rewrite !lookup_toJSON_props.
  - split; [reflexivity|]. rewrite !Q_json. by split.
  - by apply Q_defined.
  - by apply Q_defined.
  - done.
Qed.

Lemma empty_organization_shape : aggregate_shape Q empty_organization.
Proof. repeat split; apply Q_array. Qed.

(** One request to the organization endpoint keeps every stored aggregate in
    shape. *)
Lemma index_organization_shape clock es req :
  P req ->
  (forall key d, organizations es !! key = Some d -> aggregate_shape Q d) ->
  forall key d,
    organizations (index_organization clock es req).1.2 !! key = Some d ->
    aggregate_shape Q d.
Proof.
  intros HP IH key d. unfold index_organization.
  destruct (negb (truthy (document_of req))); [by apply IH|].
  destruct (is_delete_event (event_of req)
            && truthy (organization_id_of (document_of req))).
  { simpl. intros [_ H]%lookup_delete_Some. by eapply IH. }
  destruct (is_full_organization (document_of req)).
  { simpl. intros [[_ <-]|[_ H]]%lookup_insert_Some.
    - by apply organization_body_shape.
    - by eapply IH. }
  destruct (negb (truthy (parentOrgId_of (document_of req)))); [by apply IH|].
  set (key0 := doc_key (parentOrgId_of (document_of req))).
  set (start := default empty_organization (organizations es !! key0)).
  assert (Hstart : aggregate_shape Q start).
  { unfold start. destruct (organizations es !! key0) eqn:Hl; simpl.
    - by eapply IH.
    - apply empty_organization_shape. }
  destruct (merge_member clock (document_of req) start
              ≫= merge_team clock (document_of req)) as [o'|] eqn:Hrun;
    [|by apply IH].
  simpl. intros [[_ <-]|[_ H]]%lookup_insert_Some; [|by eapply IH].
  destruct Hstart as (_ & Hm & Ht).
  destruct (merge_shape _ _ _ _ Hm Ht Hrun) as [Hm' Ht'].
  by apply written_shape.
Qed.

Lemma reachable_shape es :
  reachable_by P es ->
  forall key d, organizations es !! key = Some d -> aggregate_shape Q d.
Proof.
  induction 1 as [|es req _ _ IH|clock es req HP _ IH]; intros key d.
  - simpl. by rewrite lookup_empty.
  - rewrite index_task_organizations. apply IH.
  - by apply index_organization_shape.
Qed.

End Shape.

Lemma isArray_toJSON v : isArray (toJSON v) = isArray v.
Proof. by destruct v. Qed.

Lemma isArray_defined v : isArray v = true -> v <> JUndef.
Proof. by destruct v. Qed.

Lemma typed_collections_default req :
  collections_typed req ->
  isArray (jor (get (document_of req) "members") (JArr [])) = true
  /\ isArray (jor (get (document_of req) "teams") (JArr [])) = true.
Proof.
  intros [Hm Ht]. unfold jor. split.
  - destruct (truthy (get (document_of req) "members")); [by apply Hm | done].
  - destruct (truthy (get (document_of req) "teams")); [by apply Ht | done].
Qed.

(** C4. Every organization aggregate in a store produced from the empty
    store by any sequence of indexing requests (full upserts, child merges,
    deletions, rejected requests, task requests) carries the [docType] tag of
    organizations and has both a [members] and a [teams] field, neither
    absent nor [null]; and when the payloads of the requests type their
    collections as arrays, so are the stored [members] and [teams]. *)
Theorem aggregate_invariant P es key d :
  reachable_by P es ->
  organizations es !! key = Some d ->
  lookup_prop (js "docType") d = str "organizations"
  /\ lookup_prop (js "members") d <> JUndef
  /\ lookup_prop (js "members") d <> JNull
  /\ lookup_prop (js "teams") d <> JUndef
  /\ lookup_prop (js "teams") d <> JNull
  /\ ((forall req, P req -> collections_typed req) ->
      isArray (lookup_prop (js "members") d) = true
      /\ isArray (lookup_prop (js "teams") d) = true).
Proof.
  intros Hr Hl.
  assert (Hok : aggregate_shape truthy d).
  { apply (reachable_shape truthy (fun _ => eq_refl) toJSON_truthy truthy_defined P)
      with (es := es) (key := key); try done.
    intros req _. rewrite !jor_truthy. by rewrite !orb_true_r. }
  destruct Hok as (Hd & Hm & Ht).
  split; [done|].
  split; [by destruct (lookup_prop (js "members") d)|].
  split; [by destruct (lookup_prop (js "members") d)|].
  split; [by destruct (lookup_prop (js "teams") d)|].
  split; [by destruct (lookup_prop (js "teams") d)|].
  intros Htyped.
  assert (Harr : aggregate_shape isArray d).
  { apply (reachable_shape isArray (fun _ => eq_refl) isArray_toJSON isArray_defined P)
      with (es := es) (key := key); try done.
    intros req HP. by apply typed_collections_default, Htyped. }
  destruct Harr as (_ & Hma & Hta). by split.
Qed.

Lemma aggregate_invariant_witness :
  exists d,
    organizations (index_organization sample_clock empty_store first_member_request).1.2
      !! js "o2" = Some d
    /\ lookup_prop (js "docType") d = str "organizations"
    /\ lookup_prop (js "members") d <> JUndef
    /\ lookup_prop (js "teams") d <> JUndef
    /\ isArray (lookup_prop (js "members") d) = true
    /\ isArray (lookup_prop (js "teams") d) = true.
Proof.
  destruct (organizations
              (index_organization sample_clock empty_store first_member_request).1.2
              !! js "o2") as [d|] eqn:Hl; [|by vm_compute in Hl].
  exists d. split; [reflexivity|].
  destruct (aggregate_invariant (fun req => req = first_member_request)
              (index_organization sample_clock empty_store first_member_request).1.2
              (js "o2") d
              (reach_organization _ sample_clock empty_store first_member_request
                 eq_refl (reach_empty _)) Hl)
    as (Hd & Hm & _ & Ht & _ & Harr).
  destruct Harr as [Hma Hta].
  { intros req ->. split; intros H; by vm_compute in H. }
  done.
Defined.

(** Every document of a reachable store is a value of the store: nothing
    in it is [undefined]. *)
Lemma reachable_json P es :
  reachable_by P es ->
  (forall key d, tasks es !! key = Some d -> is_json_obj d = true)
  /\ (forall key d, organizations es !! key = Some d -> is_json_obj d = true).
Proof.
  induction 1 as [|es req _ _ [IHt IHo]|clock es req _ _ [IHt IHo]].
  - split; intros key d; simpl; by rewrite lookup_empty.
  - rewrite index_task_organizations. split; [|done].
    intros key d. unfold index_task.
    destruct (negb (truthy (get (document_of req) "$id"))); [by apply IHt|].
    destruct (is_delete_event (event_of req)); simpl.
    + intros [_ H]%lookup_delete_Some. by eapply IHt.
    + intros [[_ <-]|[_ H]]%lookup_insert_Some; [|by eapply IHt].
      unfold task_body, obj. rewrite stored_obj. apply is_json_toJSON_props.
  - unfold index_organization.
    destruct (negb (truthy (document_of req))); [done|].
    destruct (is_delete_event (event_of req)
              && truthy (organization_id_of (document_of req))).
    { split; [done|]. simpl. intros key d [_ H]%lookup_delete_Some. by eapply IHo. }
    destruct (is_full_organization (document_of req)).
    { split; [done|]. simpl.
      intros key d [[_ <-]|[_ H]]%lookup_insert_Some; [|by eapply IHo].
      unfold organization_body, obj. rewrite stored_obj. apply is_json_toJSON_props. }
    destruct (negb (truthy (parentOrgId_of (document_of req)))); [done|].
    destruct (_ ≫= _); [|done].
    split; [done|]. simpl.
    intros key d [[_ <-]|[_ H]]%lookup_insert_Some; [|by eapply IHo].
    apply is_json_toJSON_props.
Qed.

(** ** Validation and deletion on the organization endpoint *)

Lemma parentOrgId_absent document :
  truthy (get document "organizationId") = false ->
  truthy (get document "orgId") = false ->
  truthy (get (get document "org") "$id") = false ->
  truthy (get document "parentOrgId") = false ->
  truthy (parentOrgId_of document) = false.
Proof.
  intros H1 H2 H3 H4. unfold parentOrgId_of.
  rewrite !jor_truthy, H1, H2, H4. simpl. rewrite orb_false_r.
  unfold jand. by destruct (truthy (get document "org")) eqn:E.
Qed.

Lemma not_full_organization document :
  truthy (get document "name") = false ->
  truthy (get document "members") = false ->
  truthy (get document "teams") = false ->
  is_full_organization document = false.
Proof.
  intros H1 H2 H3. unfold is_full_organization.
  rewrite !jor_truthy, H1, H2, H3. apply andb_false_r.
Qed.

Lemma index_organization_rejects clock es req :
  truthy (document_of req) = true ->
  is_delete_event (event_of req) && truthy (organization_id_of (document_of req)) = false ->
  is_full_organization (document_of req) = false ->
  truthy (parentOrgId_of (document_of req)) = false ->
  index_organization clock es req = (missing_parent_org_id, es, []).
Proof.
  intros H1 H2 H3 H4. unfold index_organization.
  by rewrite H1, H2, H3, H4.
Qed.

(** C5 (amended). A request to the organization endpoint that is not taken
    as a deletion (its event does not contain "delete", or its payload has no
    [$id]), whose payload has no name, members or teams and none of the
    parent references [organizationId], [orgId], [org.$id], [parentOrgId],
    is answered 400 [missing_parent_org_id]; the store is left as it was and
    no call reaches it. *)
Theorem missing_parent_rejected clock es req :
  truthy (document_of req) = true ->
  is_delete_event (event_of req) && truthy (get (document_of req) "$id") = false ->
  truthy (get (document_of req) "name") = false ->
  truthy (get (document_of req) "members") = false ->
  truthy (get (document_of req) "teams") = false ->
  truthy (get (document_of req) "organizationId") = false ->
  truthy (get (document_of req) "orgId") = false ->
  truthy (get (get (document_of req) "org") "$id") = false ->
  truthy (get (document_of req) "parentOrgId") = false ->
  index_organization clock es req = (missing_parent_org_id, es, [])
  /\ status missing_parent_org_id = 400
  /\ get (json missing_parent_org_id) "error" = str "missing_parent_org_id".
Proof.
  intros Hdoc Hdel Hn Hm Ht H1 H2 H3 H4. split; [|by split].
  apply index_organization_rejects; try done.
  - unfold organization_id_of. rewrite !jor_truthy, H1, H2, !orb_false_r. exact Hdel.
  - by apply not_full_organization.
  - by apply parentOrgId_absent.
Qed.

Lemma missing_parent_rejected_witness :
  index_organization sample_clock acme_store orphan_member_request
  = (missing_parent_org_id, acme_store, [])
  /\ status missing_parent_org_id = 400
  /\ get (json missing_parent_org_id) "error" = str "missing_parent_org_id".
Proof.
  apply (missing_parent_rejected sample_clock acme_store orphan_member_request);
    reflexivity.
Defined.

(** C5, as stated, fails on a deletion: the payload of [delete_o1_request]
    has no name, members or teams and no parent reference, yet the request is
    answered 200 [deleted] and the stored aggregate is removed. *)
Lemma delete_is_not_rejected :
  truthy (get (document_of delete_o1_request) "name") = false
  /\ truthy (get (document_of delete_o1_request) "members") = false
  /\ truthy (get (document_of delete_o1_request) "teams") = false
  /\ truthy (parentOrgId_of (document_of delete_o1_request)) = false
  /\ organizations acme_store !! js "o1" = Some acme
  /\ (index_organization sample_clock acme_store delete_o1_request).1.1
     = res_json (obj [("ok", JBool true); ("action", str "deleted"); ("id", str "o1")])
  /\ organizations (index_organization sample_clock acme_store delete_o1_request).1.2
       !! js "o1" = None
  /\ (index_organization sample_clock acme_store delete_o1_request).2
     = [EsDelete (js "organizations") (js "o1")].
Proof. repeat split; vm_compute; reflexivity. Qed.

(** C9 (amended). On the organization endpoint the delete branch is taken
    exactly when the request has a payload, its event contains "delete" and
    one of [$id], [organizationId], [orgId] is there. A delete event whose
    payload has none of the three is handled as any other event with that
    payload: it is answered 400 [missing_parent_org_id], the store untouched,
    when the payload has no [org.$id] and no [parentOrgId] either, and it
    goes through the child merge when it has one. *)
Theorem delete_needs_identifier clock es req :
  existsb is_delete_call (index_organization clock es req).2
  = truthy (document_of req) && is_delete_event (event_of req)
    && truthy (organization_id_of (document_of req))
  /\ (truthy (document_of req) = true ->
      is_delete_event (event_of req) = true ->
      truthy (organization_id_of (document_of req)) = false ->
      (forall req', document_of req' = document_of req ->
         index_organization clock es req' = index_organization clock es req)
      /\ (truthy (parentOrgId_of (document_of req)) = false ->
          index_organization clock es req = (missing_parent_org_id, es, []))
      /\ (truthy (parentOrgId_of (document_of req)) = true ->
          reaches_merge req = true)).
Proof.
  split.
  - unfold index_organization.
    destruct (truthy (document_of req)); [|done]. simpl negb.
    destruct (is_delete_event (event_of req)); simpl andb.
    + destruct (truthy (organization_id_of (document_of req))); [done|].
      destruct (is_full_organization (document_of req)); [done|].
      destruct (negb (truthy (parentOrgId_of (document_of req)))); [done|].
      by destruct (_ ≫= _).
    + destruct (is_full_organization (document_of req)); [done|].
      destruct (negb (truthy (parentOrgId_of (document_of req)))); [done|].
      by destruct (_ ≫= _).
  - intros Hdoc Hdel Hid.
    assert (Hfull : is_full_organization (document_of req) = false).
    { unfold organization_id_of in Hid. rewrite !jor_truthy in Hid.
      apply orb_false_elim in Hid as [[H _]%orb_false_elim _].
      unfold is_full_organization. by rewrite H. }
    split; [|split].
    + intros req' Hsame. unfold index_organization. rewrite Hsame, Hdoc, Hid.
      by rewrite !andb_false_r.
    + intros Hp. apply index_organization_rejects; try done.
      by rewrite Hid, andb_false_r.
    + intros Hp. unfold reaches_merge. by rewrite Hdoc, Hid, Hfull, Hp, andb_false_r.
Qed.

Lemma delete_needs_identifier_witness :
  is_delete_event (event_of delete_orphan_request) = true
  /\ truthy (organization_id_of (document_of delete_orphan_request)) = false
  /\ index_organization sample_clock acme_store delete_orphan_request
     = (missing_parent_org_id, acme_store, [])
  /\ existsb is_delete_call
       (index_organization sample_clock acme_store delete_o1_request).2 = true.
Proof.
  split; [reflexivity|]. split; [reflexivity|]. split.
  - apply (delete_needs_identifier sample_clock acme_store delete_orphan_request);
      reflexivity.
  - rewrite (proj1 (delete_needs_identifier sample_clock acme_store delete_o1_request)).
    reflexivity.
Defined.

(** C9, as stated, fails on a delete event whose payload has no [$id],
    [organizationId] or [orgId] but names its parent by [parentOrgId]: the
    answer is not 400 but 200 [merged_into_organization], and the member the
    event reports deleted is added to the aggregate. *)
Lemma delete_event_is_merged :
  is_delete_event (event_of delete_child_request) = true
  /\ truthy (organization_id_of (document_of delete_child_request)) = false
  /\ (index_organization sample_clock acme_store delete_child_request).1.1
     = res_json (obj [("ok", JBool true); ("action", str "merged_into_organization");
                      ("id", str "o1")])
  /\ exists written,
       organizations (index_organization sample_clock acme_store delete_child_request).1.2
         !! js "o1" = Some written
       /\ lookup_prop (js "members") written
          = JArr [ member_a; member_b;
                   obj [("$id", str "mem_17"); ("email", str "z@x.com")] ].
Proof.
  split; [reflexivity|]. split; [reflexivity|]. split; [vm_compute; reflexivity|].
  eexists. split; vm_compute; reflexivity.
Qed.

(** ** Task upsert *)

Lemma index_task_upsert es req :
  truthy (get (document_of req) "$id") = true ->
  is_delete_event (event_of req) = false ->
  index_task es req
  = (res_json (obj [("ok", JBool true); ("action", str "upserted");
                    ("id", get (document_of req) "$id"); ("index", str "tasks")]),
     {| tasks := <[doc_key (get (document_of req) "$id")
                    := stored (task_body (document_of req))]> (tasks es);
        organizations := organizations es |},
     [EsIndex (js "tasks") (doc_key (get (document_of req) "$id"))
        (stored (task_body (document_of req)));
      EsRefresh (js "tasks")]).
Proof. intros H1 H2. unfold index_task. by rewrite H1, H2. Qed.

(** C8. A task upsert writes the projection of the payload under the task's
    identifier whatever was stored there, and applying the same request a
    second time changes neither the store nor the answer. *)
Theorem task_upsert_idempotent es req :
  truthy (get (document_of req) "$id") = true ->
  is_delete_event (event_of req) = false ->
  tasks (index_task es req).1.2 !! doc_key (get (document_of req) "$id")
  = Some (stored (task_body (document_of req)))
  /\ (forall key, key <> doc_key (get (document_of req) "$id") ->
        tasks (index_task es req).1.2 !! key = tasks es !! key)
  /\ organizations (index_task es req).1.2 = organizations es
  /\ (index_task (index_task es req).1.2 req).1.2 = (index_task es req).1.2
  /\ (index_task (index_task es req).1.2 req).1.1 = (index_task es req).1.1.
Proof.
  intros Hid Hev. rewrite !(index_task_upsert _ _ Hid Hev). simpl.
  split; [apply lookup_insert_eq|].
  split; [intros key Hk; by apply lookup_insert_ne|].
  split; [done|]. split; [|done].
  by rewrite insert_insert_eq.
Qed.

Lemma task_upsert_idempotent_witness :
  tasks (index_task acme_store design_review_request).1.2 !! js "t1"
  = Some (stored (task_body (document_of design_review_request)))
  /\ (index_task (index_task acme_store design_review_request).1.2
        design_review_request).1.2
     = (index_task acme_store design_review_request).1.2.
Proof.
  destruct (task_upsert_idempotent acme_store design_review_request)
    as (H1 & _ & _ & H2 & _); try reflexivity.
  split; [exact H1 | exact H2].
Defined.

(** ** The classifier *)

(** C3. With no explicit type hint the classifier answers the kind of the
    first structural rule that holds, the rules taken in the order
    orgMember, organization, team, task, and task when none holds. So a
    payload with an email and a title, for which the task rule holds as
    well, is an orgMember. (A payload has a field when the source's test
    [doc.field] succeeds.) *)
Theorem classifier_priority req doc :
  truthy (explicit_hint req) = false ->
  detectDocType req doc = default Tasks (first_match heuristic_rules doc)
  /\ (truthy (get doc "email") = true ->
      truthy (get doc "title") = true ->
      looks_task doc = true /\ detectDocType req doc = OrgMembers).
Proof.
  intros Hhint.
  assert (Hh : detectDocType req doc
               = if looks_orgmember doc then OrgMembers
                 else if looks_organization doc then Organizations
                 else if looks_team doc then Teams
                 else if looks_task doc then Tasks else Tasks).
  { unfold detectDocType. destruct (explicit_hint req) as [| | | |s| |]; try done.
    by destruct s. }
  split.
  - rewrite Hh. simpl.
    destruct (looks_orgmember doc); [done|].
    destruct (looks_organization doc); [done|].
    destruct (looks_team doc); [done|].
    by destruct (looks_task doc).
  - intros He Ht. split.
    + unfold looks_task. by rewrite !jor_truthy, Ht.
    + rewrite Hh. unfold looks_orgmember. by rewrite jor_truthy, He.
Qed.

Lemma classifier_priority_witness :
  looks_task email_and_title = true
  /\ detectDocType (request "databases.members.create" email_and_title) email_and_title
     = OrgMembers.
Proof.
  apply (classifier_priority (request "databases.members.create" email_and_title)
           email_and_title); reflexivity.
Defined.

(** ** Search *)

Lemma get_truthy_object v k : truthy (get v k) = true -> exists o, v = JObj o.
Proof. destruct v; try done. eauto. Qed.

Lemma jand_get a k : truthy (jand a (get a k)) = truthy (get a k).
Proof. unfold jand. destruct (truthy a) eqn:E; [done|]. by destruct a. Qed.

Lemma termOrMatch_reports summary userEmail field idx :
  termOrMatch (JObj summary) userEmail field idx field
  = if reports_exact summary idx field
    then Term (js (or_literal field field) ++ js ".keyword") userEmail
    else Match (js (or_literal field field)) userEmail.
Proof. unfold termOrMatch, reports_exact. by rewrite jand_get. Qed.

(** The handler on a request that passes both guards: the summary it
    leaves, and the searches it sends. *)
Lemma search_runs Number backend cache req :
  truthy (get (body req) "userEmail") = true ->
  truthy (get (body req) "query") = true ->
  (2 <= length (trim (ToString (get (body req) "query"))))%nat ->
  exists limit,
    (search Number backend cache req).1.2 = summary_in_effect backend cache
    /\ first_search (search Number backend cache req).2
       = Some (esQuery Number (JObj (summary_in_effect backend cache))
                 (get (body req) "query") (get (body req) "userEmail") limit)
    /\ (debug_of req = false ->
        List.filter is_search (search Number backend cache req).2
        = [EsSearch (esQuery Number (JObj (summary_in_effect backend cache))
                       (get (body req) "query") (get (body req) "userEmail") limit)]).
Proof.
  intros Hu Hq Hlen.
  destruct (get_truthy_object _ _ Hu) as [o Hb].
  unfold search. rewrite Hb in *. cbv iota. rewrite Hu, Hq.
  assert ((length (trim (ToString (get (JObj o) "query"))) <? 2)%nat = false) as ->
    by (apply Nat.ltb_ge; lia).
  change (negb true) with false. change (false || false) with false. cbv iota.
  exists (match get (JObj o) "limit" with JUndef => JNum 10 | v => v end).
  unfold summary_in_effect.
  destruct cache as [|kv cache].
  - destruct (search_reply backend _) as [result|]; [|by repeat split].
    destruct (debug_of req).
    + destruct (search_reply backend (unfilteredQuery _)); by repeat split.
    + by repeat split.
  - destruct (search_reply backend _) as [result|]; [|by repeat split].
    destruct (debug_of req).
    + destruct (search_reply backend (unfilteredQuery _)); by repeat split.
    + by repeat split.
Qed.

Lemma selects_scoped Doc (leaf : Clause -> Doc -> bool) text t1 c1 t2 c2 d :
  selects Doc leaf
    (BoolQ [text]
       [BoolQ [] [] [BoolQ [t1; c1] [] [] None; BoolQ [t2; c2] [] [] None]
          (Some 1%nat)]
       [] None) d
  = selects Doc leaf text d
    && ((selects Doc leaf t1 d && selects Doc leaf c1 d)
        || (selects Doc leaf t2 d && selects Doc leaf c2 d)).
Proof.
  cbn [selects forallb List.filter length].
  destruct (selects Doc leaf text d), (selects Doc leaf t1 d),
    (selects Doc leaf c1 d), (selects Doc leaf t2 d), (selects Doc leaf c2 d);
    reflexivity.
Qed.

Lemma termOrMatch_cases m userEmail field idx :
  termOrMatch m userEmail field idx field
  = Term (js (or_literal field field) ++ js ".keyword") userEmail
  \/ termOrMatch m userEmail field idx field
     = Match (js (or_literal field field)) userEmail.
Proof. unfold termOrMatch. destruct (truthy _); [by left | by right]. Qed.

(** C6. In the query a search request sends, the clause that scopes tasks
    is the fuzzy [match] on [userEmail] when the mapping summary in effect
    reports no exact-match sub-field for (tasks, userEmail), and the exact
    [term] on [userEmail.keyword] when it reports one. *)
Theorem visibility_clause_adapts Number backend cache req :
  truthy (get (body req) "userEmail") = true ->
  truthy (get (body req) "query") = true ->
  (2 <= length (trim (ToString (get (body req) "query"))))%nat ->
  exists q,
    first_search (search Number backend cache req).2 = Some q
    /\ (search Number backend cache req).1.2 = summary_in_effect backend cache
    /\ (reports_exact (summary_in_effect backend cache) "tasks" "userEmail" = false ->
        scoping_clause 0 (sr_query q)
        = Some (Match (js "userEmail") (get (body req) "userEmail")))
    /\ (reports_exact (summary_in_effect backend cache) "tasks" "userEmail" = true ->
        scoping_clause 0 (sr_query q)
        = Some (Term (js "userEmail.keyword") (get (body req) "userEmail"))).
Proof.
  intros Hu Hq Hlen.
  destruct (search_runs Number backend cache req Hu Hq Hlen)
    as (limit & Hcache & Hfirst & _).
  eexists. split; [exact Hfirst|]. split; [exact Hcache|].
  cbn [scoping_clause esQuery sr_query userFilters lookup list_lookup].
  rewrite termOrMatch_reports.
  split; intros ->; reflexivity.
Qed.

Lemma visibility_clause_adapts_witness :
  exists q,
    first_search (search number_of quiet_backend [] (search_request (str "desi"))).2
    = Some q
    /\ reports_exact (summary_in_effect quiet_backend []) "tasks" "userEmail" = true
    /\ scoping_clause 0 (sr_query q)
       = Some (Term (js "userEmail.keyword") (str "a@x.com")).
Proof.
  destruct (visibility_clause_adapts number_of quiet_backend []
              (search_request (str "desi")))
    as (q & H1 & _ & _ & H2); try reflexivity.
  - vm_compute. lia.
  - exists q. split; [exact H1|]. split; [reflexivity|]. apply H2. reflexivity.
Defined.

(** C7. A search request that has a userEmail and whose query is absent, or
    has trimmed length 0 or 1, is answered 200 with [{results: []}]; no call
    reaches the store and the mapping summary cache is left as it was. *)
Theorem short_query_short_circuit Number backend cache req :
  truthy (get (body req) "userEmail") = true ->
  get (body req) "query" = JUndef
  \/ (length (trim (ToString (get (body req) "query"))) < 2)%nat ->
  search Number backend cache req
  = ({| status := 200; json := obj [("results", JArr [])] |}, cache, []).
Proof.
  intros Hu Hq.
  destruct (get_truthy_object _ _ Hu) as [o Hb].
  unfold search. rewrite Hb in *. cbv iota. rewrite Hu.
  change (negb true) with false. cbv iota.
  assert (negb (truthy (get (JObj o) "query"))
          || (length (trim (ToString (get (JObj o) "query"))) <? 2)%nat = true) as ->.
  { destruct Hq as [-> | Hlt]; [done|].
    apply orb_true_iff. right. by apply Nat.ltb_lt. }
  reflexivity.
Qed.

Lemma short_query_short_circuit_witness :
  search number_of quiet_backend [] (search_request (str " d "))
  = ({| status := 200; json := obj [("results", JArr [])] |}, [], []).
Proof.
  apply (short_query_short_circuit number_of quiet_backend []
           (search_request (str " d "))).
  - reflexivity.
  - right. vm_compute. lia.
Defined.

(** ** Remarks on neighbouring behaviour *)

(** The classifier tests fields by truthiness: an email that is there but
    empty does not make an orgMember. *)
Lemma empty_email_is_no_member :
  get empty_email_and_title "email" = JStr []
  /\ detectDocType (request "databases.tasks.create" empty_email_and_title)
       empty_email_and_title = Tasks.
Proof. split; reflexivity. Qed.

(** A team payload that has an [$id] of its own never reaches the merge: its
    name makes it a full organization, written under the team's identifier. *)
Lemma team_with_id_is_full_organization document :
  team_test document = true ->
  truthy (get document "$id") = true ->
  is_full_organization document = true.
Proof.
  unfold team_test, is_full_organization. intros [Hn _]%andb_prop ->.
  by rewrite !jor_truthy, Hn, orb_true_r.
Qed.

(** The record laid over a found entry carries [name], [email] and [role]
    even when the payload has none: a role-only update of member A leaves A
    without its name and email. *)
Lemma role_only_update_drops_fields :
  exists written,
    organizations (index_organization sample_clock acme_store role_only_request).1.2
      !! js "o1" = Some written
    /\ lookup_prop (js "members") written
       = JArr [obj [("$id", str "a"); ("role", str "admin")]; member_b].
Proof. eexists. split; vm_compute; reflexivity. Qed.

(** The filter of the four-index revision has four branches, and its last
    one selects every team document whoever asks. *)
Lemma four_index_filter_lets_teams_through
    Doc (leaf : Clause -> Doc -> bool) m userEmail d :
  leaf (Term (js "docType") (str "teams")) d = true ->
  selects Doc leaf (userFilters_four_index m userEmail) d = true.
Proof.
  intros Ht. unfold userFilters_four_index.
  cbn [selects forallb List.filter length]. rewrite Ht.
  repeat match goal with
         | |- context [if ?b then _ else _] => destruct b
         end; reflexivity.
Qed.

(** * Further properties of the handlers *)

(** ** Objects, once more *)

Lemma lookup_prop_absent k (o : Obj) :
  k ∉ map fst o -> lookup_prop k o = JUndef.
Proof.
  induction o as [|[k' v] o IH]; simpl; [done|].
  intros Hk. apply not_elem_of_cons in Hk as [Hne Hk].
  rewrite decide_False by done. by apply IH.
Qed.

Lemma toJSON_props_keys k (o : Obj) :
  k ∈ map fst (toJSON_props o) -> k ∈ map fst o.
Proof.
  induction o as [|[k' v] o IH]; [done|].
  rewrite toJSON_props_cons. simpl.
  destruct v; simpl; rewrite ?elem_of_cons; intros H;
    try (destruct H as [->|H]; [by left | right; by apply IH]).
  right. by apply IH.
Qed.

(** On an object whose keys are distinct, serialisation reads through
    [lookup_prop]. *)
Lemma lookup_toJSON_props_nodup k (o : Obj) :
  NoDup (map fst o) ->
  lookup_prop k (toJSON_props o) = toJSON (lookup_prop k o).
Proof.
  induction o as [|[k' v] o IH]; simpl; [done|].
  intros [Hk' Hnd]%NoDup_cons. rewrite toJSON_props_cons.
  destruct (decide (k = k')) as [->|Hne].
  - destruct v; simpl; try (by rewrite decide_True).
    apply lookup_prop_absent. intros H. by apply Hk', toJSON_props_keys.
  - destruct v; simpl; rewrite ?decide_False by done; by apply IH.
Qed.

(** [{ ...a, ...b }] read by key, for a [b] whose keys are distinct. *)
Lemma lookup_spread k (a b : Obj) :
  NoDup (map fst b) ->
  lookup_prop k (spread a b)
  = if decide (k ∈ map fst b) then lookup_prop k b else lookup_prop k a.
Proof.
  unfold spread. revert a. induction b as [|[k0 v0] b IH]; intros a Hnd; simpl.
  - first [done | rewrite decide_False; [done | apply not_elem_of_nil]].
  - apply NoDup_cons in Hnd as [Hk0 Hnd]. rewrite (IH _ Hnd).
    destruct (decide (k = k0)) as [->|Hne].
    + rewrite decide_False by done.
      rewrite decide_True by (apply elem_of_cons; by left).
      apply lookup_set_eq.
    + destruct (decide (k ∈ map fst b)) as [Hin|Hnin].
      * rewrite decide_True by (apply elem_of_cons; by right). done.
      * rewrite decide_False.
        -- by rewrite lookup_set_ne.
        -- intros [?|?]%elem_of_cons; done.
Qed.

(** ** The task endpoint *)

(** X1. A request to the task endpoint leaves the organizations index and
    every task other than the one its payload names as they are; a payload
    without an [$id] is answered 400 [missing_document] before any call to
    the store. *)
Theorem index_task_frame es req key :
  key <> doc_key (get (document_of req) "$id") ->
  tasks (index_task es req).1.2 !! key = tasks es !! key
  /\ organizations (index_task es req).1.2 = organizations es
  /\ (truthy (get (document_of req) "$id") = false ->
      index_task es req
      = (res_status_json 400
           (obj [("ok", JBool false); ("error", str "missing_document")]),
         es, [])).
Proof.
  intros Hk. split; [|split].
  - unfold index_task.
    destruct (negb (truthy (get (document_of req) "$id"))); [done|].
    destruct (is_delete_event (event_of req)); simpl.
    + by apply lookup_delete_ne.
    + by apply lookup_insert_ne.
  - apply index_task_organizations.
  - intros Hid. unfold index_task. by rewrite Hid.
Qed.

Lemma index_task_frame_witness :
  tasks (index_task acme_store design_review_request).1.2 !! js "t9"
  = tasks acme_store !! js "t9"
  /\ organizations (index_task acme_store design_review_request).1.2
     = organizations acme_store.
Proof.
  destruct (index_task_frame acme_store design_review_request (js "t9"))
    as (H1 & H2 & _); [done|].
  by split.
Defined.

Lemma index_task_delete es req :
  truthy (get (document_of req) "$id") = true ->
  is_delete_event (event_of req) = true ->
  index_task es req
  = (res_json (obj [("ok", JBool true); ("action", str "deleted");
                    ("id", get (document_of req) "$id")]),
     {| tasks := delete (doc_key (get (document_of req) "$id")) (tasks es);
        organizations := organizations es |},
     [EsDelete (js "tasks") (doc_key (get (document_of req) "$id"))]).
Proof. intros H1 H2. unfold index_task. by rewrite H1, H2. Qed.

(** X2. A delete event on the task endpoint is answered 200 [deleted] and
    leaves no task under the payload's identifier, whether one was stored or
    not; when none was, the store is what it was; the store is asked to
    delete once and not to refresh; a second delivery changes nothing. *)
Theorem task_delete_removes es req :
  truthy (get (document_of req) "$id") = true ->
  is_delete_event (event_of req) = true ->
  status (index_task es req).1.1 = 200
  /\ get (json (index_task es req).1.1) "action" = str "deleted"
  /\ tasks (index_task es req).1.2 !! doc_key (get (document_of req) "$id") = None
  /\ (tasks es !! doc_key (get (document_of req) "$id") = None ->
      tasks (index_task es req).1.2 = tasks es)
  /\ (index_task es req).2
     = [EsDelete (js "tasks") (doc_key (get (document_of req) "$id"))]
  /\ (index_task (index_task es req).1.2 req).1.2 = (index_task es req).1.2.
Proof.
  intros Hid Hdel. rewrite !(index_task_delete _ _ Hid Hdel). simpl.
  split; [done|]. split; [done|].
  split; [apply lookup_delete_eq|].
  split; [intros Hn; by apply delete_id|].
  split; [done|].
  f_equal. apply delete_delete_eq.
Qed.

Lemma task_delete_removes_witness :
  tasks (index_task (index_task acme_store design_review_request).1.2
           design_review_delete).1.2 !! js "t1" = None
  /\ (index_task (index_task acme_store design_review_request).1.2
        design_review_delete).2
     = [EsDelete (js "tasks") (js "t1")].
Proof.
  destruct (task_delete_removes (index_task acme_store design_review_request).1.2
              design_review_delete) as (_ & _ & H1 & _ & H2 & _);
    try reflexivity.
  split; [exact H1 | exact H2].
Defined.

Lemma task_body_keys document :
  map fst (match task_body document with JObj o => o | _ => [] end)
  = js "docType" :: map js task_fields.
Proof. reflexivity. Qed.

Lemma task_body_nodup document :
  NoDup (map fst (match task_body document with JObj o => o | _ => [] end)).
Proof. rewrite task_body_keys. apply (bool_decide_unpack _). by vm_compute. Qed.

(** X3. The document a task upsert stores is a projection: it is tagged
    [docType: 'tasks'] whatever the payload says, carries each of the eleven
    task fields as the payload has it, and has no other field: anything else
    the payload holds, its [$id] included, is not stored. *)
Theorem task_projection es req :
  truthy (get (document_of req) "$id") = true ->
  is_delete_event (event_of req) = false ->
  exists d,
    tasks (index_task es req).1.2 !! doc_key (get (document_of req) "$id") = Some d
    /\ lookup_prop (js "docType") d = str "tasks"
    /\ Forall (fun f => lookup_prop (js f) d = toJSON (get (document_of req) f))
         task_fields
    /\ forall k, k <> js "docType" -> k ∉ map js task_fields ->
         lookup_prop k d = JUndef.
Proof.
  intros Hid Hev. rewrite (index_task_upsert _ _ Hid Hev). simpl.
  eexists. split; [apply lookup_insert_eq|].
  pose proof (task_body_nodup (document_of req)) as Hnd.
  unfold task_body, obj in *. rewrite stored_obj.
  split; [by rewrite lookup_toJSON_props_nodup|].
  split.
  - repeat (constructor; [by rewrite lookup_toJSON_props_nodup|]). constructor.
  - intros k Hk Hnot. rewrite lookup_toJSON_props_nodup by done.
    rewrite lookup_prop_absent; [done|].
    intros [?|?]%elem_of_cons; done.
Qed.

Lemma task_projection_witness :
  exists d,
    tasks (index_task empty_store (request "databases.tasks.create" task_with_secret)).1.2
      !! js "t2" = Some d
    /\ lookup_prop (js "docType") d = str "tasks"
    /\ lookup_prop (js "title") d = str "Plan"
    /\ lookup_prop (js "apiKey") d = JUndef
    /\ lookup_prop (js "$id") d = JUndef.
Proof.
  destruct (task_projection empty_store
              (request "databases.tasks.create" task_with_secret))
    as (d & Hd & Ht & Hf & Hk); try reflexivity.
  exists d. split; [exact Hd|]. split; [exact Ht|].
  split; [exact (Forall_inv Hf)|].
  split; apply Hk; apply (bool_decide_unpack _); by vm_compute.
Defined.

(** X4. On the task endpoint an upsert followed by a deletion of the same
    identifier leaves the tasks as a deletion alone would, so a store that
    did not hold the task is back to what it was; a deletion followed by an
    upsert leaves what the upsert alone would. *)
Theorem task_upsert_then_delete es up del :
  truthy (get (document_of up) "$id") = true ->
  get (document_of del) "$id" = get (document_of up) "$id" ->
  is_delete_event (event_of up) = false ->
  is_delete_event (event_of del) = true ->
  tasks (index_task (index_task es up).1.2 del).1.2
  = delete (doc_key (get (document_of up) "$id")) (tasks es)
  /\ (tasks es !! doc_key (get (document_of up) "$id") = None ->
      (index_task (index_task es up).1.2 del).1.2 = es)
  /\ (index_task (index_task es del).1.2 up).1.2 = (index_task es up).1.2.
Proof.
  intros Hid Hsame Hup Hdel.
  assert (Hid' : truthy (get (document_of del) "$id") = true) by by rewrite Hsame.
  rewrite !(index_task_delete _ _ Hid' Hdel), !(index_task_upsert _ _ Hid Hup).
  rewrite Hsame. simpl.
  split; [apply delete_insert_eq|].
  split.
  - intros Hn. destruct es as [t o]. simpl in *. f_equal.
    by rewrite delete_insert_eq, delete_id.
  - f_equal. apply insert_delete_eq.
Qed.

Lemma task_upsert_then_delete_witness :
  (index_task (index_task acme_store design_review_request).1.2
     design_review_delete).1.2 = acme_store.
Proof.
  apply (task_upsert_then_delete acme_store design_review_request
           design_review_delete); reflexivity.
Defined.

(** ** The organization endpoint *)

(** X5. A request to the organization endpoint leaves the tasks index as it
    is, and every stored aggregate other than those under the identifiers
    its payload names ([$id], [organizationId], [orgId], [org.$id],
    [parentOrgId]). *)
Theorem index_organization_frame clock es req key :
  key <> doc_key (organization_id_of (document_of req)) ->
  key <> doc_key (get (document_of req) "$id") ->
  key <> doc_key (parentOrgId_of (document_of req)) ->
  organizations (index_organization clock es req).1.2 !! key = organizations es !! key
  /\ tasks (index_organization clock es req).1.2 = tasks es.
Proof.
  intros H1 H2 H3. unfold index_organization.
  destruct (negb (truthy (document_of req))); [done|].
  destruct (is_delete_event (event_of req)
            && truthy (organization_id_of (document_of req))).
  { simpl. by rewrite lookup_delete_ne. }
  destruct (is_full_organization (document_of req)).
  { simpl. by rewrite lookup_insert_ne. }
  destruct (negb (truthy (parentOrgId_of (document_of req)))); [done|].
  destruct (_ ≫= _); [|done].
  simpl. by rewrite lookup_insert_ne.
Qed.

Lemma index_organization_frame_witness :
  organizations
    (index_organization sample_clock acme_store first_member_request).1.2 !! js "o1"
  = Some acme
  /\ tasks (index_organization sample_clock acme_store first_member_request).1.2
     = tasks acme_store.
Proof.
  destruct (index_organization_frame sample_clock acme_store first_member_request
              (js "o1")) as [H1 H2].
  - by vm_compute.
  - by vm_compute.
  - by vm_compute.
  - split; [|exact H2]. rewrite H1. reflexivity.
Defined.

Lemma index_organization_no_faults clock es req :
  index_organization_on no_faults clock es req = index_organization clock es req.
Proof.
  unfold index_organization_on, index_organization. cbn [no_faults get_rejected
    index_rejected delete_rejected]. reflexivity.
Qed.








Lemma index_organization_full clock es req :
  is_full_organization (document_of req) = true ->
  is_delete_event (event_of req) = false ->
  index_organization clock es req
  = (res_json (obj [("ok", JBool true); ("action", str "upserted");
                    ("id", get (document_of req) "$id");
                    ("index", str "organizations")]),
     with_organizations es
       (<[doc_key (get (document_of req) "$id")
           := stored (organization_body (document_of req))]> (organizations es)),
     [EsIndex (js "organizations") (doc_key (get (document_of req) "$id"))
        (stored (organization_body (document_of req)));
      EsRefresh (js "organizations")]).
Proof.
  intros Hfull Hdel. unfold index_organization.
  assert (Hdoc : truthy (document_of req) = true).
  { unfold is_full_organization in Hfull. apply andb_prop in Hfull as [Hid _].
    destruct (get_truthy_object _ _ Hid) as [o ->]. done. }
  by rewrite Hdoc, Hdel, Hfull.
Qed.

Lemma organization_body_nodup document :
  NoDup (map fst (match organization_body document with JObj o => o | _ => [] end)).
Proof.
  change (map fst (match organization_body document with JObj o => o | _ => [] end))
    with (js "docType" :: map js organization_fields).
  apply (bool_decide_unpack _). by vm_compute.
Qed.

(** X8. A full aggregate (an [$id] with a name, members or teams) sent with
    an event that is no deletion replaces the stored aggregate wholesale:
    what is stored under its [$id] is the projection of the payload alone,
    with [members] and [teams] defaulting to the empty array, and owes
    nothing to what the store held, so children merged earlier are gone
    unless the payload lists them. A second delivery changes nothing. *)
Theorem full_upsert_replaces clock es req :
  is_full_organization (document_of req) = true ->
  is_delete_event (event_of req) = false ->
  exists d,
    (forall clock' es',
       organizations (index_organization clock' es' req).1.2
         !! doc_key (get (document_of req) "$id") = Some d)
    /\ lookup_prop (js "docType") d = str "organizations"
    /\ lookup_prop (js "name") d = toJSON (get (document_of req) "name")
    /\ lookup_prop (js "members") d
       = toJSON (jor (get (document_of req) "members") (JArr []))
    /\ lookup_prop (js "teams") d
       = toJSON (jor (get (document_of req) "teams") (JArr []))
    /\ (forall k, k <> js "docType" -> k ∉ map js organization_fields ->
          lookup_prop k d = JUndef)
    /\ (index_organization clock (index_organization clock es req).1.2 req).1.2
       = (index_organization clock es req).1.2.
Proof.
  intros Hfull Hdel.
  exists (stored (organization_body (document_of req))).
  split.
  { intros clock' es'. rewrite (index_organization_full _ _ _ Hfull Hdel). simpl.
    apply lookup_insert_eq. }
  pose proof (organization_body_nodup (document_of req)) as Hnd.
  unfold organization_body, obj in *. rewrite stored_obj.
  repeat (split; [by rewrite lookup_toJSON_props_nodup|]).
  split.
  - intros k Hk Hnot. rewrite lookup_toJSON_props_nodup by done.
    rewrite lookup_prop_absent; [done|].
    intros [?|?]%elem_of_cons; done.
  - fold (obj [ ("docType", str "organizations");
                ("name", get (document_of req) "name");
                ("slug", get (document_of req) "slug");
                ("description", get (document_of req) "description");
                ("members", jor (get (document_of req) "members") (JArr []));
                ("teams", jor (get (document_of req) "teams") (JArr []));
                ("createdAt", jor (get (document_of req) "createdAt")
                                  (get (document_of req) "$createdAt")) ]).
    fold (organization_body (document_of req)).
    rewrite !(index_organization_full _ _ _ Hfull Hdel). simpl.
    unfold with_organizations. simpl. f_equal. apply insert_insert_eq.
Qed.

Lemma full_upsert_replaces_witness :
  exists d,
    organizations (index_organization sample_clock acme_store rename_o1_request).1.2
      !! js "o1" = Some d
    /\ lookup_prop (js "name") d = str "Acme Ltd"
    /\ lookup_prop (js "members") d = JArr []
    /\ lookup_prop (js "secret") d = JUndef.
Proof.
  destruct (full_upsert_replaces sample_clock acme_store rename_o1_request)
    as (d & Hd & _ & Hn & Hm & _ & Hk & _); try reflexivity.
  exists d. split; [apply Hd|]. split; [exact Hn|]. split; [exact Hm|].
  apply Hk; apply (bool_decide_unpack _); by vm_compute.
Defined.

(** X9. A delete event whose payload has one of [$id], [organizationId],
    [orgId] removes the document stored under the first of them that is
    there and nothing else, with one delete call and no refresh. For a child
    payload that carries its own [$id] beside its parent's, that is the
    child's identifier: the parent aggregate, stored under another key,
    keeps the child. *)
Theorem organization_delete_removes clock es req :
  truthy (document_of req) = true ->
  is_delete_event (event_of req) = true ->
  truthy (organization_id_of (document_of req)) = true ->
  index_organization clock es req
  = (res_json (obj [("ok", JBool true); ("action", str "deleted");
                    ("id", organization_id_of (document_of req))]),
     with_organizations es
       (delete (doc_key (organization_id_of (document_of req))) (organizations es)),
     [EsDelete (js "organizations")
        (doc_key (organization_id_of (document_of req)))])
  /\ (truthy (get (document_of req) "$id") = true ->
      organization_id_of (document_of req) = get (document_of req) "$id")
  /\ (forall key, key <> doc_key (organization_id_of (document_of req)) ->
        organizations (index_organization clock es req).1.2 !! key
        = organizations es !! key).
Proof.
  intros Hdoc Hdel Hid.
  assert (Hrun : index_organization clock es req
                 = (res_json (obj [("ok", JBool true); ("action", str "deleted");
                                   ("id", organization_id_of (document_of req))]),
                    with_organizations es
                      (delete (doc_key (organization_id_of (document_of req)))
                         (organizations es)),
                    [EsDelete (js "organizations")
                       (doc_key (organization_id_of (document_of req)))])).
  { unfold index_organization. by rewrite Hdoc, Hdel, Hid. }
  split; [exact Hrun|]. split.
  - intros H. unfold organization_id_of.
    rewrite (jor_l (get (document_of req) "$id")) by done. by apply jor_l.
  - intros key Hk. rewrite Hrun. simpl. by apply lookup_delete_ne.
Qed.

Lemma organization_delete_removes_witness :
  (index_organization sample_clock acme_store delete_member_a_request).2
  = [EsDelete (js "organizations") (js "a")]
  /\ organizations
       (index_organization sample_clock acme_store delete_member_a_request).1.2
       !! js "o1" = Some acme.
Proof.
  destruct (organization_delete_removes sample_clock acme_store
              delete_member_a_request) as (Hrun & _ & Hk); try reflexivity.
  split.
  - rewrite Hrun. reflexivity.
  - rewrite Hk by (by vm_compute). reflexivity.
Defined.

(** ** More on the child merge *)

Lemma Upserted_nil id entry coll' :
  Upserted id entry [] coll' -> coll' = [toJSON (JObj entry)].
Proof. intros [n old Hn _ _ _| _ ->]; [by rewrite lookup_nil in Hn | done]. Qed.

Lemma Upserted_fresh id entry coll coll' :
  Forall (fun x => has_id id x = false) coll ->
  Upserted id entry coll coll' -> coll' = coll ++ [toJSON (JObj entry)].
Proof.
  intros Hall [n old Hn Hold _ _| _ ->]; [|done].
  rewrite Forall_lookup in Hall. specialize (Hall n _ Hn). simpl in Hall. congruence.
Qed.

Lemma Upserted_first id entry coll coll' n old :
  coll !! n = Some (JObj old) ->
  has_id id (JObj old) = true ->
  (forall j x, (j < n)%nat -> coll !! j = Some x -> has_id id x = false) ->
  Upserted id entry coll coll' ->
  coll' = <[n := toJSON (JObj (spread old entry))]> coll.
Proof.
  intros Hn Hold Hfirst [n0 old0 Hn0 Hold0 Hfirst0 ->| Hall _].
  - destruct (lt_eq_lt_dec n0 n) as [[Hlt|Heq]|Hgt].
    + specialize (Hfirst _ _ Hlt Hn0). congruence.
    + subst n0. rewrite Hn in Hn0. by inversion Hn0; subst.
    + specialize (Hfirst0 _ _ Hgt Hn). congruence.
  - rewrite Forall_lookup in Hall. specialize (Hall n _ Hn). simpl in Hall. congruence.
Qed.

Lemma set_prop_keys k v (o : Obj) :
  map fst (set_prop k v o)
  = if decide (k ∈ map fst o) then map fst o else map fst o ++ [k].
Proof.
  induction o as [|[k' v'] o IH]; simpl; [done|].
  destruct (decide (k = k')) as [->|Hne]; simpl.
  - rewrite decide_True by (apply elem_of_cons; by left). done.
  - rewrite IH. destruct (decide (k ∈ map fst o)) as [Hin|Hnin].
    + rewrite decide_True by (apply elem_of_cons; by right). done.
    + rewrite decide_False; [done|]. intros [?|?]%elem_of_cons; done.
Qed.

Lemma set_prop_nodup k v (o : Obj) :
  NoDup (map fst o) -> NoDup (map fst (set_prop k v o)).
Proof.
  intros Hnd. rewrite set_prop_keys. destruct (decide (k ∈ map fst o)); [done|].
  apply NoDup_app. split; [done|]. split.
  - intros x Hx [->|[]%elem_of_nil]%elem_of_cons. done.
  - apply NoDup_singleton.
Qed.

Lemma spread_nodup (a b : Obj) :
  NoDup (map fst a) -> NoDup (map fst (spread a b)).
Proof.
  unfold spread. revert a. induction b as [|[k v] b IH]; intros a Ha; simpl; [done|].
  apply IH. by apply set_prop_nodup.
Qed.

Lemma member_of_nodup clock document : NoDup (map fst (member_of clock document)).
Proof. apply (bool_decide_unpack _). by vm_compute. Qed.

Lemma strict_eq_refl_json id : strict_eq id id = true -> toJSON id = id.
Proof. by destruct id. Qed.

(** The handler on a request that reaches the merge, when the aggregate it
    starts from holds arrays. *)
Lemma merge_run clock es req ms ts :
  reaches_merge req = true ->
  is_json_obj (merge_start es req) = true ->
  lookup_prop (js "members") (merge_start es req) = JArr ms ->
  lookup_prop (js "teams") (merge_start es req) = JArr ts ->
  exists written ms' ts',
    index_organization clock es req
    = (res_json (obj [("ok", JBool true); ("action", str "merged_into_organization");
                      ("id", parentOrgId_of (document_of req))]),
       with_organizations es
         (<[doc_key (parentOrgId_of (document_of req)) := written]> (organizations es)),
       [EsGet (js "organizations") (doc_key (parentOrgId_of (document_of req)));
        EsIndex (js "organizations") (doc_key (parentOrgId_of (document_of req))) written;
        EsRefresh (js "organizations")])
    /\ lookup_prop (js "members") written = JArr ms'
    /\ lookup_prop (js "teams") written = JArr ts'
    /\ (if member_test (document_of req)
        then Upserted (lookup_prop (js "$id") (member_of clock (document_of req)))
               (member_of clock (document_of req)) ms ms'
        else ms' = ms)
    /\ (if team_test (document_of req)
        then Upserted (lookup_prop (js "$id") (team_of clock (document_of req)))
               (team_of clock (document_of req)) ts ts'
        else ts' = ts)
    /\ forall k, k <> js "members" -> k <> js "teams" -> k <> js "docType" ->
         lookup_prop k written = lookup_prop k (merge_start es req).
Proof.
  intros Hreach Hjson Hms Hts.
  rewrite (index_organization_merge _ _ _ Hreach). cbv zeta.
  fold (merge_start es req).
  destruct (merge_written clock (document_of req) _ ms ts Hjson Hms Hts)
    as (orgDoc' & ms' & ts' & Hm & H1 & H2 & H3 & H4 & H5 & H6).
  rewrite Hm. eexists _, ms', ts'. split; [reflexivity|]. done.
Qed.

Lemma merge_start_absent es req :
  organizations es !! doc_key (parentOrgId_of (document_of req)) = None ->
  merge_start es req = empty_organization.
Proof. unfold merge_start. by intros ->. Qed.

(** X10. The first child event for a parent that is not stored creates the
    aggregate: under the parent's identifier is then a document tagged as an
    organization, with empty name, slug and description, whose members are
    the member record alone when the payload passes the member test and
    empty otherwise, and likewise its teams. *)
Theorem merge_creates_aggregate clock es req :
  reaches_merge req = true ->
  organizations es !! doc_key (parentOrgId_of (document_of req)) = None ->
  exists written,
    organizations (index_organization clock es req).1.2
      !! doc_key (parentOrgId_of (document_of req)) = Some written
    /\ lookup_prop (js "docType") written = str "organizations"
    /\ lookup_prop (js "name") written = JStr []
    /\ lookup_prop (js "slug") written = JStr []
    /\ lookup_prop (js "description") written = JStr []
    /\ lookup_prop (js "members") written
       = JArr (if member_test (document_of req)
               then [toJSON (JObj (member_of clock (document_of req)))] else [])
    /\ lookup_prop (js "teams") written
       = JArr (if team_test (document_of req)
               then [toJSON (JObj (team_of clock (document_of req)))] else []).
Proof.
  intros Hreach Habs.
  rewrite (index_organization_merge _ _ _ Hreach). cbv zeta. rewrite Habs.
  change (default empty_organization None) with empty_organization.
  destruct (merge_written clock (document_of req) empty_organization [] [])
    as (orgDoc' & ms' & ts' & Hrun & Hm & Ht & Hum & Hut & Htag & Hk);
    try reflexivity.
  rewrite Hrun. cbn [fst snd organizations with_organizations].
  eexists. split; [apply lookup_insert_eq|].
  split; [exact Htag|].
  rewrite !Hk by done.
  repeat (split; [reflexivity|]).
  rewrite Hm, Ht. split; f_equal.
  - destruct (member_test (document_of req)); [by apply Upserted_nil in Hum | done].
  - destruct (team_test (document_of req)); [by apply Upserted_nil in Hut | done].
Qed.

Lemma merge_creates_aggregate_witness :
  exists written,
    organizations (index_organization sample_clock empty_store first_member_request).1.2
      !! js "o2" = Some written
    /\ lookup_prop (js "docType") written = str "organizations"
    /\ lookup_prop (js "name") written = JStr []
    /\ lookup_prop (js "members") written
       = JArr [obj [("$id", str "a"); ("email", str "a@x.com"); ("role", str "owner")]]
    /\ lookup_prop (js "teams") written = JArr [].
Proof.
  destruct (merge_creates_aggregate sample_clock empty_store first_member_request)
    as (written & Hw & Hd & Hn & _ & _ & Hm & Ht); try reflexivity.
  exists written. split; [exact Hw|]. split; [exact Hd|]. split; [exact Hn|].
  split; [exact Hm | exact Ht].
Defined.


(** What the stored record reads under the keys of the merged one. *)
Lemma laid_record_defined old entry k :
  NoDup (map fst entry) ->
  k ∈ map fst entry ->
  lookup_prop k entry <> JUndef ->
  lookup_prop k (toJSON_props (spread old entry)) = toJSON (lookup_prop k entry).
Proof.
  intros Hnd Hk Hdef.
  assert (Hl : lookup_prop k (spread old entry) = lookup_prop k entry)
    by (by rewrite lookup_spread, decide_True).
  rewrite lookup_toJSON_props; by rewrite Hl.
Qed.

(** X11. After a member payload is merged, the stored members hold a record
    with the member's identifier (a text, a number or a boolean), and that
    record carries the email and the role the payload gave. *)
Theorem merged_member_is_found clock es req ms ts id :
  reaches_merge req = true ->
  is_json_obj (merge_start es req) = true ->
  lookup_prop (js "members") (merge_start es req) = JArr ms ->
  lookup_prop (js "teams") (merge_start es req) = JArr ts ->
  member_test (document_of req) = true ->
  lookup_prop (js "$id") (member_of clock (document_of req)) = id ->
  strict_eq id id = true ->
  exists written ms' n e,
    organizations (index_organization clock es req).1.2
      !! doc_key (parentOrgId_of (document_of req)) = Some written
    /\ lookup_prop (js "members") written = JArr ms'
    /\ ms' !! n = Some (JObj e)
    /\ has_id id (JObj e) = true
    /\ (get (document_of req) "email" <> JUndef ->
        lookup_prop (js "email") e = toJSON (get (document_of req) "email"))
    /\ (get (document_of req) "role" <> JUndef ->
        lookup_prop (js "role") e = toJSON (get (document_of req) "role")).
Proof.
  intros Hreach Hjson Hms Hts Htest Hid Hprim.
  destruct (merge_run clock es req ms ts Hreach Hjson Hms Hts)
    as (written & ms' & ts' & Hrun & Hm & _ & Hum & _).
  rewrite Htest, Hid in Hum.
  pose proof (member_of_nodup clock (document_of req)) as Hnd.
  assert (Hidtr : truthy id = true) by (rewrite <- Hid; apply member_id_truthy).
  assert (Hkeys : forall old k,
             k ∈ map fst (member_of clock (document_of req)) ->
             lookup_prop k (member_of clock (document_of req)) <> JUndef ->
             lookup_prop k (toJSON_props (spread old (member_of clock (document_of req))))
             = toJSON (lookup_prop k (member_of clock (document_of req))))
    by (intros; by apply laid_record_defined).
  assert (Hin : forall f, f ∈ ["$id"; "email"; "role"] ->
                  js f ∈ map fst (member_of clock (document_of req))).
  { intros f Hf. apply (bool_decide_unpack _).
    repeat (apply elem_of_cons in Hf as [->|Hf]; [by vm_compute|]).
    by apply elem_of_nil in Hf. }
  assert (Hrec : forall old,
            has_id id (JObj (toJSON_props (spread old (member_of clock (document_of req)))))
            = true
            /\ (get (document_of req) "email" <> JUndef ->
                lookup_prop (js "email")
                  (toJSON_props (spread old (member_of clock (document_of req))))
                = toJSON (get (document_of req) "email"))
            /\ (get (document_of req) "role" <> JUndef ->
                lookup_prop (js "role")
                  (toJSON_props (spread old (member_of clock (document_of req))))
                = toJSON (get (document_of req) "role"))).
  { intros old. split; [|split].
    - unfold has_id, get, get_key. simpl truthy.
      rewrite Hkeys; [| apply Hin; set_solver | rewrite Hid; by apply truthy_defined].
      rewrite Hid, (strict_eq_refl_json _ Hprim). exact Hprim.
    - intros He. rewrite Hkeys; [done | apply Hin; set_solver | done].
    - intros Hr. rewrite Hkeys; [done | apply Hin; set_solver | done]. }
  exists written, ms'. rewrite Hrun. simpl.
  destruct Hum as [n old Hn Hold Hfirst ->| Hall ->].
  - exists n, (toJSON_props (spread old (member_of clock (document_of req)))).
    split; [apply lookup_insert_eq|]. split; [exact Hm|].
    split; [apply list_lookup_insert_eq; by eapply lookup_lt_Some|].
    apply Hrec.
  - exists (length ms), (toJSON_props (spread [] (member_of clock (document_of req)))).
    split; [apply lookup_insert_eq|]. split; [exact Hm|].
    split; [|apply Hrec].
    rewrite (list_lookup_middle ms [] _ (length ms)) by done.
    reflexivity.
Qed.

Lemma merged_member_is_found_witness :
  exists written ms' n e,
    organizations (index_organization sample_clock acme_store update_b_request).1.2
      !! js "o1" = Some written
    /\ lookup_prop (js "members") written = JArr ms'
    /\ ms' !! n = Some (JObj e)
    /\ has_id (str "b") (JObj e) = true
    /\ lookup_prop (js "email") e = str "b@y.com"
    /\ lookup_prop (js "role") e = str "admin".
Proof.
  destruct (merged_member_is_found sample_clock acme_store update_b_request
              [member_a; member_b] [team_t] (str "b"))
    as (written & ms' & n & e & Hw & Hm & Hn & Hid & He & Hr); try reflexivity.
  exists written, ms', n, e.
  split; [exact Hw|]. split; [exact Hm|]. split; [exact Hn|]. split; [exact Hid|].
  split; [by apply He | by apply Hr].
Defined.

(** X12. A child merge never removes a member or a team: each collection
    of the written aggregate is as long as the one it started from, or one
    longer, and a collection whose test the payload does not pass is not
    touched. *)
Theorem merge_never_shrinks clock es req ms ts :
  reaches_merge req = true ->
  is_json_obj (merge_start es req) = true ->
  lookup_prop (js "members") (merge_start es req) = JArr ms ->
  lookup_prop (js "teams") (merge_start es req) = JArr ts ->
  exists written ms' ts',
    organizations (index_organization clock es req).1.2
      !! doc_key (parentOrgId_of (document_of req)) = Some written
    /\ lookup_prop (js "members") written = JArr ms'
    /\ lookup_prop (js "teams") written = JArr ts'
    /\ (length ms <= length ms' <= S (length ms))%nat
    /\ (length ts <= length ts' <= S (length ts))%nat
    /\ (member_test (document_of req) = false -> ms' = ms)
    /\ (team_test (document_of req) = false -> ts' = ts).
Proof.
  intros Hreach Hjson Hms Hts.
  destruct (merge_run clock es req ms ts Hreach Hjson Hms Hts)
    as (written & ms' & ts' & Hrun & Hm & Ht & Hum & Hut & _).
  exists written, ms', ts'. rewrite Hrun. simpl.
  split; [apply lookup_insert_eq|]. split; [exact Hm|]. split; [exact Ht|].
  destruct (member_test (document_of req)), (team_test (document_of req));
    repeat match goal with
           | H : Upserted _ _ _ _ |- _ => apply Upserted_length in H
           end; subst; repeat split; (done || lia).
Qed.

Lemma merge_never_shrinks_witness :
  exists written ms' ts',
    organizations
      (index_organization sample_clock acme_store member_and_team_request).1.2
      !! js "o1" = Some written
    /\ lookup_prop (js "members") written = JArr ms'
    /\ lookup_prop (js "teams") written = JArr ts'
    /\ (2 <= length ms' <= 3)%nat
    /\ (1 <= length ts' <= 2)%nat.
Proof.
  destruct (merge_never_shrinks sample_clock acme_store member_and_team_request
              [member_a; member_b] [team_t])
    as (written & ms' & ts' & Hw & Hm & Ht & Hlm & Hlt & _); try reflexivity.
  exists written, ms', ts'. done.
Defined.

(** X13. A member payload without an [$id] gets the identifier [mem_]
    followed by the clock reading; unless a stored member already carries
    exactly that identifier the record is appended, so each delivery of the
    same payload at a new reading adds another member. *)
Theorem anonymous_member_is_appended clock es req ms ts :
  reaches_merge req = true ->
  is_json_obj (merge_start es req) = true ->
  lookup_prop (js "members") (merge_start es req) = JArr ms ->
  lookup_prop (js "teams") (merge_start es req) = JArr ts ->
  member_test (document_of req) = true ->
  truthy (get (document_of req) "$id") = false ->
  Forall (fun x => has_id (JStr (js "mem_" ++ digits (now_member clock))) x = false)
    ms ->
  exists written,
    organizations (index_organization clock es req).1.2
      !! doc_key (parentOrgId_of (document_of req)) = Some written
    /\ lookup_prop (js "members") written
       = JArr (ms ++ [toJSON (JObj (member_of clock (document_of req)))])
    /\ lookup_prop (js "$id") (member_of clock (document_of req))
       = JStr (js "mem_" ++ digits (now_member clock)).
Proof.
  intros Hreach Hjson Hms Hts Htest Hid Hfresh.
  destruct (merge_run clock es req ms ts Hreach Hjson Hms Hts)
    as (written & ms' & ts' & Hrun & Hm & _ & Hum & _).
  assert (Hgen : lookup_prop (js "$id") (member_of clock (document_of req))
                 = JStr (js "mem_" ++ digits (now_member clock))).
  { change (lookup_prop (js "$id") (member_of clock (document_of req)))
      with (jor (get (document_of req) "$id")
                (JStr (js "mem_" ++ digits (now_member clock)))).
    by apply jor_r. }
  rewrite Htest, Hgen in Hum. apply (Upserted_fresh _ _ _ _ Hfresh) in Hum.
  exists written. rewrite Hrun. simpl.
  split; [apply lookup_insert_eq|]. split; [by rewrite Hm, Hum | exact Hgen].
Qed.

Lemma anonymous_member_is_appended_witness :
  exists written,
    organizations
      (index_organization sample_clock acme_store anonymous_member_request).1.2
      !! js "o1" = Some written
    /\ lookup_prop (js "members") written
       = JArr [ member_a; member_b;
                obj [("$id", str "mem_17"); ("email", str "c@x.com");
                     ("role", str "member")] ].
Proof.
  destruct (anonymous_member_is_appended sample_clock acme_store
              anonymous_member_request [member_a; member_b] [team_t])
    as (written & Hw & Hm & _); try reflexivity.
  - repeat constructor.
  - exists written. split; [exact Hw | exact Hm].
Defined.

(** X14. When a stored member carries the payload's identifier, the merge
    lays the member record over the first such member as a shallow merge:
    every field of the stored member other than [$id], [name], [email] and
    [role] is kept, and these four become what the payload has, so a name,
    email or role the payload lacks is erased from the stored member. *)
Theorem merge_lays_record_over clock es req ms ts n old :
  reaches_merge req = true ->
  is_json_obj (merge_start es req) = true ->
  lookup_prop (js "members") (merge_start es req) = JArr ms ->
  lookup_prop (js "teams") (merge_start es req) = JArr ts ->
  member_test (document_of req) = true ->
  ms !! n = Some (JObj old) ->
  has_id (lookup_prop (js "$id") (member_of clock (document_of req))) (JObj old) = true ->
  (forall j x, (j < n)%nat -> ms !! j = Some x ->
     has_id (lookup_prop (js "$id") (member_of clock (document_of req))) x = false) ->
  NoDup (map fst old) ->
  exists written e,
    organizations (index_organization clock es req).1.2
      !! doc_key (parentOrgId_of (document_of req)) = Some written
    /\ lookup_prop (js "members") written = JArr (<[n := JObj e]> ms)
    /\ lookup_prop (js "name") e = toJSON (get (document_of req) "name")
    /\ lookup_prop (js "email") e = toJSON (get (document_of req) "email")
    /\ lookup_prop (js "role") e = toJSON (get (document_of req) "role")
    /\ forall k, k ∉ map js ["$id"; "name"; "email"; "role"] ->
         lookup_prop k e = lookup_prop k old.
Proof.
  intros Hreach Hjson Hms Hts Htest Hn Hold Hfirst Hnd.
  destruct (merge_run clock es req ms ts Hreach Hjson Hms Hts)
    as (written & ms' & ts' & Hrun & Hm & _ & Hum & _).
  rewrite Htest in Hum. apply (Upserted_first _ _ _ _ _ _ Hn Hold Hfirst) in Hum.
  exists written, (toJSON_props (spread old (member_of clock (document_of req)))).
  rewrite Hrun. simpl.
  split; [apply lookup_insert_eq|]. split; [by rewrite Hm, Hum|].
  pose proof (member_of_nodup clock (document_of req)) as Hmnd.
  pose proof (spread_nodup old (member_of clock (document_of req)) Hnd) as Hsnd.
  rewrite !(lookup_toJSON_props_nodup _ _ Hsnd), !(lookup_spread _ _ _ Hmnd).
  repeat (split; [reflexivity|]).
  intros k Hk. rewrite (lookup_toJSON_props_nodup _ _ Hsnd), (lookup_spread _ _ _ Hmnd).
  rewrite decide_False by exact Hk.
  apply toJSON_lookup_json.
  pose proof (json_array_of_field _ _ _ Hjson Hms) as Hall.
  rewrite forallb_forall in Hall. apply (Hall (JObj old)).
  apply list_elem_of_In. by eapply list_elem_of_lookup_2.
Qed.

Lemma merge_lays_record_over_witness :
  exists written e,
    organizations (index_organization sample_clock acme_store role_only_request).1.2
      !! js "o1" = Some written
    /\ lookup_prop (js "members") written = JArr [JObj e; member_b]
    /\ lookup_prop (js "name") e = JUndef
    /\ lookup_prop (js "email") e = JUndef
    /\ lookup_prop (js "role") e = str "admin".
Proof.
  destruct (merge_lays_record_over sample_clock acme_store role_only_request
              [member_a; member_b] [team_t] 0%nat
              [(js "$id", str "a"); (js "name", str "Ann"); (js "email", str "a@x.com")])
    as (written & e & Hw & Hm & Hn & He & Hr & _); try reflexivity.
  - intros j x Hj. lia.
  - apply (bool_decide_unpack _). by vm_compute.
  - exists written, e. split; [exact Hw|]. split; [exact Hm|].
    split; [exact Hn|]. split; [exact He | exact Hr].
Defined.

(** ** Writes and refreshes *)

(** X15. In every request to the two indexing endpoints each document the
    handler indexes is followed at once by a refresh of its index, while a
    deletion is not refreshed: the log of a request that deletes holds the
    delete call alone. *)
Theorem upserts_are_refreshed clock es req :
  refreshed (index_task es req).2 = true
  /\ refreshed (index_organization clock es req).2 = true
  /\ (existsb is_delete_call (index_task es req).2 = true ->
      existsb is_refresh (index_task es req).2 = false)
  /\ (existsb is_delete_call (index_organization clock es req).2 = true ->
      existsb is_refresh (index_organization clock es req).2 = false).
Proof.
  assert (Ht : forall b, bool_decide (js "tasks" = js "tasks") && b = b) by done.
  assert (Ho : forall b,
            bool_decide (js "organizations" = js "organizations") && b = b) by done.
  unfold index_task, index_organization.
  destruct (negb (truthy (get (document_of req) "$id")));
    destruct (is_delete_event (event_of req));
    destruct (negb (truthy (document_of req)));
    destruct (truthy (organization_id_of (document_of req)));
    destruct (is_full_organization (document_of req));
    destruct (negb (truthy (parentOrgId_of (document_of req))));
    try destruct (_ ≫= _);
    simpl; rewrite ?Ht, ?Ho; repeat split; done.
Qed.

(** ** The mapping summary *)

Lemma split_on_cons sep s : exists p ps, split_on sep s = p :: ps.
Proof.
  induction s as [|c s (p & ps & IH)]; simpl; [by eexists _, _|].
  destruct (c =? sep)%N; [by eexists _, _|]. rewrite IH. by eexists _, _.
Qed.

Lemma split_on_no_sep sep s : sep ∉ s -> split_on sep s = [s].
Proof.
  induction s as [|c s IH]; simpl; [done|].
  intros [Hc Hs]%not_elem_of_cons.
  destruct (c =? sep)%N eqn:E; [apply N.eqb_eq in E; congruence|].
  by rewrite IH.
Qed.

Lemma hasKeywordSubfield_empty path : hasKeywordSubfield (JObj []) path = false.
Proof.
  unfold hasKeywordSubfield. simpl.
  destruct (split_on_cons 46 (js path)) as (p & ps & ->). done.
Qed.

Lemma reports_nothing summary idx field :
  Forall (fun kv => exists o, snd kv = JObj o
                     /\ Forall (fun kv' => snd kv' = JBool false) o) summary ->
  reports_exact summary idx field = false.
Proof.
  unfold reports_exact, get, get_key.
  induction 1 as [|[k v] summary (o & Hv & Ho) _ IH]; simpl; [done|].
  simpl in Hv. subst v.
  destruct (decide (js idx = k)); [|exact IH].
  clear IH. induction Ho as [|[k' v'] o Hv _ IHo]; simpl; [done|].
  simpl in Hv. subst v'. by destruct (decide (js field = k')).
Qed.

Lemma loadMappingSummary_rejected cache idx field :
  reports_exact (loadMappingSummary cache None) idx field = false.
Proof.
  apply reports_nothing. unfold loadMappingSummary. simpl.
  repeat (constructor;
          [eexists; split; [reflexivity|];
           repeat (constructor; [by rewrite hasKeywordSubfield_empty|]);
           constructor|]).
  constructor.
Qed.

(** X16. When the store rejects the schema query, the summary that is
    loaded reports no exact sub-field for any of its indices and fields, and
    the search
    that triggered the load scopes both kinds by a fuzzy match: tasks on
    [userEmail], organizations on [members.email]. *)
Theorem rejected_mapping_falls_back Number backend req :
  truthy (get (body req) "userEmail") = true ->
  truthy (get (body req) "query") = true ->
  (2 <= length (trim (ToString (get (body req) "query"))))%nat ->
  mapping_reply backend = None ->
  (forall idx field,
     In idx INDICES -> In field fieldsToCheck ->
     reports_exact (search Number backend [] req).1.2 idx field = false)
  /\ exists q,
       first_search (search Number backend [] req).2 = Some q
       /\ scoping_clause 0 (sr_query q)
          = Some (Match (js "userEmail") (get (body req) "userEmail"))
       /\ scoping_clause 1 (sr_query q)
          = Some (Match (js "members.email") (get (body req) "userEmail")).
Proof.
  intros Hu Hq Hlen Hrej.
  destruct (search_runs Number backend [] req Hu Hq Hlen)
    as (limit & Hcache & Hfirst & _).
  unfold summary_in_effect in *. rewrite Hrej in *.
  split.
  - intros idx field _ _. rewrite Hcache. apply loadMappingSummary_rejected.
  - eexists. split; [exact Hfirst|].
    cbn [scoping_clause esQuery sr_query userFilters lookup list_lookup].
    rewrite !termOrMatch_reports, !loadMappingSummary_rejected. by split.
Qed.

Lemma rejected_mapping_falls_back_witness :
  exists q,
    first_search
      (search number_of {| mapping_reply := None;
                           search_reply := search_reply quiet_backend |} []
         (search_request (str "desi"))).2 = Some q
    /\ scoping_clause 0 (sr_query q)
       = Some (Match (js "userEmail") (str "a@x.com")).
Proof.
  destruct (rejected_mapping_falls_back number_of
              {| mapping_reply := None; search_reply := search_reply quiet_backend |}
              (search_request (str "desi")))
    as (_ & q & H1 & H2 & _); try reflexivity.
  - vm_compute. lia.
  - exists q. split; [exact H1 | exact H2].
Defined.

Lemma walk_mapping_one part cur :
  truthy cur = true ->
  walk_mapping [part] cur
  = if truthy (get_key cur part)
    then Some (jor (get (get_key cur part) "properties") (get_key cur part))
    else None.
Proof.
  intros Hc. unfold walk_mapping, jor. rewrite Hc.
  destruct (truthy (get_key cur part)); [|done].
  by destruct (truthy (get (get_key cur part) "properties")).
Qed.

Lemma jor_truthy_r a b : truthy b = true -> truthy (jor a b) = true.
Proof. intros H. by rewrite jor_truthy, H, orb_true_r. Qed.

Lemma hasKeywordSubfield_properties props path :
  hasKeywordSubfield (obj [("mappings", obj [("properties", JObj props)])]) path
  = match walk_mapping (split_on 46 (js path)) (JObj props) with
    | None => false
    | Some cur => truthy cur && is_exact cur
    end.
Proof.
  unfold hasKeywordSubfield, is_exact.
  change (truthy (obj [("mappings", obj [("properties", JObj props)])])) with true.
  change (get (obj [("mappings", obj [("properties", JObj props)])]) "mappings")
    with (obj [("properties", JObj props)]).
  change (get (obj [("properties", JObj props)]) "properties") with (JObj props).
  change (truthy (jand (obj [("properties", JObj props)]) (JObj props))) with true.
  cbv iota. change (negb true) with false. cbv iota.
  destruct (walk_mapping _ _) as [cur|]; [|done].
  destruct (truthy cur); [|done]. simpl negb. cbv iota.
  destruct (strict_eq _ _); [done|]. by destruct (truthy (jand _ _)).
Qed.

Lemma keyword_top_level props path :
  46%N ∉ js path ->
  let fd := get (JObj props) path in
  hasKeywordSubfield (obj [("mappings", obj [("properties", JObj props)])]) path
  = truthy fd && is_exact (jor (get fd "properties") fd).
Proof.
  intros Hp fd. rewrite hasKeywordSubfield_properties.
  rewrite (split_on_no_sep _ _ Hp), walk_mapping_one by done.
  fold (get (JObj props) path). fold fd.
  destruct (truthy fd) eqn:Hfd; [|done].
  by rewrite jor_truthy_r.
Qed.

Lemma keyword_members_email props :
  let members := get (JObj props) "members" in
  let email := get (jor (get members "properties") members) "email" in
  hasKeywordSubfield (obj [("mappings", obj [("properties", JObj props)])])
    "members.email"
  = truthy members && truthy email
    && is_exact (jor (get email "properties") email).
Proof.
  intros members email. rewrite hasKeywordSubfield_properties.
  change (split_on 46 (js "members.email")) with [js "members"; js "email"].
  change (walk_mapping [js "members"; js "email"] (JObj props))
    with (if negb (truthy members) then None
          else if truthy (get members "properties")
               then walk_mapping [js "email"] (get members "properties")
               else walk_mapping [js "email"] members).
  destruct (truthy members) eqn:Hm; [|done]. simpl negb. cbv iota.
  assert (Hcur : (if truthy (get members "properties")
                  then walk_mapping [js "email"] (get members "properties")
                  else walk_mapping [js "email"] members)
                 = walk_mapping [js "email"] (jor (get members "properties") members)).
  { unfold jor. by destruct (truthy (get members "properties")). }
  rewrite Hcur, walk_mapping_one by (by apply jor_truthy_r).
  fold (get (jor (get members "properties") members) "email"). fold email.
  destruct (truthy email) eqn:He; [|done].
  by rewrite jor_truthy_r.
Qed.

(** X17. How the fields the summary lists are judged against a schema
    [{mappings: {properties}}]:
    a top-level field counts as exact when it is defined and its definition
    (or, when it has nested [properties], that object) is of type [keyword]
    or has a [keyword] sub-field; [members.email] counts as exact when
    [members] is defined, [email] is defined inside it (inside its
    [properties] when it has them) and that definition passes the same
    test. *)
Theorem keyword_field_detected props path :
  In path fieldsToCheck ->
  46%N ∉ js path ->
  let mapping := obj [("mappings", obj [("properties", JObj props)])] in
  let fd := get (JObj props) path in
  let members := get (JObj props) "members" in
  let email := get (jor (get members "properties") members) "email" in
  hasKeywordSubfield mapping path
  = truthy fd && is_exact (jor (get fd "properties") fd)
  /\ hasKeywordSubfield mapping "members.email"
     = truthy members && truthy email
       && is_exact (jor (get email "properties") email).
Proof.
  intros _ Hp mapping fd members email. split.
  - by apply keyword_top_level.
  - apply keyword_members_email.
Qed.

Lemma keyword_field_detected_witness :
  hasKeywordSubfield
    (obj [("mappings",
           obj [("properties",
                 JObj [(js "userEmail",
                        obj [("type", str "text");
                             ("fields",
                              obj [("keyword", obj [("type", str "keyword")])])])])])])
    "userEmail" = true.
Proof.
  destruct (keyword_field_detected
              [(js "userEmail",
                obj [("type", str "text");
                     ("fields", obj [("keyword", obj [("type", str "keyword")])])])]
              "userEmail") as [H _].
  - by left.
  - apply (bool_decide_unpack _). by vm_compute.
  - rewrite H. reflexivity.
Defined.

Lemma reports_loaded cache raw :
  truthy raw = true ->
  reports_exact (loadMappingSummary cache (Some raw)) "tasks" "userEmail"
  = hasKeywordSubfield (jor (jor (get raw "tasks") (get raw "tasks")) raw) "userEmail"
  /\ reports_exact (loadMappingSummary cache (Some raw)) "organizations" "members.email"
     = hasKeywordSubfield
         (jor (jor (get raw "organizations") (get raw "organizations")) raw)
         "members.email".
Proof.
  intros Hraw. unfold loadMappingSummary, reports_exact.
  remember hasKeywordSubfield as h. remember jor as j.
  destruct raw; try done; by split.
Qed.

(** X18. From the schema to the query: when the first search loads a schema
    that describes both indices by [{mappings: {properties}}], the tasks scope
    is an exact [term] on [userEmail.keyword] exactly when the tasks schema
    defines [userEmail] as exact, and a fuzzy [match] on [userEmail]
    otherwise; likewise the organizations scope on [members.email]. A field
    whose own type is [keyword], with no sub-field, is searched under
    [.keyword] all the same. *)
Theorem schema_decides_scope Number backend req raw tasks_props orgs_props :
  truthy (get (body req) "userEmail") = true ->
  truthy (get (body req) "query") = true ->
  (2 <= length (trim (ToString (get (body req) "query"))))%nat ->
  mapping_reply backend = Some raw ->
  get raw "tasks" = obj [("mappings", obj [("properties", JObj tasks_props)])] ->
  get raw "organizations"
  = obj [("mappings", obj [("properties", JObj orgs_props)])] ->
  let userEmail := get (body req) "userEmail" in
  let fd := get (JObj tasks_props) "userEmail" in
  let members := get (JObj orgs_props) "members" in
  let email := get (jor (get members "properties") members) "email" in
  exists q,
    first_search (search Number backend [] req).2 = Some q
    /\ scoping_clause 0 (sr_query q)
       = Some (if truthy fd && is_exact (jor (get fd "properties") fd)
               then Term (js "userEmail.keyword") userEmail
               else Match (js "userEmail") userEmail)
    /\ scoping_clause 1 (sr_query q)
       = Some (if truthy members && truthy email
                  && is_exact (jor (get email "properties") email)
               then Term (js "members.email.keyword") userEmail
               else Match (js "members.email") userEmail).
Proof.
  intros Hu Hq Hlen Hreply Ht Ho userEmail fd members email.
  destruct (search_runs Number backend [] req Hu Hq Hlen)
    as (limit & _ & Hfirst & _).
  unfold summary_in_effect in Hfirst. rewrite Hreply in Hfirst.
  assert (Hraw : truthy raw = true) by (by destruct raw).
  destruct (reports_loaded [] raw Hraw) as [Rt Ro].
  rewrite Ht in Rt. rewrite Ho in Ro.
  rewrite !jor_l in Rt by done. rewrite !jor_l in Ro by done.
  assert (Hdot : 46%N ∉ js "userEmail")
    by (apply (bool_decide_unpack _); by vm_compute).
  rewrite (keyword_top_level tasks_props "userEmail" Hdot) in Rt.
  rewrite (keyword_members_email orgs_props) in Ro.
  eexists. split; [exact Hfirst|].
  cbn [scoping_clause esQuery sr_query userFilters lookup list_lookup].
  rewrite !termOrMatch_reports, Rt, Ro. fold fd members email.
  split; by destruct (_ && _).
Qed.

Lemma schema_decides_scope_witness :
  exists q,
    first_search
      (search number_of keyword_typed_backend [] (search_request (str "desi"))).2
    = Some q
    /\ scoping_clause 0 (sr_query q)
       = Some (Term (js "userEmail.keyword") (str "a@x.com")).
Proof.
  destruct (schema_decides_scope number_of keyword_typed_backend
              (search_request (str "desi")) keyword_typed_mapping
              [(js "userEmail", obj [("type", str "keyword")])] [])
    as (q & H1 & H2 & _); try reflexivity.
  - vm_compute. lia.
  - exists q. split; [exact H1 | exact H2].
Defined.

Lemma search_keeps_cache Number backend kv cache req :
  (search Number backend (kv :: cache) req).1.2 = kv :: cache
  /\ existsb is_get_mapping (search Number backend (kv :: cache) req).2 = false.
Proof.
  unfold search.
  destruct (body req); try done;
    destruct (negb (truthy _)); try done;
    destruct (_ || _); try done;
    destruct (search_reply backend _); try done;
    destruct (debug_of req); try done;
    by destruct (search_reply backend _).
Qed.

(** X19. The schema summary is loaded once: a search that finds a summary in
    the cache leaves it there and does not ask the store for the schema, so
    through any sequence of searches, whatever the store answers in the
    meantime, a loaded summary stays the one in effect. *)
Theorem summary_is_loaded_once Number kv cache rs :
  searches Number (kv :: cache) rs = kv :: cache
  /\ Forall (fun r =>
               existsb is_get_mapping
                 (search Number (fst r) (kv :: cache) (snd r)).2 = false) rs.
Proof.
  induction rs as [|[backend req] rs [IH1 IH2]]; [done|].
  destruct (search_keeps_cache Number backend kv cache req) as [Hc Hm].
  split.
  - unfold searches in *. simpl. by rewrite Hc.
  - by constructor.
Qed.

Lemma size_of_bounded Number limit : size_of Number limit <= 50.
Proof. unfold size_of. lia. Qed.

(** X20. Whatever the request, every search the handler sends asks for at
    most 50 hits, over the two indices and the fixed list of stored fields;
    it sends at most two searches, and at most one outside the diagnostic
    mode. *)
Theorem search_calls_bounded Number backend cache req :
  Forall bounded_search (search Number backend cache req).2
  /\ (length (List.filter is_search (search Number backend cache req).2) <= 2)%nat
  /\ (debug_of req = false ->
      (length (List.filter is_search (search Number backend cache req).2) <= 1)%nat).
Proof.
  assert (Hb : forall q l u lim, bounded_search (EsSearch (esQuery Number q l u lim))).
  { intros. repeat split. apply size_of_bounded. }
  assert (Hb2 : forall q l u lim,
             bounded_search (EsSearch (unfilteredQuery (esQuery Number q l u lim)))).
  { intros. repeat split. apply size_of_bounded. }
  unfold search.
  destruct (body req); try (by repeat split; simpl; try lia);
    (destruct (negb (truthy _)); [by repeat split; simpl; try lia|]);
    (destruct (_ || _); [by repeat split; simpl; try lia|]);
    destruct cache as [|kv cache];
    (destruct (search_reply backend _);
     [destruct (debug_of req);
      [destruct (search_reply backend _)|]|]);
    simpl;
    (split; [repeat (apply Forall_cons; split); try apply Forall_nil;
             first [exact I | apply Hb | apply Hb2]|]);
    split; intros; first [done | lia].
Qed.

(** ** What a search answers *)

Lemma search_guarded Number backend cache req :
  truthy (get (body req) "userEmail") = true ->
  truthy (get (body req) "query") = true ->
  (2 <= length (trim (ToString (get (body req) "query"))))%nat ->
  let q := sent_query Number backend cache req in
  match search_reply backend q with
  | None => (search Number backend cache req).1.1 = search_failed
  | Some result =>
      if debug_of req then
        List.filter is_search (search Number backend cache req).2
        = [EsSearch q; EsSearch (unfilteredQuery q)]
        /\ match search_reply backend (unfilteredQuery q) with
           | None => (search Number backend cache req).1.1 = search_failed
           | Some _ => status (search Number backend cache req).1.1 = 200
           end
      else
        (search Number backend cache req).1.1
        = res_json (obj [("results", JArr (map shape_hit (hits result)))])
  end.
Proof.
  intros Hu Hq Hlen.
  destruct (get_truthy_object _ _ Hu) as [o Hb].
  unfold sent_query, limit_of, search. rewrite Hb in *. cbv iota. rewrite Hu, Hq.
  assert ((length (trim (ToString (get (JObj o) "query"))) <? 2)%nat = false) as ->
    by (apply Nat.ltb_ge; lia).
  change (negb true) with false. change (false || false) with false. cbv iota.
  unfold summary_in_effect.
  destruct cache as [|kv cache].
  - cbv zeta. destruct (search_reply backend _) as [result|]; [|done].
    destruct (debug_of req); [|done].
    by destruct (search_reply backend (unfilteredQuery _)).
  - cbv zeta. destruct (search_reply backend _) as [result|]; [|done].
    destruct (debug_of req); [|done].
    by destruct (search_reply backend (unfilteredQuery _)).
Qed.

(** X21. The diagnostic mode: after a successful search the handler sends a
    second one, the same request without the visibility filter, which selects
    exactly the documents the text clause selects, whoever they belong to;
    when the store rejects that second search the answer is the 500 failure,
    although the search proper succeeded. *)
Theorem debug_search_drops_scope Number backend cache req result :
  truthy (get (body req) "userEmail") = true ->
  truthy (get (body req) "query") = true ->
  (2 <= length (trim (ToString (get (body req) "query"))))%nat ->
  debug_of req = true ->
  let q := sent_query Number backend cache req in
  search_reply backend q = Some result ->
  List.filter is_search (search Number backend cache req).2
  = [EsSearch q; EsSearch (unfilteredQuery q)]
  /\ sr_size (unfilteredQuery q) = sr_size q
  /\ (forall Doc (leaf : Clause -> Doc -> bool) d,
        selects Doc leaf (sr_query (unfilteredQuery q)) d
        = selects Doc leaf (textClause (get (body req) "query")) d)
  /\ (search_reply backend (unfilteredQuery q) = None ->
      (search Number backend cache req).1.1 = search_failed)
  /\ (is_Some (search_reply backend (unfilteredQuery q)) ->
      status (search Number backend cache req).1.1 = 200).
Proof.
  intros Hu Hq Hlen Hd q Hr.
  pose proof (search_guarded Number backend cache req Hu Hq Hlen) as H.
  cbv zeta in H. fold q in H. rewrite Hr, Hd in H. destruct H as [Hcalls H2].
  split; [exact Hcalls|]. split; [done|]. split; [|split].
  - intros Doc leaf d. simpl. by rewrite !andb_true_r.
  - intros Hn. by rewrite Hn in H2.
  - intros [r2 Hs]. by rewrite Hs in H2.
Qed.

Lemma debug_search_drops_scope_witness :
  List.filter is_search
    (search number_of quiet_backend []
       {| headers := JObj [];
          body := obj [("query", str "desi"); ("userEmail", str "a@x.com");
                       ("debug", JBool true)];
          query_of := JObj [] |}).2
  = [EsSearch (sent_query number_of quiet_backend []
                 (search_request (str "desi")));
     EsSearch (unfilteredQuery
                 (sent_query number_of quiet_backend []
                    (search_request (str "desi"))))].
Proof.
  destruct (debug_search_drops_scope number_of quiet_backend []
              {| headers := JObj [];
                 body := obj [("query", str "desi"); ("userEmail", str "a@x.com");
                              ("debug", JBool true)];
                 query_of := JObj [] |}
              {| took := JNum 1; total := JNum 0; hits := [] |})
    as (H & _);
    [reflexivity | reflexivity | vm_compute; lia | reflexivity | reflexivity
    | exact H].
Defined.

Lemma get_key_toJSON_obj k (o : Obj) :
  get_key (toJSON (JObj o)) k = lookup_prop k (toJSON_props o).
Proof. reflexivity. Qed.

(** X22. What a search returns: status 200 and one result per hit, in the
    order of the hits; a result has the stored fields of the hit and its
    identifier, index and score as [$id], [_index] and [_score], a stored
    field of one of these names taking precedence. *)
Theorem results_carry_hits Number backend cache req result :
  truthy (get (body req) "userEmail") = true ->
  truthy (get (body req) "query") = true ->
  (2 <= length (trim (ToString (get (body req) "query"))))%nat ->
  debug_of req = false ->
  search_reply backend (sent_query Number backend cache req) = Some result ->
  status (search Number backend cache req).1.1 = 200
  /\ get (json (search Number backend cache req).1.1) "results"
     = JArr (map (fun h => toJSON (shape_hit h)) (hits result))
  /\ forall h src k,
       hit_source h = JObj src ->
       NoDup (map fst src) ->
       get_key (toJSON (shape_hit h)) k
       = toJSON (if decide (k ∈ map fst src) then lookup_prop k src
                 else lookup_prop k [ (js "$id", hit_id h);
                                      (js "_index", hit_index h);
                                      (js "_score", hit_score h) ]).
Proof.
  intros Hu Hq Hlen Hd Hr.
  pose proof (search_guarded Number backend cache req Hu Hq Hlen) as H.
  cbv zeta in H. rewrite Hr, Hd in H. rewrite H.
  split; [done|]. split.
  - change (get (json (res_json (obj [("results", JArr (map shape_hit (hits result)))])))
              "results")
      with (JArr (map (fun x => match x with JUndef => JNull | _ => toJSON x end)
                    (map shape_hit (hits result)))).
    by rewrite map_map.
  - intros h src k Hs Hnd. unfold shape_hit. rewrite Hs.
    change (own_props (jor (JObj src) (JObj []))) with src.
    rewrite get_key_toJSON_obj, lookup_toJSON_props_nodup.
    + by rewrite lookup_spread.
    + apply spread_nodup. apply (bool_decide_unpack _). by vm_compute.
Qed.

Lemma results_carry_hits_witness :
  get (json (search number_of one_hit_backend [] (search_request (str "desi"))).1.1)
    "results"
  = JArr [ obj [ ("$id", str "t1"); ("_index", str "tasks"); ("_score", JNum 9);
                 ("title", str "Design review"); ("userEmail", str "a@x.com") ] ]
  /\ get_key (toJSON (shape_hit own_hit)) (js "$id") = str "t1"
  /\ get_key (toJSON (shape_hit own_hit)) (js "_index") = str "tasks"
  /\ get_key (toJSON (shape_hit own_hit)) (js "title") = str "Design review"
  /\ get_key (toJSON (shape_hit own_hit)) (js "_score") = JNum 9.
Proof.
  destruct (results_carry_hits number_of one_hit_backend []
              (search_request (str "desi"))
              {| took := JNum 1; total := JNum 1; hits := [own_hit] |})
    as (_ & Hres & Hhit);
    [reflexivity | reflexivity | vm_compute; lia | reflexivity | reflexivity |].
  assert (Hnd : NoDup (map fst (own_props (hit_source own_hit))))
    by (apply (bool_decide_unpack _); by vm_compute).
  split; [rewrite Hres; reflexivity|].
  repeat split;
    rewrite (Hhit own_hit (own_props (hit_source own_hit)) _ eq_refl Hnd);
    reflexivity.
Defined.


(** ** The four-index revision *)

Lemma index_of_put t m es : index_of t (put_index t m es) = m.
Proof. by destruct t. Qed.

Lemma index_of_put_ne t t' m es :
  t' <> t -> index_of t' (put_index t m es) = index_of t' es.
Proof. by destruct t, t'. Qed.

Lemma document_body_tagged t document : tagged t (stored (document_body t document)).
Proof. by destruct t. Qed.

Lemma index_document_upsert es req :
  truthy (get (document_of req) "$id") = true ->
  is_delete_event (event_of req) = false ->
  let t := detectDocType req (document_of req) in
  let key := doc_key (get (document_of req) "$id") in
  let written := stored (document_body t (document_of req)) in
  index_document es req
  = (res_json (obj [("ok", JBool true); ("action", str "upserted");
                    ("id", get (document_of req) "$id");
                    ("index", str (docType_name t))]),
     put_index t (<[key := written]> (index_of t es)) es,
     [EsIndex (js (docType_name t)) key written; EsRefresh (js (docType_name t))]).
Proof. intros Hid Hdel. unfold index_document. by rewrite Hid, Hdel. Qed.

(** X23. The four-index endpoint routes an upsert by the classifier: the
    projection of the payload is stored under its identifier in the index of
    the kind the classifier returns, tagged with that kind, which the response
    names; the three other indices and the other documents of that index are
    untouched. *)
Theorem index_document_routes es req :
  truthy (get (document_of req) "$id") = true ->
  is_delete_event (event_of req) = false ->
  let t := detectDocType req (document_of req) in
  let key := doc_key (get (document_of req) "$id") in
  let es' := (index_document es req).1.2 in
  get (json (index_document es req).1.1) "index" = str (docType_name t)
  /\ (exists d, index_of t es' !! key = Some d
                /\ d = stored (document_body t (document_of req))
                /\ tagged t d)
  /\ (forall t', t' <> t -> index_of t' es' = index_of t' es)
  /\ (forall key', key' <> key -> index_of t es' !! key' = index_of t es !! key').
Proof.
  intros Hid Hdel t key es'. subst es'.
  rewrite (index_document_upsert es req Hid Hdel). fold t key. simpl.
  split; [|split; [|split]].
  - destruct (get (document_of req) "$id") eqn:E; try done; by destruct t.
  - eexists. rewrite index_of_put, lookup_insert_eq.
    split; [done|]. split; [done|]. apply document_body_tagged.
  - intros t' Ht. by apply index_of_put_ne.
  - intros key' Hk. by rewrite index_of_put, lookup_insert_ne.
Qed.

Lemma index_document_routes_witness :
  idx_orgmembers (index_document empty_store4 note_as_member).1.2 !! js "n1"
  = Some (stored (document_body OrgMembers (document_of note_as_member))).
Proof.
  destruct (index_document_routes empty_store4 note_as_member)
    as (_ & (d & Hd & -> & _) & _); [reflexivity | reflexivity | exact Hd].
Defined.

Lemma index_document_deleted es req :
  truthy (get (document_of req) "$id") = true ->
  is_delete_event (event_of req) = true ->
  let id := get (document_of req) "$id" in
  index_document es req
  = (res_json (obj [("ok", JBool true); ("action", str "deleted"); ("id", id)]),
     {| idx_tasks := delete (doc_key id) (idx_tasks es);
        idx_organizations := delete (doc_key id) (idx_organizations es);
        idx_teams := delete (doc_key id) (idx_teams es);
        idx_orgmembers := delete (doc_key id) (idx_orgmembers es) |},
     map (fun idx => EsDelete (js idx) (doc_key id)) INDICES4).
Proof. intros Hid Hdel. unfold index_document. by rewrite Hid, Hdel. Qed.

(** X24. A delete event removes the identifier from all four indices, asks
    the store for the four deletions and no refresh, and leaves every other
    document where it is. *)
Theorem index_document_delete es req :
  truthy (get (document_of req) "$id") = true ->
  is_delete_event (event_of req) = true ->
  let key := doc_key (get (document_of req) "$id") in
  let es' := (index_document es req).1.2 in
  status (index_document es req).1.1 = 200
  /\ (index_document es req).2
     = [EsDelete (js "tasks") key; EsDelete (js "organizations") key;
        EsDelete (js "teams") key; EsDelete (js "orgmembers") key]
  /\ (forall t, index_of t es' !! key = None)
  /\ (forall t key', key' <> key -> index_of t es' !! key' = index_of t es !! key').
Proof.
  intros Hid Hdel key es'. subst es'.
  unfold index_document. rewrite Hid, Hdel. simpl. fold key.
  split; [done|]. split; [done|]. split.
  - intros []; apply lookup_delete_eq.
  - intros [] key' Hk; by apply lookup_delete_ne.
Qed.

Lemma index_document_delete_witness :
  idx_tasks
    (index_document (index_document empty_store4 note_as_task).1.2 note_delete).1.2
  !! js "n1" = None.
Proof.
  destruct (index_document_delete
              (index_document empty_store4 note_as_task).1.2 note_delete)
    as (_ & _ & H & _); [reflexivity | reflexivity | exact (H Tasks)].
Defined.

Lemma index_document_tagged es req :
  (forall t k d, index_of t es !! k = Some d -> tagged t d) ->
  forall t k d, index_of t (index_document es req).1.2 !! k = Some d -> tagged t d.
Proof.
  intros Hinv t k d.
  destruct (truthy (get (document_of req) "$id")) eqn:Hid.
  - destruct (is_delete_event (event_of req)) eqn:Hdel.
    + rewrite (index_document_deleted es req Hid Hdel). cbv zeta. cbn [fst snd].
      destruct (decide (k = doc_key (get (document_of req) "$id"))) as [->|Hne].
      * destruct t; simpl; by rewrite lookup_delete_eq.
      * intros Hd. apply (Hinv t k).
        destruct t; simpl in *; by rewrite lookup_delete_ne in Hd.
    + rewrite (index_document_upsert es req Hid Hdel). simpl.
      assert (t = detectDocType req (document_of req)
              \/ t <> detectDocType req (document_of req)) as [->|Ht]
        by (destruct t, (detectDocType req (document_of req));
            first [by left | by right]).
      * rewrite index_of_put.
        destruct (decide (k = doc_key (get (document_of req) "$id"))) as [->|Hne].
        -- rewrite lookup_insert_eq. intros [= <-]. apply document_body_tagged.
        -- rewrite lookup_insert_ne by done. apply Hinv.
      * rewrite index_of_put_ne by done. apply Hinv.
  - unfold index_document. rewrite Hid. simpl. apply Hinv.
Qed.

(** X25. Invariant of the four-index store: after any sequence of requests
    from the empty store, every document an index holds is tagged with the
    name of that index. *)
Theorem index_holds_its_kind reqs t k d :
  index_of t (index_documents empty_store4 reqs) !! k = Some d -> tagged t d.
Proof.
  revert t k d.
  assert (H : forall es,
             (forall t k d, index_of t es !! k = Some d -> tagged t d) ->
             forall t k d,
               index_of t (index_documents es reqs) !! k = Some d -> tagged t d).
  { induction reqs as [|req reqs IH]; intros es Hinv; [exact Hinv|].
    simpl. apply IH. by apply index_document_tagged. }
  apply H. intros [] k d; simpl; by rewrite lookup_empty.
Qed.

Lemma index_holds_its_kind_witness :
  tagged OrgMembers (stored (document_body OrgMembers (document_of note_as_member))).
Proof.
  apply (index_holds_its_kind [note_as_task; note_as_member] OrgMembers (js "n1")).
  reflexivity.
Defined.

(** X26. A payload sent again under the same identifier but classified as
    another kind is stored a second time: the copy in the first index stays
    as it was, and only a delete event removes both. *)
Theorem reclassified_document_is_duplicated es req1 req2 :
  truthy (get (document_of req1) "$id") = true ->
  truthy (get (document_of req2) "$id") = true ->
  is_delete_event (event_of req1) = false ->
  is_delete_event (event_of req2) = false ->
  doc_key (get (document_of req1) "$id") = doc_key (get (document_of req2) "$id") ->
  detectDocType req1 (document_of req1) <> detectDocType req2 (document_of req2) ->
  let key := doc_key (get (document_of req1) "$id") in
  let es' := index_documents es [req1; req2] in
  index_of (detectDocType req1 (document_of req1)) es' !! key
  = Some (stored (document_body (detectDocType req1 (document_of req1))
                    (document_of req1)))
  /\ index_of (detectDocType req2 (document_of req2)) es' !! key
     = Some (stored (document_body (detectDocType req2 (document_of req2))
                       (document_of req2))).
Proof.
  intros Hid1 Hid2 Hdel1 Hdel2 Hkey Hne key es'. subst es' key.
  unfold index_documents. simpl.
  rewrite (index_document_upsert _ req2 Hid2 Hdel2),
    (index_document_upsert _ req1 Hid1 Hdel1). simpl. split.
  - rewrite index_of_put_ne, index_of_put by done. apply lookup_insert_eq.
  - rewrite index_of_put, <- Hkey. apply lookup_insert_eq.
Qed.

Lemma reclassified_document_is_duplicated_witness :
  idx_tasks (index_documents empty_store4 [note_as_task; note_as_member]) !! js "n1"
  = Some (stored (document_body Tasks (document_of note_as_task)))
  /\ idx_orgmembers (index_documents empty_store4 [note_as_task; note_as_member])
     !! js "n1"
     = Some (stored (document_body OrgMembers (document_of note_as_member))).
Proof.
  apply (reclassified_document_is_duplicated empty_store4 note_as_task note_as_member);
    try reflexivity.
  by vm_compute.
Defined.

(** X27. A hint that names an index decides the kind: when the request
    carries, as its first hint, a string that is the name of one of the four
    indices in any letter case, the document is classified as that kind
    whatever its fields, and an upsert stores it in that index. *)
Theorem hint_names_the_index es req e t :
  explicit_hint req = JStr e ->
  toLowerCase e = js (docType_name t) ->
  (forall doc, detectDocType req doc = t)
  /\ (truthy (get (document_of req) "$id") = true ->
      is_delete_event (event_of req) = false ->
      index_of t (index_document es req).1.2
        !! doc_key (get (document_of req) "$id")
      = Some (stored (document_body t (document_of req)))).
Proof.
  intros He Hlow.
  assert (Hd : forall doc, detectDocType req doc = t).
  { intros doc. unfold detectDocType. rewrite He. cbv zeta. rewrite Hlow.
    by destruct t. }
  split; [exact Hd|].
  intros Hid Hdel. rewrite (index_document_upsert es req Hid Hdel). simpl.
  rewrite Hd, index_of_put. apply lookup_insert_eq.
Qed.

Lemma hint_names_the_index_witness :
  detectDocType hinted_team (document_of hinted_team) = Teams.
Proof.
  destruct (hint_names_the_index empty_store4 hinted_team (js "Teams") Teams)
    as [H _]; [reflexivity | reflexivity | apply H].
Defined.

(** X28. The search of the four-index revision: the query scopes tasks,
    organizations and organization members by the caller's e-mail address,
    each by a [term] or a [match] clause, and selects every team document the
    text clause selects, whoever asks. *)
Theorem four_index_search_scope Number backend cache req :
  truthy (get (body req) "userEmail") = true ->
  truthy (get (body req) "query") = true ->
  (2 <= length (trim (ToString (get (body req) "query"))))%nat ->
  let userEmail := get (body req) "userEmail" in
  exists q c_task c_org c_member,
    first_search (search_four_index Number backend cache req).2 = Some q
    /\ sr_index q = map js INDICES4
    /\ (c_task = Term (js "userEmail.keyword") userEmail
        \/ c_task = Match (js "userEmail") userEmail)
    /\ (c_org = Term (js "members.email.keyword") userEmail
        \/ c_org = Match (js "members.email") userEmail)
    /\ (c_member = Term (js "email.keyword") userEmail
        \/ c_member = Match (js "email") userEmail)
    /\ forall Doc (leaf : Clause -> Doc -> bool) d,
         selects Doc leaf (sr_query q) d
         = leaf (MultiMatch (ToString (get (body req) "query")) (js "bool_prefix")
                   (map js fieldsToSearch) (js "and")) d
           && ((leaf (Term (js "docType") (str "tasks")) d && leaf c_task d)
               || (leaf (Term (js "docType") (str "organizations")) d && leaf c_org d)
               || (leaf (Term (js "docType") (str "orgmembers")) d && leaf c_member d)
               || leaf (Term (js "docType") (str "teams")) d).
Proof.
  intros Hu Hq Hlen userEmail.
  destruct (get_truthy_object _ _ Hu) as [o Hb].
  set (m := JObj (match cache with
                  | [] => loadMappingSummary4 cache (mapping_reply backend)
                  | _ => cache
                  end)).
  exists (esQuery4 Number m (get (body req) "query") userEmail (limit_of req)),
    (termOrMatch m userEmail "userEmail" "tasks" "userEmail"),
    (termOrMatch m userEmail "members.email" "organizations" "members.email"),
    (termOrMatch m userEmail "email" "orgmembers" "email").
  split.
  { subst m userEmail. unfold limit_of, search_four_index.
    rewrite Hb in *. cbv iota. rewrite Hu, Hq.
    assert ((length (trim (ToString (get (JObj o) "query"))) <? 2)%nat = false) as ->
      by (apply Nat.ltb_ge; lia).
    change (negb true) with false. change (false || false) with false. cbv iota.
    destruct cache as [|kv cache]; by destruct (search_reply backend _). }
  split; [done|].
  split; [apply termOrMatch_cases|].
  split; [apply termOrMatch_cases|].
  split; [apply termOrMatch_cases|].
  intros Doc leaf d.
  cbn [sr_query esQuery4 userFilters_four_index selects forallb List.filter].
  assert (Hleaf : forall field idx,
             selects Doc leaf (termOrMatch m userEmail field idx field) d
             = leaf (termOrMatch m userEmail field idx field) d).
  { intros field idx. by destruct (termOrMatch_cases m userEmail field idx) as [-> | ->]. }
  rewrite !Hleaf.
  destruct (leaf (MultiMatch _ _ _ _) d); [|done].
  destruct (leaf (Term (js "docType") (str "tasks")) d),
    (leaf (termOrMatch m userEmail "userEmail" "tasks" "userEmail") d),
    (leaf (Term (js "docType") (str "organizations")) d),
    (leaf (termOrMatch m userEmail "members.email" "organizations" "members.email") d),
    (leaf (Term (js "docType") (str "orgmembers")) d),
    (leaf (termOrMatch m userEmail "email" "orgmembers" "email") d),
    (leaf (Term (js "docType") (str "teams")) d); reflexivity.
Qed.

Lemma four_index_search_scope_witness :
  exists q,
    first_search
      (search_four_index number_of quiet_backend [] (search_request (str "desi"))).2
    = Some q
    /\ sr_index q = map js INDICES4.
Proof.
  destruct (four_index_search_scope number_of quiet_backend []
              (search_request (str "desi")))
    as (q & _ & _ & _ & H1 & H2 & _);
    [reflexivity | reflexivity | vm_compute; lia |].
  exists q. split; [exact H1 | exact H2].
Defined.

(** ** The single-index revision *)

Lemma strict_eq_str a s : strict_eq a (JStr s) = true <-> a = JStr s.
Proof.
  destruct a; simpl; try (split; [done | intros [=]]).
  rewrite bool_decide_eq_true. split; [by intros -> | by intros [= ->]].
Qed.

(** X29. With a webhook secret configured, a request that does not present
    exactly that secret (in [x-webhook-secret], or in [x-webhook-token] when
    the former is absent or empty) is answered 401 before anything is read or
    written; one that presents it is treated as if no secret were
    configured. *)
Theorem webhook_secret_guards env es req secret :
  WEBHOOK_SECRET env = Some secret ->
  secret <> [] ->
  (presented_secret req <> JStr secret ->
   index_single env es req
   = (res_status_json 401 (obj [("ok", JBool false); ("error", str "unauthorized")]),
      es, []))
  /\ (presented_secret req = JStr secret ->
      index_single env es req
      = index_single {| ELASTIC_INDEX := ELASTIC_INDEX env; WEBHOOK_SECRET := None |}
          es req).
Proof.
  intros Hs Hne. destruct secret as [|c s]; [done|].
  unfold index_single, authorized. rewrite Hs. fold (presented_secret req).
  cbn [WEBHOOK_SECRET ELASTIC_INDEX].
  destruct (strict_eq (presented_secret req) (JStr (c :: s))) eqn:E.
  - apply strict_eq_str in E. split; [done|]. intros _. reflexivity.
  - split; [done|]. intros Hp. apply strict_eq_str in Hp. congruence.
Qed.

Lemma webhook_secret_guards_witness :
  status (index_single secret_env ∅ design_review_request).1.1 = 401.
Proof.
  destruct (webhook_secret_guards secret_env ∅ design_review_request (js "s3cret"))
    as [H _]; [reflexivity | done |].
  rewrite H; [reflexivity | done].
Defined.

(** ** GET /api/mappings *)

Lemma searches_keep Number kv cache rs :
  searches Number (kv :: cache) rs = kv :: cache.
Proof.
  induction rs as [|[backend req] rs IH]; [done|].
  unfold searches in *. simpl.
  by rewrite (proj1 (search_keeps_cache Number backend kv cache req)).
Qed.

(** X30. The mappings endpoint answers 200 whether or not the store hands
    out the schema. Without [refresh=true] it leaves the summary as it is and
    asks the store once; with it, and a schema the store returns, the summary
    is replaced by the one computed from that schema, the response shows it,
    and every later search goes by it without loading again. *)
Theorem refresh_renews_summary Number backend raw_reply cache req o :
  query_of req = JObj o ->
  let r := mappings backend raw_reply cache req in
  status r.1.1 = 200
  /\ (get (query_of req) "refresh" <> str "true" ->
      r.1.2 = cache
      /\ length (List.filter is_get_mapping r.2) = 1%nat)
  /\ (get (query_of req) "refresh" = str "true" ->
      forall raw,
        mapping_reply backend = Some raw ->
        truthy raw = true ->
        r.1.2 = loadMappingSummary cache (Some raw)
        /\ get (json r.1.1) "summary" = toJSON (JObj r.1.2)
        /\ forall rs, searches Number r.1.2 rs = r.1.2).
Proof.
  intros Ho r. subst r. unfold mappings. rewrite Ho. cbv iota.
  destruct (strict_eq (get (JObj o) "refresh") (str "true")) eqn:E.
  - apply strict_eq_str in E. split; [done|]. split; [done|].
    intros _ raw Hraw Ht. rewrite Hraw. cbn [fst snd].
    split; [done|]. split.
    + unfold res_json, json, get, obj. simpl map.
      rewrite get_key_toJSON_obj, lookup_toJSON_props by done. reflexivity.
    + intros rs. destruct raw; try done; apply searches_keep.
  - split; [done|]. split; [by split|].
    intros Hr. apply (proj2 (strict_eq_str _ (js "true"))) in Hr.
    unfold str in E. congruence.
Qed.

Lemma refresh_renews_summary_witness :
  (mappings quiet_backend (fun _ => None) [] refresh_request).1.2
  = loadMappingSummary [] (Some keyword_mapping).
Proof.
  destruct (refresh_renews_summary number_of quiet_backend (fun _ => None) []
              refresh_request [(js "refresh", str "true")])
    as (_ & _ & H); [reflexivity|].
  destruct (H eq_refl keyword_mapping) as [H1 _]; [reflexivity | reflexivity |].
  exact H1.
Defined.

(** ** The scope of a search *)

Lemma search_calls Number backend cache req :
  truthy (get (body req) "userEmail") = true ->
  truthy (get (body req) "query") = true ->
  (2 <= length (trim (ToString (get (body req) "query"))))%nat ->
  let q := sent_query Number backend cache req in
  (search Number backend cache req).2
  = match cache with
    | [] => [EsGetMapping (map js INDICES)]
    | _ => []
    end
    ++ EsSearch q
       :: match search_reply backend q with
          | Some _ => if debug_of req then [EsSearch (unfilteredQuery q)] else []
          | None => []
          end.
Proof.
  intros Hu Hq Hlen.
  destruct (get_truthy_object _ _ Hu) as [o Hb].
  unfold sent_query, limit_of, search. rewrite Hb in *. cbv iota. rewrite Hu, Hq.
  assert ((length (trim (ToString (get (JObj o) "query"))) <? 2)%nat = false) as ->
    by (apply Nat.ltb_ge; lia).
  change (negb true) with false. change (false || false) with false. cbv iota.
  unfold summary_in_effect.
  destruct cache as [|kv cache].
  - cbv zeta. destruct (search_reply backend _) as [result|]; [|done].
    destruct (debug_of req); [|done].
    by destruct (search_reply backend (unfilteredQuery _)).
  - cbv zeta. destruct (search_reply backend _) as [result|]; [|done].
    destruct (debug_of req); [|done].
    by destruct (search_reply backend (unfilteredQuery _)).
Qed.

Lemma search_four_index_first Number backend cache req :
  truthy (get (body req) "userEmail") = true ->
  truthy (get (body req) "query") = true ->
  (2 <= length (trim (ToString (get (body req) "query"))))%nat ->
  first_search (search_four_index Number backend cache req).2
  = Some (esQuery4 Number (JObj (summary_in_effect4 backend cache))
            (get (body req) "query") (get (body req) "userEmail") (limit_of req)).
Proof.
  intros Hu Hq Hlen.
  destruct (get_truthy_object _ _ Hu) as [o Hb].
  unfold limit_of, search_four_index, summary_in_effect4.
  rewrite Hb in *. cbv iota. rewrite Hu, Hq.
  assert ((length (trim (ToString (get (JObj o) "query"))) <? 2)%nat = false) as ->
    by (apply Nat.ltb_ge; lia).
  change (negb true) with false. change (false || false) with false. cbv iota.
  destruct cache as [|kv cache]; by destruct (search_reply backend _).
Qed.

(** C1. A search request with a userEmail and a query of trimmed length at
    least 2 sends the store, as its first search, the conjunction of the
    prefix-tolerant multi-field text clause with a visibility filter that is
    a disjunction, at least one of which must hold, of exactly two branches:
    a document of the tasks index with a clause on the caller's e-mail
    address that is an exact term on [userEmail.keyword] when the schema
    summary in effect reports an exact sub-field for it and a fuzzy match on
    [userEmail] otherwise, and a document of the organizations index with
    the like clause on [members.email]. A document is selected by it exactly
    when the text clause selects it and one of the two branches does. This
    is the only search of the request unless it asks for the diagnostic mode:
    then, after the first search succeeded, a second one is sent whose filter
    is empty and which selects whatever the text clause selects. In the
    four-index revision the first search has four branches, scoped by
    [docType]: tasks, organizations and organization members, each with such
    a clause on the caller's address, and teams with none, so that a team
    the text clause selects is selected for every caller. *)
Theorem search_query_scoped Number backend cache req :
  truthy (get (body req) "userEmail") = true ->
  truthy (get (body req) "query") = true ->
  (2 <= length (trim (ToString (get (body req) "query"))))%nat ->
  let userEmail := get (body req) "userEmail" in
  let text operator :=
    MultiMatch (ToString (get (body req) "query")) (js "bool_prefix")
      (map js fieldsToSearch) (js operator) in
  let scope summary idx field :=
    if reports_exact summary idx field
    then Term (js field ++ js ".keyword") userEmail
    else Match (js field) userEmail in
  let summary := summary_in_effect backend cache in
  let q := sent_query Number backend cache req in
  let summary4 := summary_in_effect4 backend cache in
  let q4 := esQuery4 Number (JObj summary4) (get (body req) "query") userEmail
              (limit_of req) in
  first_search (search Number backend cache req).2 = Some q
  /\ sr_query q
     = BoolQ [text "or"]
         [ BoolQ [] []
             [ BoolQ [ Term (js "_index") (str "tasks");
                       scope summary "tasks" "userEmail" ] [] [] None;
               BoolQ [ Term (js "_index") (str "organizations");
                       scope summary "organizations" "members.email" ] [] [] None ]
             (Some 1%nat) ]
         [] None
  /\ (forall Doc (leaf : Clause -> Doc -> bool) d,
        selects Doc leaf (sr_query q) d
        = leaf (text "or") d
          && ((leaf (Term (js "_index") (str "tasks")) d
               && leaf (scope summary "tasks" "userEmail") d)
              || (leaf (Term (js "_index") (str "organizations")) d
                  && leaf (scope summary "organizations" "members.email") d)))
  /\ List.filter is_search (search Number backend cache req).2
     = EsSearch q
       :: match search_reply backend q with
          | Some _ => if debug_of req then [EsSearch (unfilteredQuery q)] else []
          | None => []
          end
  /\ sr_query (unfilteredQuery q) = BoolQ [text "or"] [] [] None
  /\ (forall Doc (leaf : Clause -> Doc -> bool) d,
        selects Doc leaf (sr_query (unfilteredQuery q)) d = leaf (text "or") d)
  /\ first_search (search_four_index Number backend cache req).2 = Some q4
  /\ sr_query q4
     = BoolQ [text "and"]
         [ BoolQ [] []
             [ BoolQ [ Term (js "docType") (str "tasks");
                       scope summary4 "tasks" "userEmail" ] [] [] None;
               BoolQ [ Term (js "docType") (str "organizations");
                       scope summary4 "organizations" "members.email" ] [] [] None;
               BoolQ [ Term (js "docType") (str "orgmembers");
                       scope summary4 "orgmembers" "email" ] [] [] None;
               Term (js "docType") (str "teams") ]
             (Some 1%nat) ]
         [] None
  /\ (forall Doc (leaf : Clause -> Doc -> bool) d,
        leaf (text "and") d = true ->
        leaf (Term (js "docType") (str "teams")) d = true ->
        selects Doc leaf (sr_query q4) d = true).
Proof.
  intros Hu Hq Hlen userEmail text scope summary q summary4 q4.
  pose proof (search_calls Number backend cache req Hu Hq Hlen) as Hcalls.
  cbv zeta in Hcalls. fold q in Hcalls.
  assert (Hshape : forall s idx field,
             termOrMatch (JObj s) userEmail field idx field = scope s idx field).
  { intros s idx field. rewrite termOrMatch_reports. subst scope. cbv beta.
    by destruct field. }
  assert (Hleaf : forall Doc (leaf : Clause -> Doc -> bool) s idx field d,
             selects Doc leaf (scope s idx field) d = leaf (scope s idx field) d).
  { intros. subst scope. cbv beta. by destruct (reports_exact _ _ _). }
  assert (Hquery : sr_query q
                   = BoolQ [text "or"]
                       [ BoolQ [] []
                           [ BoolQ [ Term (js "_index") (str "tasks");
                                     scope summary "tasks" "userEmail" ] [] [] None;
                             BoolQ [ Term (js "_index") (str "organizations");
                                     scope summary "organizations" "members.email" ]
                                   [] [] None ]
                           (Some 1%nat) ]
                       [] None).
  { subst q. unfold sent_query, esQuery, userFilters. cbn [sr_query].
    by rewrite !Hshape. }
  assert (Hquery4 : sr_query q4
                    = BoolQ [text "and"]
                        [ BoolQ [] []
                            [ BoolQ [ Term (js "docType") (str "tasks");
                                      scope summary4 "tasks" "userEmail" ] [] [] None;
                              BoolQ [ Term (js "docType") (str "organizations");
                                      scope summary4 "organizations" "members.email" ]
                                    [] [] None;
                              BoolQ [ Term (js "docType") (str "orgmembers");
                                      scope summary4 "orgmembers" "email" ] [] [] None;
                              Term (js "docType") (str "teams") ]
                            (Some 1%nat) ]
                        [] None).
  { subst q4. unfold esQuery4, userFilters_four_index. cbn [sr_query].
    by rewrite !Hshape. }
  split. { rewrite Hcalls. by destruct cache. }
  split; [exact Hquery|].
  split. { intros Doc leaf d. rewrite Hquery, selects_scoped. by rewrite !Hleaf. }
  split.
  { rewrite Hcalls.
    destruct cache; destruct (search_reply backend q); try destruct (debug_of req);
      reflexivity. }
  split. { unfold unfilteredQuery. cbn [sr_query]. by rewrite Hquery. }
  split.
  { intros Doc leaf d. unfold unfilteredQuery. cbn [sr_query]. rewrite Hquery.
    simpl. by rewrite !andb_true_r. }
  split; [by apply search_four_index_first|].
  split; [exact Hquery4|].
  intros Doc leaf d Htext Hteam. rewrite Hquery4.
  subst text. cbv beta in Htext |- *.
  cbn [selects forallb List.filter length]. rewrite Htext, Hteam.
  repeat match goal with
         | |- context [if ?b then _ else _] => destruct b
         end; reflexivity.
Qed.

Lemma search_query_scoped_witness :
  first_search (search number_of quiet_backend [] debug_request).2
  = Some (sent_query number_of quiet_backend [] debug_request)
  /\ sr_query (sent_query number_of quiet_backend [] debug_request)
     = BoolQ [ MultiMatch (js "desi") (js "bool_prefix") (map js fieldsToSearch)
                 (js "or") ]
         [ BoolQ [] []
             [ BoolQ [ Term (js "_index") (str "tasks");
                       Term (js "userEmail.keyword") (str "a@x.com") ] [] [] None;
               BoolQ [ Term (js "_index") (str "organizations");
                       Match (js "members.email") (str "a@x.com") ] [] [] None ]
             (Some 1%nat) ]
         [] None
  /\ List.filter is_search (search number_of quiet_backend [] debug_request).2
     = [ EsSearch (sent_query number_of quiet_backend [] debug_request);
         EsSearch (unfilteredQuery (sent_query number_of quiet_backend [] debug_request)) ].
Proof.
  destruct (search_query_scoped number_of quiet_backend [] debug_request)
    as (H1 & H2 & _ & H4 & _);
    [reflexivity | reflexivity | vm_compute; lia |].
  split; [exact H1|]. split; [exact H2 | exact H4].
Defined.

Lemma debug_request_searches_unfiltered :
  List.filter is_search (search number_of unscoped_backend [] debug_request).2
  = [ EsSearch (sent_query number_of unscoped_backend [] debug_request);
      EsSearch (unfilteredQuery (sent_query number_of unscoped_backend [] debug_request)) ]
  /\ sr_query (unfilteredQuery (sent_query number_of unscoped_backend [] debug_request))
     = BoolQ [ MultiMatch (js "desi") (js "bool_prefix") (map js fieldsToSearch)
                 (js "or") ] [] [] None
  /\ status (search number_of unscoped_backend [] debug_request).1.1 = 200
  /\ get (get (get (json (search number_of unscoped_backend [] debug_request).1.1)
                 "debug") "unfiltered") "sample"
     = JArr [ obj [ ("$id", str "t7"); ("_index", str "tasks"); ("_score", JNum 3);
                    ("docType", str "tasks"); ("title", str "Design handbook");
                    ("userEmail", str "b@x.com") ] ]
  /\ (exists q4,
        first_search
          (search_four_index number_of quiet_backend [] (search_request (str "desi"))).2
        = Some q4
        /\ length (visibility_branches (sr_query q4)) = 4%nat
        /\ visibility_branches (sr_query q4) !! 3%nat
           = Some (Term (js "docType") (str "teams")))
  /\ scoping_clause 0
       (sr_query (sent_query number_of schemaless_backend []
                    (search_request (str "desi"))))
     = Some (Match (js "userEmail") (str "a@x.com")).
Proof.
  split; [reflexivity|]. split; [reflexivity|]. split; [reflexivity|].
  split; [reflexivity|]. split; [|reflexivity].
  eexists. split; [reflexivity|]. split; reflexivity.
Qed.
